(** * landsat-to-cog: a shallow embedding of [process_landsat.py]

    The worker script pulls one archive key from a queue, downloads and
    unpacks it, reads the USGS descriptor, converts the qualifying rasters
    and publishes them.  Every function of the script is embedded below as
    a Rocq function; calls to the outside (queue, object store, file
    system, subprocess, converter) are answered by an explicit [World]
    and recorded in a trace of events. *)

From Stdlib Require Import List String Ascii Bool Arith Lia ZArith.
Import ListNotations.
Local Open Scope string_scope.
Local Open Scope list_scope.
Local Open Scope nat_scope.

(** String concatenation, Python's [+] on [str]. *)
Infix "+++" := String.append (right associativity, at level 60).



(** ** Python strings

    A Python [str] is embedded as a Rocq [string]; an [ascii] stands for
    one code point below 256. *)

Module PyStr.

Definition slash : ascii := "/"%char.

(** [s.startswith(p)] *)
Fixpoint startswith (s p : string) : bool :=
  match p, s with
  | EmptyString, _ => true
  | String _ _, EmptyString => false
  | String a p', String b s' => Ascii.eqb a b && startswith s' p'
  end.

(** [sub in s] *)
Fixpoint contains (sub s : string) : bool :=
  startswith s sub ||
  match s with
  | EmptyString => false
  | String _ s' => contains sub s'
  end.

(** [s.endswith(suf)] *)
Fixpoint endswith (s suf : string) : bool :=
  String.eqb s suf ||
  match s with
  | EmptyString => false
  | String _ s' => endswith s' suf
  end.

(** [s.split(c)] for a one-character separator: never the empty list. *)
Fixpoint split (c : ascii) (s : string) : list string :=
  match s with
  | EmptyString => [EmptyString]
  | String a r =>
      if Ascii.eqb a c then EmptyString :: split c r
      else match split c r with
           | h :: t => String a h :: t
           | [] => [String a EmptyString]
           end
  end.

(** [l[-1]] of a list that [split] returned. *)
Definition last_item (l : list string) : string := List.last l EmptyString.

(** [l[-2:]] *)
Definition last_two (l : list string) : list string :=
  skipn (List.length l - 2) l.

(** [posixpath.join(a, b)] *)
Definition join2 (a b : string) : string :=
  if startswith b "/" then b
  else if String.eqb a "" || endswith a "/" then a +++ b
  else a +++ "/" +++ b.

(** [posixpath.join(a, *p)] *)
Definition join (a : string) (p : list string) : string :=
  fold_left join2 p a.

(** [posixpath.split(p)]: the text up to and including the last slash,
    and the text after it. *)
Fixpoint rpartition (s : string) : string * string :=
  match s with
  | EmptyString => (EmptyString, EmptyString)
  | String a r =>
      match rpartition r with
      | (EmptyString, t) =>
          if Ascii.eqb a slash then (String a EmptyString, t)
          else (EmptyString, String a t)
      | (h, t) => (String a h, t)
      end
  end.

(** [posixpath.basename(p)] *)
Definition basename (p : string) : string := snd (rpartition p).

Fixpoint all_slashes (s : string) : bool :=
  match s with
  | EmptyString => true
  | String a r => Ascii.eqb a slash && all_slashes r
  end.

(** [s.rstrip('/')] *)
Fixpoint rstrip_slash (s : string) : string :=
  match s with
  | EmptyString => EmptyString
  | String a r =>
      match rstrip_slash r with
      | EmptyString => if Ascii.eqb a slash then EmptyString
                       else String a EmptyString
      | r' => String a r'
      end
  end.

(** [posixpath.dirname(p)] *)
Definition dirname (p : string) : string :=
  let head := fst (rpartition p) in
  if negb (String.eqb head "") && negb (all_slashes head)
  then rstrip_slash head else head.

(** Decimal text of a natural number, [str(n)]. *)
Definition digit (n : nat) : ascii := ascii_of_nat (48 + n mod 10).

Fixpoint dec_aux (fuel n : nat) (acc : string) : string :=
  match fuel with
  | 0 => acc
  | S f =>
      let acc' := String (digit n) acc in
      if n <? 10 then acc' else dec_aux f (n / 10) acc'
  end.

Definition dec (n : nat) : string := dec_aux (S n) n EmptyString.

(** Left padding with zeros to a width, as [%02d] and [%04d] do. *)
Fixpoint zeros (k : nat) : string :=
  match k with
  | 0 => EmptyString
  | S k' => String "0"%char (zeros k')
  end.

Definition zfill (w : nat) (s : string) : string :=
  zeros (w - String.length s) +++ s.

End PyStr.
Import PyStr.

(** ** Exceptions and results *)

Inductive exn : Type :=
| AttributeError                  (* attribute access on [None] *)
| TypeError
| KeyError (key : string)
| ValueError
| ParseError                      (* [xml.etree.ElementTree.ParseError] *)
| RuntimeError (msg : string)
| CalledProcessError (returncode : Z)
| ClientError (code : string)     (* [botocore.exceptions.ClientError] *)
| OSError
| ExternalError (what : string).  (* any other failure of a collaborator *)

Inductive result (A : Type) : Type :=
| Ok (a : A)
| Raise (e : exn).
Arguments Ok {A} a.
Arguments Raise {A} e.

Definition rbind {A B} (r : result A) (k : A -> result B) : result B :=
  match r with
  | Ok a => k a
  | Raise e => Raise e
  end.

Notation "'let?' x := r 'in' k" := (rbind r (fun x => k))
  (at level 10, x name, r at level 100, k at level 200).

(** [o.attr] where [o] may be [None]. *)
Definition deref {A} (o : option A) : result A :=
  match o with
  | Some a => Ok a
  | None => Raise AttributeError
  end.

(** ** [datetime]: [strptime(s, "%Y-%m-%d")] and [strftime("%Y/%m/%d")] *)

Module Datetime.

Record t : Type := mk { year : nat; month : nat; day : nat }.

Definition is_digit (c : ascii) : bool :=
  let n := nat_of_ascii c in (48 <=? n) && (n <=? 57).

Definition digit_val (c : ascii) : nat := nat_of_ascii c - 48.

Definition in_range (lo hi : ascii) (c : ascii) : bool :=
  (nat_of_ascii lo <=? nat_of_ascii c) && (nat_of_ascii c <=? nat_of_ascii hi).

(** [%Y] is the pattern [\d\d\d\d]. *)
Definition parse_Y (s : string) : option (nat * string) :=
  match s with
  | String a (String b (String c (String d r))) =>
      if is_digit a && is_digit b && is_digit c && is_digit d
      then Some (1000 * digit_val a + 100 * digit_val b
                 + 10 * digit_val c + digit_val d, r)
      else None
  | _ => None
  end.

Definition dash : ascii := "-"%char.

(** A literal [-] of the format. *)
Definition parse_dash (s : string) : option string :=
  match s with
  | String a r => if Ascii.eqb a dash then Some r else None
  | _ => None
  end.

(** [%m] is [1[0-2]|0[1-9]|[1-9]]; the alternatives are tried in
    order and the one kept is the first after which the rest of the
    format, the literal [-], still matches. *)
Definition parse_m_dash (s : string) : option (nat * string) :=
  match s with
  | String a (String b (String c r)) =>
      if Ascii.eqb a "1" && in_range "0" "2" b && Ascii.eqb c dash
      then Some (10 + digit_val b, r)
      else if Ascii.eqb a "0" && in_range "1" "9" b && Ascii.eqb c dash
      then Some (digit_val b, r)
      else if in_range "1" "9" a && Ascii.eqb b dash
      then Some (digit_val a, String c r)
      else None
  | String a (String b r) =>
      if in_range "1" "9" a && Ascii.eqb b dash
      then Some (digit_val a, r) else None
  | _ => None
  end.

(** [%d] is [3[0-1]|[1-2]\d|0[1-9]|[1-9]| [1-9]], last in the format:
    the first alternative that matches is kept. *)
Definition parse_d (s : string) : option (nat * string) :=
  match s with
  | String a r =>
      match r with
      | String b r' =>
          if Ascii.eqb a "3" && in_range "0" "1" b
          then Some (30 + digit_val b, r')
          else if in_range "1" "2" a && is_digit b
          then Some (10 * digit_val a + digit_val b, r')
          else if Ascii.eqb a "0" && in_range "1" "9" b
          then Some (digit_val b, r')
          else if in_range "1" "9" a then Some (digit_val a, r)
          else if Ascii.eqb a " " && in_range "1" "9" b
          then Some (digit_val b, r')
          else None
      | EmptyString =>
          if in_range "1" "9" a then Some (digit_val a, r) else None
      end
  | EmptyString => None
  end.

Definition is_leap (y : nat) : bool :=
  (y mod 4 =? 0) && (negb (y mod 100 =? 0) || (y mod 400 =? 0)).

Definition days_in_month (y m : nat) : nat :=
  match m with
  | 2 => if is_leap y then 29 else 28
  | 4 | 6 | 9 | 11 => 30
  | _ => 31
  end.

(** [datetime.MAXYEAR] *)
Definition MAXYEAR : nat := 9 * 1000 + 999.

(** The range checks of the [datetime] constructor. *)
Definition valid (d : t) : bool :=
  (1 <=? year d) && (year d <=? MAXYEAR) &&
  (1 <=? month d) && (month d <=? 12) &&
  (1 <=? day d) && (day d <=? days_in_month (year d) (month d)).

(** [datetime.datetime.strptime(s, "%Y-%m-%d")]; [ValueError] when the
    text does not match, when text remains, or when the date does not
    exist. *)
Definition strptime (s : string) : result t :=
  match parse_Y s with
  | None => Raise ValueError
  | Some (y, s1) =>
      match parse_dash s1 with
      | None => Raise ValueError
      | Some s2 =>
          match parse_m_dash s2 with
          | None => Raise ValueError
          | Some (m, s3) =>
              match parse_d s3 with
              | Some (d, EmptyString) =>
                  let dt := mk y m d in
                  if valid dt then Ok dt else Raise ValueError
              | _ => Raise ValueError
              end
          end
      end
  end.

(** [dt.strftime("%Y/%m/%d")], with the year in four digits as the
    documentation of [strftime] has it; below the year 1000 the width is
    the choice of the C library. *)
Definition strftime (dt : t) : string :=
  zfill 4 (dec (year dt)) +++ "/" +++ zfill 2 (dec (month dt))
  +++ "/" +++ zfill 2 (dec (day dt)).

End Datetime.

(** ** The regular expression of [get_metadata]

    The pattern is [\s], the text [xmlns=], a double quote, [[^Q]+] and a
    double quote, where [Q] stands for the double quote; the call is
    [re.sub(pattern, '', xmlstring, count=1)]. *)

Module Re.

Definition quote : ascii := ascii_of_nat 34.

(** [\s] on a [str] pattern: the Unicode white space below 256. *)
Definition is_space (c : ascii) : bool :=
  let n := nat_of_ascii c in
  ((9 <=? n) && (n <=? 13)) || ((28 <=? n) && (n <=? 32))
  || (n =? 133) || (n =? 160).

(** The text after the first [quote] of [s]. *)
Fixpoint after_quote (s : string) : option string :=
  match s with
  | EmptyString => None
  | String c r => if Ascii.eqb c quote then Some r else after_quote r
  end.

(** [[^Q]+Q] at the head of [s]: at least one character other than the
    quote, then as many as there are, then the quote. *)
Definition match_value (s : string) : option string :=
  match s with
  | EmptyString => None
  | String c r => if Ascii.eqb c quote then None else after_quote r
  end.

Definition xmlns_eq_quote : string := "xmlns=" +++ String quote EmptyString.

(** [drop_prefix p s] is [Some r] when [s = p ++ r]. *)
Fixpoint drop_prefix (p s : string) : option string :=
  match p, s with
  | EmptyString, _ => Some s
  | String a p', String b s' =>
      if Ascii.eqb a b then drop_prefix p' s' else None
  | String _ _, EmptyString => None
  end.

(** A match of the whole pattern at the head of [s]; the result is the
    text that follows the match. *)
Definition match_here (s : string) : option string :=
  match s with
  | String c r =>
      if is_space c then
        match drop_prefix xmlns_eq_quote r with
        | Some v => match_value v
        | None => None
        end
      else None
  | EmptyString => None
  end.

(** [re.sub(pattern, '', s, count=1)]: the leftmost match is removed. *)
Fixpoint sub_xmlns (s : string) : string :=
  match match_here s with
  | Some rest => rest
  | None =>
      match s with
      | EmptyString => EmptyString
      | String c r => String c (sub_xmlns r)
      end
  end.

End Re.

(** ** [xml.etree.ElementTree]: elements and the two [find] paths used *)

Module ElementTree.

#[local] Unset Elimination Schemes.
Inductive Element : Type :=
| mkElement (tag : string) (attrib : list (string * string))
            (text : option string) (children : list Element).

#[local] Set Elimination Schemes.

Definition tag (e : Element) : string :=
  match e with mkElement t _ _ _ => t end.
Definition attrib (e : Element) : list (string * string) :=
  match e with mkElement _ a _ _ => a end.
Definition text (e : Element) : option string :=
  match e with mkElement _ _ t _ => t end.
Definition children (e : Element) : list Element :=
  match e with mkElement _ _ _ c => c end.

(** [e.iter()]: the element and its descendants in document order. *)
Fixpoint iter (e : Element) : list Element :=
  match e with
  | mkElement _ _ _ cs => e :: flat_map iter cs
  end.

(** [e.find(name)]: the first child with that tag. *)
Definition find_child (name : string) (e : Element) : option Element :=
  List.find (fun c => String.eqb (tag c) name) (children e).

(** [e.find('.//' + name)]: the first proper descendant with that tag. *)
Definition find_descendant (name : string) (e : Element) : option Element :=
  List.find (fun c => String.eqb (tag c) name) (flat_map iter (children e)).

(** [d[key]] on the attribute dictionary. *)
Fixpoint getitem (d : list (string * string)) (key : string) : result string :=
  match d with
  | [] => Raise (KeyError key)
  | (k, v) :: d' => if String.eqb k key then Ok v else getitem d' key
  end.

End ElementTree.

(** ** A parser for a fragment of XML

    [ElementTree.fromstring] is a library function; [process_one] takes it
    from the [World].  The parser below is that function on documents made
    of elements, attributes in single or double quotes, default namespace
    declarations and character data.  Anything else (prolog, comments,
    processing instructions, entity references, prefixed names, carriage
    returns, characters outside printable ASCII) is reported as
    [Unsupported] and left to the [World]. *)

Module XmlFragment.
Import ElementTree.

Inductive presult (A : Type) : Type :=
| Parsed (a : A)
| Malformed
| Unsupported.
Arguments Parsed {A} a.
Arguments Malformed {A}.
Arguments Unsupported {A}.

Definition pbind {A B} (r : presult A) (k : A -> presult B) : presult B :=
  match r with
  | Parsed a => k a
  | Malformed => Malformed
  | Unsupported => Unsupported
  end.

Notation "'let!' x := r 'in' k" := (pbind r (fun x => k))
  (at level 10, x pattern, r at level 100, k at level 200).

Definition code (c : ascii) : nat := nat_of_ascii c.

Definition xml_space (c : ascii) : bool :=
  (code c =? 32) || (code c =? 9) || (code c =? 10).

Definition is_letter (c : ascii) : bool :=
  ((65 <=? code c) && (code c <=? 90)) || ((97 <=? code c) && (code c <=? 122)).

Definition colon : ascii := ":"%char.

Definition name_start (c : ascii) : bool :=
  is_letter c || Ascii.eqb c "_" || Ascii.eqb c colon.

Definition name_char (c : ascii) : bool :=
  name_start c || Datetime.is_digit c || Ascii.eqb c "-" || Ascii.eqb c ".".

Fixpoint take_while (p : ascii -> bool) (s : string) : string * string :=
  match s with
  | EmptyString => (EmptyString, EmptyString)
  | String c r =>
      if p c then let (h, t) := take_while p r in (String c h, t)
      else (EmptyString, s)
  end.

Definition skip_space (s : string) : string := snd (take_while xml_space s).

Fixpoint forall_chars (p : ascii -> bool) (s : string) : bool :=
  match s with
  | EmptyString => true
  | String c r => p c && forall_chars p r
  end.

(** The documents of the fragment. *)
Definition supported_char (c : ascii) : bool :=
  ((code c =? 9) || (code c =? 10) || ((32 <=? code c) && (code c <=? 126)))
  && negb (Ascii.eqb c "&").

Definition supported (s : string) : bool :=
  forall_chars supported_char s
  && negb (contains "<!" s) && negb (contains "<?" s)
  && negb (contains "]]>" s).

Definition parse_name (s : string) : presult (string * string) :=
  let (n, r) := take_while name_char s in
  match n with
  | EmptyString => Malformed
  | String c _ =>
      if negb (name_start c) then Malformed
      else if negb (forall_chars (fun c => negb (Ascii.eqb c colon)) n)
      then Unsupported
      else Parsed (n, r)
  end.

(** An attribute value up to its closing quote [qc]; tabs and newlines
    become spaces. *)
Fixpoint att_value (qc : ascii) (s : string) : presult (string * string) :=
  match s with
  | EmptyString => Malformed
  | String c r =>
      if Ascii.eqb c qc then Parsed (EmptyString, r)
      else if Ascii.eqb c "<" then Malformed
      else let! (v, r') := att_value qc r in
           Parsed (String (if xml_space c then " "%char else c) v, r')
  end.

Definition has_key (k : string) (d : list (string * string)) : bool :=
  existsb (fun kv => String.eqb (fst kv) k) d.

(** The attributes of a start tag and how the tag ends: [true] for
    an empty-element tag. *)
Fixpoint parse_attrs (fuel : nat) (s : string) (acc : list (string * string))
  : presult (list (string * string) * bool * string) :=
  match fuel with
  | 0 => Malformed
  | S fuel' =>
      let (ws, r) := take_while xml_space s in
      match r with
      | String ">" r' => Parsed (acc, false, r')
      | String "/" (String ">" r') => Parsed (acc, true, r')
      | _ =>
          if String.eqb ws "" then Malformed else
          let! (n, r1) := parse_name r in
          match skip_space r1 with
          | String "=" r2 =>
              match skip_space r2 with
              | String qc r3 =>
                  if Ascii.eqb qc Re.quote || Ascii.eqb qc "'" then
                    let! (v, r4) := att_value qc r3 in
                    if has_key n acc then Malformed
                    else parse_attrs fuel' r4 (acc ++ [(n, v)])
                  else Malformed
              | EmptyString => Malformed
              end
          | _ => Malformed
          end
      end
  end.

(** An element that is still open. *)
Record frame : Type := mkFrame {
  fr_name : string;                     (* the name as written *)
  fr_tag : string;                      (* the name ElementTree reports *)
  fr_attrib : list (string * string);
  fr_ns : option string;                (* default namespace in scope *)
  fr_text : string;                     (* text before the first child *)
  fr_seen_child : bool;
  fr_children : list Element
}.

(** The default namespace after a start tag: [xmlns='u'] sets it and
    [xmlns=''] clears it. *)
Definition scope_ns (parent : option string) (attrs : list (string * string))
  : option string :=
  match List.find (fun kv => String.eqb (fst kv) "xmlns") attrs with
  | Some (_, EmptyString) => None
  | Some (_, u) => Some u
  | None => parent
  end.

(** ElementTree writes a name in namespace [u] as [{u}name]. *)
Definition qualify (ns : option string) (name : string) : string :=
  match ns with
  | Some u => "{" +++ u +++ "}" +++ name
  | None => name
  end.

Definition open_frame (parent : option string) (name : string)
           (attrs : list (string * string)) : frame :=
  let ns := scope_ns parent attrs in
  mkFrame name (qualify ns name)
          (filter (fun kv => negb (String.eqb (fst kv) "xmlns")) attrs)
          ns EmptyString false [].

Definition close_frame (f : frame) : Element :=
  mkElement (fr_tag f) (fr_attrib f)
            (match fr_text f with
             | EmptyString => None
             | t => Some t
             end)
            (fr_children f).

Definition add_child (f : frame) (e : Element) : frame :=
  mkFrame (fr_name f) (fr_tag f) (fr_attrib f) (fr_ns f) (fr_text f)
          true (fr_children f ++ [e]).

Definition add_char (f : frame) (c : ascii) : frame :=
  if fr_seen_child f then f
  else mkFrame (fr_name f) (fr_tag f) (fr_attrib f) (fr_ns f)
               (fr_text f +++ String c EmptyString) false (fr_children f).

(** After the document element only white space may follow. *)
Definition finish (e : Element) (rest : string) : presult Element :=
  if forall_chars xml_space rest then Parsed e else Malformed.

(** The content of the open elements of [stack], innermost first. *)
Fixpoint parse_content (fuel : nat) (stack : list frame) (s : string)
  : presult Element :=
  match fuel, stack with
  | 0, _ => Malformed
  | _, [] => Malformed
  | S fuel', top :: below =>
      match s with
      | EmptyString => Malformed
      | String "<" (String "/" r) =>
          let! (n, r1) := parse_name r in
          match skip_space r1 with
          | String ">" r2 =>
              if negb (String.eqb n (fr_name top)) then Malformed
              else
                let e := close_frame top in
                match below with
                | [] => finish e r2
                | parent :: below' =>
                    parse_content fuel' (add_child parent e :: below') r2
                end
          | _ => Malformed
          end
      | String "<" r =>
          let! (n, r1) := parse_name r in
          let! (attrs, empty, r2) := parse_attrs (S (String.length r1)) r1 [] in
          let f := open_frame (fr_ns top) n attrs in
          if (empty : bool)
          then parse_content fuel' (add_child top (close_frame f) :: below) r2
          else parse_content fuel' (f :: top :: below) r2
      | String c r => parse_content fuel' (add_char top c :: below) r
      end
  end.

(** [ElementTree.fromstring] on the fragment. *)
Definition fromstring (s : string) : presult Element :=
  if negb (supported s) then Unsupported
  else
    match skip_space s with
    | String "<" r =>
        let! (n, r1) := parse_name r in
        let! (attrs, empty, r2) := parse_attrs (S (String.length r1)) r1 [] in
        let f := open_frame None n attrs in
        if (empty : bool) then finish (close_frame f) r2
        else parse_content (S (String.length r2)) [f] r2
    | _ => Malformed
    end.

End XmlFragment.

(** ** The outside world and the trace of calls *)

Record Message : Type := mkMessage { receipt : string; body : string }.

(** The answer of [s3.list_objects_v2]: the [Contents] of this page if the
    key is there, and behind a [NextContinuationToken] the answer to the
    call that passes it back. *)
Inductive listing : Type :=
| LastPage (contents : option (list string))
| MorePages (contents : option (list string)) (token : string) (next : listing).

Inductive level : Type := DEBUG | INFO | WARNING | ERROR.

Inductive event : Type :=
| Log (lvl : level) (msg : string)
| ReceiveMessages
| DownloadFile (bucket key dest : string)
| CheckCall (command : list string) (cwd : string)
| ReadText (file : string)
| LoadObject (bucket key : string)
| MakeDirs (dir : string)
| CogTranslate (src dst : string)
| PutObject (bucket key file : string)
| Unlink (file : string)
| Rmtree (dir : string)
| DeleteMessage (m : Message)
| ListObjectsV2 (bucket prefix : string) (token : option string)
| SendMessage (body : string).

(** What the collaborators answer.  A call that can fail answers
    [Some e] when it raises [e].

    The file system changes during an attempt, so each place that reads
    it has its own answer: [isfile] is read at line 216, before the
    download; [listdir] at line 137, after the archive was unpacked;
    [walk] at line 254; [path_exists] at line 166, for the paths the
    attempt did not create itself.  [delete_files] reads the workspace
    as the attempt left it, with the downloaded archive and the unpacked
    and converted files in place: [listdir_at_cleanup] is [os.listdir]
    at line 122, which raises when the directory is missing, and
    [isfile_at_cleanup] and [isdir_at_cleanup] are the tests of lines
    124 and 127 on its entries.  Each directory is listed once at
    cleanup when [WORKDIR] and [OUTDIR] differ. *)
Record World : Type := mkWorld {
  receive_messages : list Message;
  list_objects_v2 : string -> string -> listing;
  download_file : string -> string -> string -> option exn;
  load_object : string -> string -> option exn;
  put_object : string -> string -> string -> option exn;
  check_call : list string -> string -> option exn;
  cog_translate : string -> string -> option exn;
  fromstring : string -> result ElementTree.Element;
  read_text : string -> result string;
  isfile : string -> bool;
  path_exists : string -> bool;
  listdir : string -> list string;
  walk : string -> list (string * list string * list string);
  abspath : string -> string;
  listdir_at_cleanup : string -> result (list string);
  isfile_at_cleanup : string -> bool;
  isdir_at_cleanup : string -> bool;
  remove : string -> option exn
}.

(** The module-level settings read from the environment. *)
Record Config : Type := mkConfig {
  BUCKET : string;
  PATH : string;
  OUT_BUCKET : string;
  OUT_PATH : string;
  QUEUE : string;
  WORKDIR : string;
  OUTDIR : string
}.

(** ** Computations: the calls made so far, and a value or an exception *)

Definition M (A : Type) : Type := list event * result A.

Definition ret {A} (a : A) : M A := ([], Ok a).

Definition raise {A} (e : exn) : M A := ([], Raise e).

Definition bind {A B} (m : M A) (k : A -> M B) : M B :=
  match m with
  | (evs, Ok a) => let (evs', r) := k a in (evs ++ evs', r)
  | (evs, Raise e) => (evs, Raise e)
  end.

Notation "x <- m ;; k" := (bind m (fun x => k))
  (at level 61, m at next level, right associativity).
Notation "m ;; k" := (bind m (fun _ => k))
  (at level 61, right associativity).

Definition emit (e : event) : M unit := ([e], Ok tt).

Definition lift {A} (r : result A) : M A := ([], r).

(** A call that is recorded and then succeeds or raises. *)
Definition call (e : event) (answer : option exn) : M unit :=
  emit e ;;
  match answer with
  | None => ret tt
  | Some x => raise x
  end.

Definition log (lvl : level) (msg : string) : M unit := emit (Log lvl msg).

(** [for x in l: body(x)] *)
Fixpoint for_each {A} (l : list A) (body : A -> M unit) : M unit :=
  match l with
  | [] => ret tt
  | x :: l' => body x ;; for_each l' body
  end.

(** [for x in l: s = body(s, x)] for a loop that updates local variables. *)
Fixpoint for_fold {A S} (l : list A) (body : S -> A -> M S) (s : S) : M S :=
  match l with
  | [] => ret s
  | x :: l' => s' <- body s x ;; for_fold l' body s'
  end.

Definition trace {A} (m : M A) : list event := fst m.
Definition outcome {A} (m : M A) : result A := snd m.

(** [try: m except RuntimeError as e: handler(str(e))] *)
Definition try_except_RuntimeError {A} (m : M A) (handler : string -> M A) : M A :=
  match m with
  | (evs, Raise (RuntimeError msg)) => bind (evs, Ok tt) (fun _ => handler msg)
  | _ => m
  end.

(** [str(n)] of an [int]. *)
Definition dec_Z (z : Z) : string :=
  if (z <? 0)%Z then "-" +++ dec (Z.to_nat (- z)) else dec (Z.to_nat z).

(** [str(l)] of a list of strings whose characters are printable and are
    neither a quote nor a backslash. *)
Definition repr_list (l : list string) : string :=
  "[" +++ String.concat ", " (map (fun s => "'" +++ s +++ "'") l) +++ "]".

(** [str(x)] of a value that may be [None]. *)
Definition str_opt (o : option string) : string :=
  match o with
  | Some s => s
  | None => "None"
  end.

(** The dictionary that [get_metadata] returns. *)
Record metadata : Type := mkMetadata {
  datetime : Datetime.t;
  satellite : option string;
  path : string;
  row : string
}.

(** The state of a [for] loop that may [break]. *)
Inductive loop (S : Type) : Type :=
| Continue (s : S)
| Break (s : S).
Arguments Continue {S} s.
Arguments Break {S} s.

Definition loop_state {S} (l : loop S) : S :=
  match l with Continue s => s | Break s => s end.

(** The result of [process_one]: Python returns [None] either way; the
    model tells the early [return] from the end of the function and, at
    the end, gives the value of the local [process_failed]. *)
Inductive completion : Type :=
| Bailed
| Finished (process_failed : bool).

Section Script.

Variable cfg : Config.
Variable W : World.

(** *** [get_matching_s3_keys]

    The generator is embedded with the loop that consumes it: [body]
    runs on each key the generator yields, and a [Break] abandons the
    generator, so no further page is requested. *)

Fixpoint yield_keys {S} (keys : list string) (suffix : string)
         (body : S -> string -> M (loop S)) (s : S) : M (loop S) :=
  match keys with
  | [] => ret (Continue s)
  | key :: keys' =>
      if endswith key suffix then
        r <- body s key ;;
        match r with
        | Continue s' => yield_keys keys' suffix body s'
        | Break s' => ret (Break s')
        end
      else yield_keys keys' suffix body s
  end.

Definition contents_of (contents : option (list string)) : M (list string) :=
  match contents with
  | Some keys => ret keys
  | None => raise (KeyError "Contents")
  end.

Fixpoint get_matching_s3_keys_from {S} (bucket prefix suffix : string)
         (token : option string) (resp : listing)
         (body : S -> string -> M (loop S)) (s : S) : M S :=
  emit (ListObjectsV2 bucket prefix token) ;;
  match resp with
  | LastPage contents =>
      keys <- contents_of contents ;;
      r <- yield_keys keys suffix body s ;;
      ret (loop_state r)
  | MorePages contents token' next =>
      keys <- contents_of contents ;;
      r <- yield_keys keys suffix body s ;;
      match r with
      | Continue s' =>
          get_matching_s3_keys_from bucket prefix suffix (Some token') next body s'
      | Break s' => ret s'
      end
  end.

Definition get_matching_s3_keys {S} (bucket prefix suffix : string)
           (body : S -> string -> M (loop S)) (s : S) : M S :=
  get_matching_s3_keys_from bucket prefix suffix None
                            (list_objects_v2 W bucket prefix) body s.

(** *** [get_metadata] *)

Definition get_metadata (local_file : string) : M metadata :=
  emit (ReadText local_file) ;;
  xmlstring <- lift (read_text W local_file) ;;
  let xmlstring := Re.sub_xmlns xmlstring in
  doc <- lift (fromstring W xmlstring) ;;
  lift (
    let? e := deref (ElementTree.find_descendant "satellite" doc) in
    let satellite := ElementTree.text e in
    let? e := deref (ElementTree.find_descendant "acquisition_date" doc) in
    let acquisition_date := ElementTree.text e in
    let? g := deref (ElementTree.find_child "global_metadata" doc) in
    let? w := deref (ElementTree.find_child "wrs" g) in
    let pathrow := ElementTree.attrib w in
    let? dt := match acquisition_date with
               | Some s => Datetime.strptime s
               | None => Raise TypeError
               end in
    let? p := ElementTree.getitem pathrow "path" in
    let? r := ElementTree.getitem pathrow "row" in
    Ok (mkMetadata dt satellite p r)).

(** *** [delete_files] *)

(** Lines 123-129, the body of the loop. *)
Definition delete_entry (file_path the_file : string) : M unit :=
  let a_file := join2 file_path the_file in
  if isfile_at_cleanup W a_file then
    log DEBUG ("Deleting file: " +++ a_file) ;;
    call (Unlink a_file) (remove W a_file)
  else if isdir_at_cleanup W a_file then
    log DEBUG ("Deleting directory: " +++ a_file) ;;
    call (Rmtree a_file) (remove W a_file)
  else ret tt.

Definition delete_files (file_path : string) : M unit :=
  log INFO ("Deleting files from " +++ file_path) ;;
  files <- lift (listdir_at_cleanup W file_path) ;;
  for_each files (delete_entry file_path).

(** *** [get_xmlfile]: [None] when the loop ends without a [return]. *)

Definition get_xmlfile (directory : string) : option string :=
  List.find (fun f => contains ".xml" f) (listdir W directory).

(** *** [run_command] *)

Definition run_command (command : list string) (work_dir : string) : M unit :=
  emit (CheckCall command work_dir) ;;
  match check_call W command work_dir with
  | None => ret tt
  | Some (CalledProcessError returncode) =>
      raise (RuntimeError ("command '" +++ repr_list command
                           +++ "' return with error (code "
                           +++ dec_Z returncode +++ "): None"))
  | Some e => raise e
  end.

(** *** [check_dir] and [getfilename] *)

Definition check_dir (fname : string) : string :=
  let file_name := split slash fname in
  match last_two file_name with
  | a :: p => join a p
  | [] => EmptyString            (* [split] never returns the empty list *)
  end.

(** [os.path.exists(d)] after the paths of [made] have been created. *)
Definition exists_now (made : list string) (d : string) : bool :=
  path_exists W d
  || existsb (fun m => String.eqb m d || startswith m (d +++ "/")) made.

Definition getfilename (made : list string) (fname outdir : string)
  : M (string * list string) :=
  let rel_path := check_dir fname in
  let out_fname := join2 outdir rel_path in
  if negb (exists_now made (dirname out_fname)) then
    emit (MakeDirs (dirname out_fname)) ;;
    ret (out_fname, dirname out_fname :: made)
  else ret (out_fname, made).

(** *** [check_processed] *)

Definition check_processed (key : string) : M bool :=
  emit (LoadObject (OUT_BUCKET cfg) key) ;;
  match load_object W (OUT_BUCKET cfg) key with
  | None => ret true
  | Some (ClientError code) =>
      if String.eqb code "404" then ret false else raise (ClientError code)
  | Some e => raise e
  end.

(** *** [process_one] *)

Definition test_key : string :=
  "from-tony/alex1129/espa-tonybutzer@gmail.com-11292018-115452-258/LE072110482001051101T1-SC20181129141358.tar.gz".

(** The key prefix that line 234 formats. *)
Definition out_file_path (m : metadata) : string :=
  OUT_PATH cfg +++ "/" +++ str_opt (satellite m) +++ "/" +++ path m
  +++ "/" +++ row m +++ "/" +++ Datetime.strftime (datetime m).

(** The test of line 256. *)
Definition qualifies (fname : string) : bool :=
  endswith fname ".tif" && (contains "_sr_" fname || contains "_qa" fname).

(** The locals of the loop of lines 254-271: [out_files], [count], and
    the paths created so far. *)
Definition walk_state : Type := (list string * nat * list string)%type.

(** Lines 256-271, the body of the inner loop. *)
Definition transform_file (output_dir dir : string) (st : walk_state)
           (fname : string) : M walk_state :=
  let '(out_files, count, made) := st in
  if qualifies fname then
    let in_filename := join2 dir fname in
    log INFO ("Reading " +++ basename in_filename) ;;
    r <- getfilename made in_filename output_dir ;;
    let '(out_filename, made) := r in
    let out_files := out_files ++ [out_filename] in
    call (CogTranslate in_filename out_filename)
         (cog_translate W in_filename out_filename) ;;
    let count := count + 1 in
    log INFO ("Writing COG to " +++ dirname out_filename +++ ", " +++ dec count) ;;
    ret (out_files, count, out_filename :: made)
  else ret st.

(** Lines 250-271. *)
Definition transform_all : M (list string) :=
  let gtiff_path := abspath W (WORKDIR cfg) in
  let output_dir := abspath W (OUTDIR cfg) in
  st <- for_fold (walk W gtiff_path)
                 (fun st entry =>
                    let '(dir, subdirs, files) := entry in
                    for_fold files (transform_file output_dir dir) st)
                 ([], 0, []) ;;
  let '(out_files, _, _) := st in
  ret out_files.

(** Lines 277-280, the body of the loop. *)
Definition upload_file (out_file_path out_file : string) : M unit :=
  let key := out_file_path +++ "/" +++ basename out_file in
  log INFO ("Uploading geotiff to " +++ key) ;;
  call (PutObject (OUT_BUCKET cfg) key out_file)
       (put_object W (OUT_BUCKET cfg) key out_file).

(** Lines 276-280. *)
Definition upload_loop (out_file_path : string) (out_files : list string)
  : M unit :=
  for_each out_files (upload_file out_file_path).

(** Lines 274-290; the value is the new [process_failed]. *)
Definition publish (out_file_path xml_file xml_key : string)
           (out_files : list string) : M bool :=
  if 7 <=? List.length out_files then
    upload_loop out_file_path out_files ;;
    log INFO ("Uploading metadata file to " +++ xml_key) ;;
    call (PutObject (OUT_BUCKET cfg) xml_key xml_file)
         (put_object W (OUT_BUCKET cfg) xml_key xml_file) ;;
    ret false
  else
    log ERROR ("Only processed " +++ dec (List.length out_files)
               +++ " files. We need 8 or more for a valid dataset.") ;;
    ret true.

(** Lines 232-292, entered with [process_failed] false; the value is
    [process_failed] at line 294.  [os.path.join(WORKDIR, None)] raises
    [TypeError]. *)
Definition handle_metadata (overwrite : bool) : M bool :=
  match get_xmlfile (WORKDIR cfg) with
  | None => raise TypeError
  | Some f =>
      let xml_file := join2 (WORKDIR cfg) f in
      metadata <- get_metadata xml_file ;;
      let out_file_path := out_file_path metadata in
      let xml_key := out_file_path +++ "/" +++ basename xml_file in
      processed_already <- check_processed xml_key ;;
      (if processed_already
       then log WARNING "This file has been processed already."
       else ret tt) ;;
      if overwrite || negb processed_already then
        out_files <- transform_all ;;
        publish out_file_path xml_file xml_key out_files
      else
        log WARNING "Not processing the file because the `DO_OVERWRITE` flag is not set." ;;
        ret false
  end.

(** [file_to_process.split('/')[-1]] *)
Definition local_file_of (file_to_process : string) : string :=
  last_item (split slash file_to_process).

(** Lines 212-220. *)
Definition fetch (file_to_process : string) : M unit :=
  let local_file := local_file_of file_to_process in
  let local_file_full := join2 (WORKDIR cfg) local_file in
  log DEBUG ("Local file is: " +++ local_file) ;;
  if negb (isfile W local_file_full) then
    log INFO ("Downloading file to " +++ local_file_full) ;;
    call (DownloadFile (BUCKET cfg) file_to_process local_file_full)
         (download_file W (BUCKET cfg) file_to_process local_file_full)
  else log INFO "File found locally, not downloading".

(** Lines 223-228; the value is the new [process_failed]. *)
Definition unpack (local_file : string) : M bool :=
  log INFO ("Unzipping the file " +++ local_file +++ " into " +++ WORKDIR cfg) ;;
  try_except_RuntimeError
    (run_command ["tar"; "-xzvf"; local_file] (WORKDIR cfg) ;; ret false)
    (fun e =>
       log ERROR ("Failed to untar the file with error: " +++ e) ;;
       ret true).

(** Lines 295-298. *)
Definition cleanup_workspaces (cleanup : bool) : M unit :=
  if cleanup then
    log INFO "Cleaning up workdir and outdir" ;;
    delete_files (WORKDIR cfg) ;;
    delete_files (OUTDIR cfg)
  else ret tt.

(** Lines 301-307.  [message.delete()] on [None] raises
    [AttributeError]. *)
Definition acknowledge (process_failed : bool) (local_file : string)
           (message : option Message) : M unit :=
  (if negb process_failed
   then log INFO "Finished processing and now deleting the message."
   else log WARNING ("The process to download " +++ local_file +++ " FAILED!")) ;;
  match message with
  | Some m => emit (DeleteMessage m)
  | None => raise AttributeError
  end.

(** Lines 211-307, with [message] and [file_to_process] as lines
    197-209 left them. *)
Definition process_item (overwrite cleanup : bool)
           (message : option Message) (file_to_process : string)
  : M completion :=
  let local_file := local_file_of file_to_process in
  fetch file_to_process ;;
  process_failed <- unpack local_file ;;
  process_failed <-
    (if negb process_failed then handle_metadata overwrite
     else ret process_failed) ;;
  cleanup_workspaces cleanup ;;
  acknowledge process_failed local_file message ;;
  ret (Finished process_failed).

Definition process_one (overwrite cleanup test : bool) : M completion :=
  log INFO "Starting up a run" ;;
  emit ReceiveMessages ;;
  let messages := receive_messages W in
  match messages, test with
  | message :: _, false =>
      let file_to_process := body message in
      log INFO ("Found file to process: " +++ file_to_process) ;;
      process_item overwrite cleanup (Some message) file_to_process
  | _, _ =>
      log WARNING "No messages!" ;;
      if test then process_item overwrite cleanup None test_key
      else
        log WARNING "Bailing because there's no messages and we're not testing." ;;
        ret Bailed
  end.

(** *** [get_items] *)

(** Lines 315-321, the body of the loop; [count] is the local it
    updates. *)
Definition enqueue_item (LIMIT : Z) (filter : option string)
           (count : Z) (item : string) : M (loop Z) :=
  match filter with
  | Some f =>
      if negb (String.eqb f "") && contains f item then
        let count := (count + 1)%Z in
        if (count >=? LIMIT)%Z then ret (Break count)
        else
          emit (SendMessage item) ;;
          ret (Continue count)
      else ret (Continue count)
  | None => ret (Continue count)
  end.

(** The value is the final [count]; Python returns [None]. *)
Definition get_items (LIMIT : Z) (filter : option string) : M Z :=
  let count := 0%Z in
  log INFO ("Adding " +++ dec_Z LIMIT +++ " items from: " +++ BUCKET cfg
            +++ "/" +++ PATH cfg +++ " to the queue " +++ QUEUE cfg) ;;
  get_matching_s3_keys (BUCKET cfg) (PATH cfg) ""
                       (enqueue_item LIMIT filter) count.

End Script.

(** ** Concrete worlds

    The settings are the defaults of the script.  The example world holds
    one leased message, an archive that is not yet on disk, and a download
    workspace whose files are given; every collaborator call succeeds
    unless an argument says otherwise.  At cleanup the download workspace
    holds the archives of the messages and the given files, and the
    transform workspace the one directory the conversions created. *)

Module Examples.

Definition cfg : Config :=
  mkConfig "frontiersi-odc-test" "from-tony/alex1129" "frontiersi-odc-test"
           "test" "landsat-to-cog-queue-test" "data/download" "data/out".

Definition dq : string := String Re.quote EmptyString.

Definition archive_key : string :=
  "from-tony/alex1129/espa-tonybutzer@gmail.com-11292018-115452-258/LE072110481999070901T1-SC20181129142650.tar.gz".

Definition message : Message := mkMessage "receipt-1" archive_key.

(** A descriptor without a namespace declaration. *)
Definition descriptor_body : string :=
  "<global_metadata><satellite>LE07</satellite>"
  +++ "<acquisition_date>2001-05-11</acquisition_date>"
  +++ "<wrs system='2' path='021' row='048'/></global_metadata>"
  +++ "</espa_metadata>".

Definition descriptor_plain : string :=
  "<espa_metadata version='2.0'>" +++ descriptor_body.

Definition namespace_uri : string := "http://espa.cr.usgs.gov/v2".

(** The same with a default namespace in double quotes. *)
Definition descriptor_ns : string :=
  "<espa_metadata xmlns=" +++ dq +++ namespace_uri +++ dq
  +++ " version='2.0'>" +++ descriptor_body.

(** The same with the declaration in single quotes. *)
Definition descriptor_ns_single : string :=
  "<espa_metadata xmlns='" +++ namespace_uri +++ "' version='2.0'>"
  +++ descriptor_body.

(** [ElementTree.fromstring] for documents of the fragment. *)
Definition fragment_fromstring (s : string) : result ElementTree.Element :=
  match XmlFragment.fromstring s with
  | XmlFragment.Parsed e => Ok e
  | _ => Raise ParseError
  end.

Definition world (messages : list Message) (files : list string)
           (xml : string) (tar head : option exn) : World :=
  {| receive_messages := messages;
     list_objects_v2 := fun _ _ => LastPage (Some []);
     download_file := fun _ _ _ => None;
     load_object := fun _ _ => head;
     put_object := fun _ _ _ => None;
     check_call := fun _ _ => tar;
     cog_translate := fun _ _ => None;
     fromstring := fragment_fromstring;
     read_text := fun _ => Ok xml;
     isfile := fun _ => false;
     path_exists := fun _ => false;
     listdir := fun d => if String.eqb d "data/download" then files else [];
     walk := fun d => [(d, [], files)];
     abspath := fun p => "/app/" +++ p;
     listdir_at_cleanup :=
       fun d =>
         if String.eqb d "data/download"
         then Ok (map (fun m => local_file_of (body m)) messages ++ files)
         else if String.eqb d "data/out" then Ok ["download"]
         else Raise OSError;
     isfile_at_cleanup := fun p => startswith p "data/download/";
     isdir_at_cleanup := fun p => String.eqb p "data/out/download";
     remove := fun _ => None |}.

Definition band (n : string) : string := "LE07_sr_band" +++ n +++ ".tif".

Definition seven_files : list string :=
  [band "1"; band "2"; band "3"; band "4"; band "5"; band "7";
   "LE07_pixel_qa.tif"; "LE07.xml"; "LE07_toa_band1.tif"].

Definition six_files : list string :=
  [band "1"; band "2"; band "3"; band "4"; band "5"; band "7"; "LE07.xml"].

Definition not_found : option exn := Some (ClientError "404").

(** A corrupt archive: [tar] exits with code 2. *)
Definition corrupt_archive_world : World :=
  world [message] seven_files descriptor_ns (Some (CalledProcessError 2))
        not_found.

(** A complete archive that was not processed before. *)
Definition fresh_world : World :=
  world [message] seven_files descriptor_ns None not_found.

(** A complete archive whose metadata key is already in the store. *)
Definition processed_world : World :=
  world [message] seven_files descriptor_ns None None.

(** An archive with six qualifying files only. *)
Definition incomplete_world : World :=
  world [message] six_files descriptor_ns None not_found.

(** An archive without a descriptor. *)
Definition no_descriptor_world : World :=
  world [message] [band "1"; band "2"] descriptor_ns None not_found.

(** A workspace that holds the descriptor twice: without a namespace
    in [plain.xml], with the namespace declared in single quotes in
    [single.xml] and in double quotes in [double.xml]. *)
Definition two_descriptors_world : World :=
  {| receive_messages := [];
     list_objects_v2 := fun _ _ => LastPage (Some []);
     download_file := fun _ _ _ => None;
     load_object := fun _ _ => None;
     put_object := fun _ _ _ => None;
     check_call := fun _ _ => None;
     cog_translate := fun _ _ => None;
     fromstring := fragment_fromstring;
     read_text := fun file =>
                    if String.eqb file "plain.xml" then Ok descriptor_plain
                    else if String.eqb file "single.xml"
                         then Ok descriptor_ns_single
                    else if String.eqb file "double.xml" then Ok descriptor_ns
                    else Raise OSError;
     isfile := fun _ => false;
     path_exists := fun _ => false;
     listdir := fun _ => ["plain.xml"; "single.xml"; "double.xml"];
     walk := fun _ => [];
     abspath := fun p => "/app/" +++ p;
     listdir_at_cleanup := fun _ => Ok ["plain.xml"; "single.xml"; "double.xml"];
     isfile_at_cleanup := fun _ => true;
     isdir_at_cleanup := fun _ => false;
     remove := fun _ => None |}.

(** The fresh archive with a converter that fails on the third band,
    and with a store that refuses the upload of the third band. *)
Definition failing_converter_world : World :=
  {| receive_messages := receive_messages fresh_world;
     list_objects_v2 := list_objects_v2 fresh_world;
     download_file := download_file fresh_world;
     load_object := load_object fresh_world;
     put_object := put_object fresh_world;
     check_call := check_call fresh_world;
     cog_translate := fun src _ =>
                        if endswith src (band "3")
                        then Some (ExternalError "rasterio") else None;
     fromstring := fromstring fresh_world;
     read_text := read_text fresh_world;
     isfile := isfile fresh_world;
     path_exists := path_exists fresh_world;
     listdir := listdir fresh_world;
     walk := walk fresh_world;
     abspath := abspath fresh_world;
     listdir_at_cleanup := listdir_at_cleanup fresh_world;
     isfile_at_cleanup := isfile_at_cleanup fresh_world;
     isdir_at_cleanup := isdir_at_cleanup fresh_world;
     remove := remove fresh_world |}.

Definition failing_store_world : World :=
  {| receive_messages := receive_messages fresh_world;
     list_objects_v2 := list_objects_v2 fresh_world;
     download_file := download_file fresh_world;
     load_object := load_object fresh_world;
     put_object := fun _ key _ =>
                     if endswith key (band "3")
                     then Some (ClientError "500") else None;
     check_call := check_call fresh_world;
     cog_translate := cog_translate fresh_world;
     fromstring := fromstring fresh_world;
     read_text := read_text fresh_world;
     isfile := isfile fresh_world;
     path_exists := path_exists fresh_world;
     listdir := listdir fresh_world;
     walk := walk fresh_world;
     abspath := abspath fresh_world;
     listdir_at_cleanup := listdir_at_cleanup fresh_world;
     isfile_at_cleanup := isfile_at_cleanup fresh_world;
     isdir_at_cleanup := isdir_at_cleanup fresh_world;
     remove := remove fresh_world |}.

(** A workspace for [delete_files]: two files, a directory, and a name
    that is neither (a dangling link); [rm] answers the removals. *)
Definition cluttered (rm : string -> option exn) : World :=
  {| receive_messages := [];
     list_objects_v2 := fun _ _ => LastPage (Some []);
     download_file := fun _ _ _ => None;
     load_object := fun _ _ => None;
     put_object := fun _ _ _ => None;
     check_call := fun _ _ => None;
     cog_translate := fun _ _ => None;
     fromstring := fragment_fromstring;
     read_text := fun _ => Raise OSError;
     isfile := fun p => endswith p ".tif" || endswith p ".xml";
     path_exists := fun _ => true;
     listdir := fun _ => ["LE07.xml"; "gap_mask"; "stale-link"; band "1"];
     walk := fun _ => [];
     abspath := fun p => "/app/" +++ p;
     listdir_at_cleanup :=
       fun d =>
         if String.eqb d "data/download"
         then Ok ["LE07.xml"; "gap_mask"; "stale-link"; band "1"]
         else Raise OSError;
     isfile_at_cleanup := fun p => endswith p ".tif" || endswith p ".xml";
     isdir_at_cleanup := fun p => endswith p "/gap_mask";
     remove := rm |}.

Definition cluttered_world : World := cluttered (fun _ => None).

(** The same workspace with a directory that cannot be removed. *)
Definition protected_world : World :=
  cluttered (fun p => if endswith p "/gap_mask" then Some OSError else None).

(** Three archives under the source prefix, listed on two pages. *)
Definition key1 : string := "from-tony/alex1129/a/LE07_1.tar.gz".
Definition key2 : string := "from-tony/alex1129/a/LE07_2.tar.gz".
Definition key3 : string := "from-tony/alex1129/b/LE07_3.tar.gz".

Definition three_archives : listing :=
  MorePages (Some [key1; "from-tony/alex1129/a/readme.txt"; key2]) "token-1"
            (LastPage (Some [key3])).

Definition listing_world (l : listing) : World :=
  {| receive_messages := [];
     list_objects_v2 := fun _ _ => l;
     download_file := fun _ _ _ => None;
     load_object := fun _ _ => None;
     put_object := fun _ _ _ => None;
     check_call := fun _ _ => None;
     cog_translate := fun _ _ => None;
     fromstring := fragment_fromstring;
     read_text := fun _ => Raise OSError;
     isfile := fun _ => false;
     path_exists := fun _ => false;
     listdir := fun _ => [];
     walk := fun _ => [];
     abspath := fun p => "/app/" +++ p;
     listdir_at_cleanup := fun _ => Ok [];
     isfile_at_cleanup := fun _ => false;
     isdir_at_cleanup := fun _ => false;
     remove := fun _ => None |}.

End Examples.

(** ** Reading a trace *)

Definition is_put (e : event) : bool :=
  match e with PutObject _ _ _ => true | _ => false end.

Definition is_cog (e : event) : bool :=
  match e with CogTranslate _ _ => true | _ => false end.

Definition is_ack (e : event) : bool :=
  match e with DeleteMessage _ => true | _ => false end.

Definition is_send (e : event) : bool :=
  match e with SendMessage _ => true | _ => false end.

(** The upload calls, the converter calls and the message deletions of a
    trace, in the order they were made. *)
Definition uploads (evs : list event) : list event := filter is_put evs.
Definition transforms (evs : list event) : list event := filter is_cog evs.
Definition acks (evs : list event) : list event := filter is_ack evs.
Definition sent (evs : list event) : list event := filter is_send evs.

(** The call of line 280 for one output file, and the call of line 285. *)
Definition data_put (cfg : Config) (prefix out_file : string) : event :=
  PutObject (OUT_BUCKET cfg) (prefix +++ "/" +++ basename out_file) out_file.

Definition metadata_put (cfg : Config) (prefix xml_file : string) : event :=
  PutObject (OUT_BUCKET cfg) (prefix +++ "/" +++ basename xml_file) xml_file.

(** The descriptor path and the metadata key of lines 232 and 241. *)
Definition xml_file_of (cfg : Config) (f : string) : string :=
  join2 (WORKDIR cfg) f.

Definition xml_key_of (cfg : Config) (md : metadata) (f : string) : string :=
  out_file_path cfg md +++ "/" +++ basename (xml_file_of cfg f).

(** The archive of [message] was fetched and [tar] unpacked it. *)
Definition unpacked (cfg : Config) (W : World) (message : Message) : Prop :=
  outcome (fetch cfg W (body message)) = Ok tt /\
  outcome (run_command W ["tar"; "-xzvf"; local_file_of (body message)]
                       (WORKDIR cfg)) = Ok tt.

(** The workspace holds the descriptor [f], which reads as [md]. *)
Definition described (cfg : Config) (W : World) (f : string) (md : metadata)
  : Prop :=
  get_xmlfile W (WORKDIR cfg) = Some f /\
  outcome (get_metadata W (xml_file_of cfg f)) = Ok md.

(** The files that line 256 accepts, with their directories, in the
    order of the walk. *)
Definition qualifying_inputs (cfg : Config) (W : World) : list string :=
  flat_map (fun entry : string * list string * list string =>
              let '(dir, _, files) := entry in
              map (join2 dir) (filter qualifies files))
           (walk W (abspath W (WORKDIR cfg))).

(** The value of [getfilename]: [outdir] joined with the last two
    components of the input path. *)
Definition out_filename_of (outdir in_filename : string) : string :=
  join2 outdir (check_dir in_filename).

Definition conversion (cfg : Config) (W : World) (in_filename : string) : event :=
  CogTranslate in_filename
               (out_filename_of (abspath W (OUTDIR cfg)) in_filename).

(** The inputs on which the conversion loop calls the converter: the
    qualifying inputs up to and including the first on which it fails;
    and the exception of that failure, if there is one. *)
Fixpoint attempted (W : World) (output_dir : string) (srcs : list string)
  : list string :=
  match srcs with
  | [] => []
  | src :: rest =>
      src :: match cog_translate W src (out_filename_of output_dir src) with
             | None => attempted W output_dir rest
             | Some _ => []
             end
  end.

Fixpoint first_failure (W : World) (output_dir : string) (srcs : list string)
  : option exn :=
  match srcs with
  | [] => None
  | src :: rest =>
      match cog_translate W src (out_filename_of output_dir src) with
      | None => first_failure W output_dir rest
      | Some e => Some e
      end
  end.

(** The paths created so far, the third local of the conversion loop. *)
Definition made_of (st : walk_state) : list string := snd st.

(** The paths a call creates: [os.makedirs] its directory, the converter
    its output file. *)
Definition created_by (e : event) : list string :=
  match e with
  | MakeDirs d => [d]
  | CogTranslate _ dst => [dst]
  | _ => []
  end.

Definition is_fs (e : event) : bool :=
  match e with
  | MakeDirs _ | CogTranslate _ _ => true
  | _ => false
  end.

(** The paths created by the calls of [evs], added to [made]. *)
Definition created (evs : list event) (made : list string) : list string :=
  fold_left (fun made e => created_by e ++ made) evs made.

(** Reading the calls in order: each converter call finds the directory
    of its output file in place, in the world or created by an earlier
    call. *)
Fixpoint dirs_ready (W : World) (made : list string) (evs : list event) : bool :=
  match evs with
  | [] => true
  | e :: evs' =>
      match e with
      | CogTranslate _ dst => exists_now W made (dirname dst)
      | _ => true
      end
      && dirs_ready W (created_by e ++ made) evs'
  end.

(** The keys of a listing, page after page, and whether every page has
    its [Contents]. *)
Fixpoint all_keys (l : listing) : list string :=
  match l with
  | LastPage contents => match contents with Some ks => ks | None => [] end
  | MorePages contents _ next =>
      match contents with Some ks => ks | None => [] end ++ all_keys next
  end.

Fixpoint complete (l : listing) : bool :=
  match l with
  | LastPage contents => match contents with Some _ => true | None => false end
  | MorePages contents _ next =>
      match contents with Some _ => true | None => false end && complete next
  end.

(** How many more messages the loop of [get_items] sends when its
    counter is at [count]. *)
Definition room (LIMIT count : Z) : nat := Z.to_nat (LIMIT - 1 - count).

(** The keys that contain the filter text. *)
Definition matching (f : string) (keys : list string) : list string :=
  filter (fun item => contains f item) keys.

(** [s] is the number [n] written with exactly [w] decimal digits. *)
Fixpoint decimal_value (s : string) (acc : nat) : nat :=
  match s with
  | EmptyString => acc
  | String c r => decimal_value r (10 * acc + Datetime.digit_val c)
  end.

Definition writes (w : nat) (s : string) (n : nat) : bool :=
  (String.length s =? w)
  && XmlFragment.forall_chars Datetime.is_digit s
  && (decimal_value s 0 =? n).

(** A computation that raises. *)
Definition raises {A} (m : M A) : Prop := exists e, outcome m = Raise e.

(** A computation none of whose calls satisfies [p]. *)
Definition silent {A} (p : event -> bool) (m : M A) : Prop :=
  filter p (trace m) = [].

(** *** More readings of a trace *)

Definition is_list (e : event) : bool :=
  match e with ListObjectsV2 _ _ _ => true | _ => false end.

Definition is_remove (e : event) : bool :=
  match e with Unlink _ | Rmtree _ => true | _ => false end.

Definition is_download (e : event) : bool :=
  match e with DownloadFile _ _ _ => true | _ => false end.

(** The listing calls, the removals and the downloads of a trace. *)
Definition list_calls (evs : list event) : list event := filter is_list evs.
Definition removals (evs : list event) : list event := filter is_remove evs.
Definition downloads (evs : list event) : list event := filter is_download evs.

(** The continuation tokens of a listing, page after page. *)
Fixpoint tokens (l : listing) : list string :=
  match l with
  | LastPage _ => []
  | MorePages _ token next => token :: tokens next
  end.

(** The [Contents] of the first page. *)
Definition first_contents (l : listing) : option (list string) :=
  match l with
  | LastPage contents => contents
  | MorePages contents _ _ => contents
  end.

(** The listing calls that read a whole listing: the first without a
    token, each later one with the token of the page before. *)
Definition paging (bucket prefix : string) (l : listing) : list event :=
  ListObjectsV2 bucket prefix None
  :: map (fun t => ListObjectsV2 bucket prefix (Some t)) (tokens l).

(** The keys of a page that count against [LIMIT] at line 316: those
    that contain the filter text, and none without a filter or with the
    empty text. *)
Definition hits (flt : option string) (keys : list string) : list string :=
  match flt with
  | Some f => if String.eqb f "" then [] else matching f keys
  | None => []
  end.

(** How many pages are requested after the first page of [l] by a loop
    that can still take [budget] hits without a [break]: the next page
    is requested when this page has a continuation token and its
    [Contents], and the loop did not break on its keys, that is, when
    its hits number [budget] at most; the pages after it are read with
    what is left of the budget.  After a [break], after a page without
    [Contents], and after the last page, none is requested. *)
Fixpoint pages_after (flt : option string) (budget : nat) (l : listing) : nat :=
  match l with
  | LastPage _ => 0
  | MorePages None _ _ => 0
  | MorePages (Some keys) _ next =>
      let n := List.length (hits flt keys) in
      if n <=? budget then S (pages_after flt (budget - n) next) else 0
  end.

(** The removal [delete_files] calls for an entry of a directory:
    [os.unlink] for a file, [shutil.rmtree] for a directory, none for an
    entry that is neither. *)
Definition removal_of (W : World) (file_path the_file : string) : list event :=
  let a_file := join2 file_path the_file in
  if isfile_at_cleanup W a_file then [Unlink a_file]
  else if isdir_at_cleanup W a_file then [Rmtree a_file]
  else [].

(** The entries that [delete_files] leaves alone. *)
Definition skipped (W : World) (file_path the_file : string) : bool :=
  let a_file := join2 file_path the_file in
  negb (isfile_at_cleanup W a_file) && negb (isdir_at_cleanup W a_file).

(** The removal of an entry goes through: there is none to make, or the
    call returns. *)
Definition removed (W : World) (file_path the_file : string) : Prop :=
  skipped W file_path the_file = false ->
  remove W (join2 file_path the_file) = None.

(** The exceptions of [subprocess.check_call] that neither line 149 nor
    line 226 catches. *)
Definition escapes_unpack (e : exn) : Prop :=
  match e with
  | CalledProcessError _ | RuntimeError _ => False
  | _ => True
  end.

(** The text [YYYY-MM-DD] of a date, [date.isoformat()], which is how
    the descriptors write [acquisition_date]. *)
Definition isoformat (dt : Datetime.t) : string :=
  zfill 4 (dec (Datetime.year dt)) +++ "-" +++ zfill 2 (dec (Datetime.month dt))
  +++ "-" +++ zfill 2 (dec (Datetime.day dt)).

(** [s.replace('-', '/')] *)
Fixpoint slashed (s : string) : string :=
  match s with
  | EmptyString => EmptyString
  | String c r => String (if Ascii.eqb c "-" then "/"%char else c) (slashed r)
  end.

(** *** The wording of the specification

    Three sentences of the specification that the script does not
    follow, each as a property of a world. *)

(** A missing descriptor is a soft failure: the attempt still ends
    normally, publishes nothing and deletes the message. *)
Definition missing_descriptor_is_soft (cfg : Config) (W : World)
           (overwrite cleanup : bool) : Prop :=
  forall message rest,
    receive_messages W = message :: rest ->
    unpacked cfg W message ->
    get_xmlfile W (WORKDIR cfg) = None ->
    let run := process_one cfg W overwrite cleanup false in
    (exists pf, outcome run = Ok (Finished pf))
    /\ uploads (trace run) = []
    /\ In (DeleteMessage message) (trace run).

(** The specification's words for the output path: the path of the
    input file relative to the download workspace, under the transform
    workspace. *)
Definition relative_to (root p : string) : string :=
  match Re.drop_prefix (root +++ "/") p with
  | Some r => r
  | None => p
  end.

Definition mirrored_path (cfg : Config) (W : World) (in_filename : string)
  : string :=
  join2 (abspath W (OUTDIR cfg))
        (relative_to (abspath W (WORKDIR cfg)) in_filename).

(** Every conversion writes to the mirrored relative path of its
    input. *)
Definition outputs_mirrored (cfg : Config) (W : World) (evs : list event)
  : Prop :=
  forall src dst,
    In (CogTranslate src dst) evs -> dst = mirrored_path cfg W src.

(** [ns_doc] is [plain] with a default namespace declared on its
    document element, in either kind of quote. *)
Definition adds_default_namespace (plain ns_doc : string) : Prop :=
  exists name rest qc uri,
    name <> "" /\
    XmlFragment.forall_chars XmlFragment.name_char name = true /\
    (qc = Re.quote \/ qc = "'"%char) /\
    uri <> "" /\
    XmlFragment.forall_chars (fun c => negb (Ascii.eqb c qc)) uri = true /\
    plain = "<" +++ name +++ rest /\
    ns_doc = "<" +++ name +++ " xmlns=" +++ String qc (uri +++ String qc rest).

(** Descriptor parsing is namespace-tolerant: a descriptor and the same
    descriptor with a default namespace read as the same metadata. *)
Definition namespace_tolerant (W : World) : Prop :=
  forall plain ns_doc file1 file2,
    adds_default_namespace plain ns_doc ->
    read_text W file1 = Ok plain ->
    read_text W file2 = Ok ns_doc ->
    outcome (get_metadata W file1) = outcome (get_metadata W file2).

(** ** Laws of the computations *)

Section Laws.

Context {A B : Type}.

Lemma bind_unfold (m : M A) (k : A -> M B) :
  bind m k =
  match outcome m with
  | Ok a => (trace m ++ trace (k a), outcome (k a))
  | Raise e => (trace m, Raise e)
  end.
Proof.
  destruct m as [evs [a | e]]; simpl; [destruct (k a) |]; reflexivity.
Qed.

Lemma bind_ok (m : M A) (k : A -> M B) (a : A) :
  outcome m = Ok a ->
  bind m k = (trace m ++ trace (k a), outcome (k a)).
Proof. intros H. rewrite bind_unfold, H. reflexivity. Qed.

Lemma bind_raise (m : M A) (k : A -> M B) (e : exn) :
  outcome m = Raise e -> bind m k = (trace m, Raise e).
Proof. intros H. rewrite bind_unfold, H. reflexivity. Qed.

Lemma filter_bind (p : event -> bool) (m : M A) (k : A -> M B) :
  filter p (trace (bind m k)) =
  filter p (trace m) ++
  match outcome m with
  | Ok a => filter p (trace (k a))
  | Raise _ => []
  end.
Proof.
  rewrite bind_unfold.
  destruct (outcome m); simpl.
  - apply filter_app.
  - symmetry. apply app_nil_r.
Qed.

Lemma silent_bind (p : event -> bool) (m : M A) (k : A -> M B) :
  silent p m -> (forall a, silent p (k a)) -> silent p (bind m k).
Proof.
  unfold silent. intros Hm Hk. rewrite filter_bind, Hm.
  destruct (outcome m); [apply Hk | reflexivity].
Qed.

Lemma raises_bind_l (m : M A) (k : A -> M B) :
  raises m -> raises (bind m k).
Proof.
  intros [e He]. exists e. rewrite (bind_raise _ _ _ He). reflexivity.
Qed.

Lemma raises_bind_r (m : M A) (k : A -> M B) :
  (forall a, raises (k a)) -> raises (bind m k).
Proof.
  intros Hk. rewrite bind_unfold.
  destruct (outcome m) as [a | e]; [apply Hk | exists e; reflexivity].
Qed.

End Laws.

Lemma silent_ret {A} p (a : A) : silent p (ret a).
Proof. reflexivity. Qed.

Lemma silent_raise {A} p e : silent p (@raise A e).
Proof. reflexivity. Qed.

Lemma silent_lift {A} p (r : result A) : silent p (lift r).
Proof. reflexivity. Qed.

Lemma silent_emit p e : p e = false -> silent p (emit e).
Proof. unfold silent; simpl. intros ->. reflexivity. Qed.

Lemma silent_log p lvl msg : p (Log lvl msg) = false -> silent p (log lvl msg).
Proof. apply silent_emit. Qed.

Lemma silent_call p e answer : p e = false -> silent p (call e answer).
Proof.
  intros H. unfold call. apply silent_bind; [apply silent_emit, H |].
  intros _. destruct answer; [apply silent_raise | apply silent_ret].
Qed.

Lemma silent_for_each {A} p (l : list A) (body : A -> M unit) :
  (forall x, silent p (body x)) -> silent p (for_each l body).
Proof.
  intros H. induction l as [| x l IH]; simpl.
  - apply silent_ret.
  - apply silent_bind; [apply H | intros _; exact IH].
Qed.

Lemma silent_for_fold {A S} p (l : list A) (body : S -> A -> M S) :
  (forall s x, silent p (body s x)) -> forall s, silent p (for_fold l body s).
Proof.
  intros H. induction l as [| x l IH]; intros s; simpl.
  - apply silent_ret.
  - apply silent_bind; [apply H | intros s'; apply IH].
Qed.

Lemma silent_try {A} p (m : M A) (handler : string -> M A) :
  silent p m -> (forall msg, silent p (handler msg)) ->
  silent p (try_except_RuntimeError m handler).
Proof.
  intros Hm Hh. destruct m as [evs [a | e]]; [exact Hm |].
  destruct e; try exact Hm.
  unfold try_except_RuntimeError.
  apply silent_bind; [exact Hm | intros _; apply Hh].
Qed.

(** Calls are recorded whatever the predicate; one tactic walks through a
    stage of the script and leaves nothing when no call of the stage
    satisfies the predicate. *)
Ltac silent_step :=
  match goal with
  | |- silent _ (bind _ _) => apply silent_bind; [| intros ?]
  | |- silent _ (ret _) => apply silent_ret
  | |- silent _ (raise _) => apply silent_raise
  | |- silent _ (lift _) => apply silent_lift
  | |- silent _ (log _ _) => apply silent_log; reflexivity
  | |- silent _ (emit _) => apply silent_emit; reflexivity
  | |- silent _ (call _ _) => apply silent_call; reflexivity
  | |- silent _ (for_each _ _) => apply silent_for_each; intros ?
  | |- silent _ (for_fold _ _ _) => apply silent_for_fold; intros ? ?
  | |- silent _ (try_except_RuntimeError _ _) => apply silent_try; [| intros ?]
  | |- silent _ (if ?b then _ else _) => destruct b
  | |- silent _ (match ?x with _ => _ end) => destruct x
  | |- silent _ (let '(_, _) := ?x in _) => destruct x
  end.

Ltac silent_auto := repeat silent_step.

Ltac silent_script :=
  repeat first
    [ silent_step
    | progress unfold fetch, unpack, cleanup_workspaces, delete_files,
        delete_entry, run_command, get_metadata, check_processed, getfilename,
        transform_all, transform_file, publish, upload_loop, upload_file,
        acknowledge,
        handle_metadata ].

(** ** Which stage makes which call *)

Section Stages.

Variable cfg : Config.
Variable W : World.

Lemma fetch_no_put f : silent is_put (fetch cfg W f).
Proof. silent_script. Qed.

Lemma fetch_no_cog f : silent is_cog (fetch cfg W f).
Proof. silent_script. Qed.

Lemma fetch_no_ack f : silent is_ack (fetch cfg W f).
Proof. silent_script. Qed.

Lemma unpack_no_put f : silent is_put (unpack cfg W f).
Proof. silent_script. Qed.

Lemma unpack_no_cog f : silent is_cog (unpack cfg W f).
Proof. silent_script. Qed.

Lemma unpack_no_ack f : silent is_ack (unpack cfg W f).
Proof. silent_script. Qed.

Lemma cleanup_no_put c : silent is_put (cleanup_workspaces cfg W c).
Proof. silent_script. Qed.

Lemma cleanup_no_cog c : silent is_cog (cleanup_workspaces cfg W c).
Proof. silent_script. Qed.

Lemma cleanup_no_ack c : silent is_ack (cleanup_workspaces cfg W c).
Proof. silent_script. Qed.

Lemma acknowledge_no_put pf f m : silent is_put (acknowledge pf f m).
Proof. silent_script. Qed.

Lemma acknowledge_no_cog pf f m : silent is_cog (acknowledge pf f m).
Proof. silent_script. Qed.

Lemma get_metadata_no_put f : silent is_put (get_metadata W f).
Proof. silent_script. Qed.

Lemma get_metadata_no_cog f : silent is_cog (get_metadata W f).
Proof. silent_script. Qed.

Lemma check_processed_no_put k : silent is_put (check_processed cfg W k).
Proof. silent_script. Qed.

Lemma check_processed_no_cog k : silent is_cog (check_processed cfg W k).
Proof. silent_script. Qed.

Lemma transform_all_no_put : silent is_put (transform_all cfg W).
Proof. silent_script. Qed.

Lemma publish_no_cog p x k outs : silent is_cog (publish cfg W p x k outs).
Proof. silent_script. Qed.

Lemma handle_metadata_no_ack o : silent is_ack (handle_metadata cfg W o).
Proof. silent_script. Qed.

End Stages.

(** ** Test mode (lines 197-209 and 300-307) *)

Lemma acknowledge_none_raises pf f : raises (acknowledge pf f None).
Proof.
  unfold acknowledge. apply raises_bind_r. intros _.
  exists AttributeError. reflexivity.
Qed.

Lemma process_item_none_raises cfg W o c f :
  raises (process_item cfg W o c None f).
Proof.
  unfold process_item.
  do 4 (apply raises_bind_r; intros ?).
  apply raises_bind_l, acknowledge_none_raises.
Qed.

Lemma process_item_none_no_ack cfg W o c f :
  silent is_ack (process_item cfg W o c None f).
Proof.
  unfold process_item.
  apply silent_bind; [apply fetch_no_ack | intros _].
  apply silent_bind; [apply unpack_no_ack | intros pf].
  apply silent_bind.
  { destruct (negb pf); [apply handle_metadata_no_ack | apply silent_ret]. }
  intros pf'.
  apply silent_bind; [apply cleanup_no_ack | intros _].
  silent_script.
Qed.

(** C10.  With [test=True] the branch of line 198 is never taken: whatever
    the queue returned, the run is the processing of the hard-coded key
    with [message] left at [None].  Such a run never returns: it ends in
    an exception (at the latest the [AttributeError] of
    [message.delete()]), and no message is ever deleted. *)
Theorem test_mode_never_completes :
  forall (cfg : Config) (W : World) (overwrite cleanup : bool),
    let run := process_one cfg W overwrite cleanup true in
    run = (log INFO "Starting up a run" ;;
           emit ReceiveMessages ;;
           log WARNING "No messages!" ;;
           process_item cfg W overwrite cleanup None (test_key))
    /\ raises run
    /\ acks (trace run) = [].
Proof.
  intros cfg W overwrite cleanup run.
  assert (Hrun : run = (log INFO "Starting up a run" ;;
                        emit ReceiveMessages ;;
                        log WARNING "No messages!" ;;
                        process_item cfg W overwrite cleanup None test_key)).
  { unfold run, process_one. destruct (receive_messages W); reflexivity. }
  split; [exact Hrun |]. rewrite Hrun. split.
  - do 3 (apply raises_bind_r; intros _). apply process_item_none_raises.
  - change (silent is_ack
              (log INFO "Starting up a run" ;;
               emit ReceiveMessages ;;
               log WARNING "No messages!" ;;
               process_item cfg W overwrite cleanup None test_key)).
    do 3 (apply silent_bind; [silent_script | intros _]).
    apply process_item_none_no_ack.
Qed.

(** ** A leased message (lines 198-202) *)

Lemma outcome_bind_ok {A B} (m : M A) (k : A -> M B) a :
  outcome m = Ok a -> outcome (bind m k) = outcome (k a).
Proof. intros H. rewrite (bind_ok _ _ _ H). reflexivity. Qed.

Lemma trace_bind_ok {A B} (m : M A) (k : A -> M B) a :
  outcome m = Ok a -> trace (bind m k) = trace m ++ trace (k a).
Proof. intros H. rewrite (bind_ok _ _ _ H). reflexivity. Qed.

Lemma process_one_leased cfg W o c message rest :
  receive_messages W = message :: rest ->
  process_one cfg W o c false =
  (log INFO "Starting up a run" ;;
   emit ReceiveMessages ;;
   log INFO ("Found file to process: " +++ body message) ;;
   process_item cfg W o c (Some message) (body message)).
Proof. intros H. unfold process_one. rewrite H. reflexivity. Qed.

(** The three calls before [process_item] are neither uploads, nor
    conversions, nor deletions, and they do not fail. *)
Lemma leased_outcome cfg W o c message rest :
  receive_messages W = message :: rest ->
  outcome (process_one cfg W o c false) =
  outcome (process_item cfg W o c (Some message) (body message)).
Proof.
  intros H. rewrite (process_one_leased cfg W o c _ _ H).
  do 3 (erewrite outcome_bind_ok; [| reflexivity]). reflexivity.
Qed.

Lemma leased_trace cfg W o c message rest :
  receive_messages W = message :: rest ->
  trace (process_one cfg W o c false) =
  [Log INFO "Starting up a run"; ReceiveMessages;
   Log INFO ("Found file to process: " +++ body message)]
  ++ trace (process_item cfg W o c (Some message) (body message)).
Proof.
  intros H. rewrite (process_one_leased cfg W o c _ _ H).
  do 3 (erewrite trace_bind_ok; [| reflexivity]). reflexivity.
Qed.

Lemma leased_filter p cfg W o c message rest :
  receive_messages W = message :: rest ->
  (forall lvl msg, p (Log lvl msg) = false) -> p ReceiveMessages = false ->
  filter p (trace (process_one cfg W o c false)) =
  filter p (trace (process_item cfg W o c (Some message) (body message))).
Proof.
  intros H Hlog Hrecv. rewrite (leased_trace cfg W o c _ _ H).
  rewrite filter_app. simpl. rewrite !Hlog, Hrecv. reflexivity.
Qed.

(** An attempt that reaches its end has reported its result and then
    deleted its message, as its last two calls. *)
Lemma process_item_ends_with_ack cfg W o c m f r :
  outcome (process_item cfg W o c (Some m) f) = Ok r ->
  exists pre pf,
    r = Finished pf /\
    trace (process_item cfg W o c (Some m) f) =
    pre ++ [if pf
            then Log WARNING ("The process to download " +++ local_file_of f
                              +++ " FAILED!")
            else Log INFO "Finished processing and now deleting the message.";
            DeleteMessage m].
Proof.
  unfold process_item.
  rewrite bind_unfold.
  destruct (outcome (fetch cfg W f)); simpl; [| discriminate].
  rewrite bind_unfold.
  destruct (outcome (unpack cfg W (local_file_of f))) as [pf |]; simpl;
    [| discriminate].
  rewrite bind_unfold.
  destruct (outcome (if negb pf then handle_metadata cfg W o else ret pf))
    as [pf' |]; simpl; [| discriminate].
  rewrite bind_unfold.
  destruct (outcome (cleanup_workspaces cfg W c)); simpl; [| discriminate].
  unfold acknowledge. rewrite !bind_unfold.
  destruct pf'; simpl; intros H; injection H as <-;
    eexists; eexists; (split; [reflexivity |]);
    rewrite ?app_nil_r, !app_assoc; reflexivity.
Qed.

Lemma try_except_caught {A} (m : M A) (h : string -> M A) msg :
  outcome m = Raise (RuntimeError msg) ->
  try_except_RuntimeError m h = bind (trace m, Ok tt) (fun _ => h msg).
Proof. destruct m as [evs r]; simpl. intros ->. reflexivity. Qed.

Lemma try_except_ok {A} (m : M A) (h : string -> M A) a :
  outcome m = Ok a -> try_except_RuntimeError m h = m.
Proof. destruct m as [evs r]; simpl. intros ->. reflexivity. Qed.

(** What the guard of lines 224-228 makes of the outcome of [tar]. *)
Lemma unpack_failed cfg W f msg :
  outcome (run_command W ["tar"; "-xzvf"; f] (WORKDIR cfg)) = Raise (RuntimeError msg) ->
  outcome (unpack cfg W f) = Ok true.
Proof.
  intros H. unfold unpack.
  erewrite outcome_bind_ok; [| reflexivity].
  erewrite try_except_caught.
  - erewrite outcome_bind_ok; [| reflexivity].
    erewrite outcome_bind_ok; reflexivity.
  - rewrite bind_unfold, H. reflexivity.
Qed.

Lemma unpack_succeeded cfg W f :
  outcome (run_command W ["tar"; "-xzvf"; f] (WORKDIR cfg)) = Ok tt ->
  outcome (unpack cfg W f) = Ok false.
Proof.
  intros H. unfold unpack.
  erewrite outcome_bind_ok; [| reflexivity].
  erewrite try_except_ok.
  - erewrite outcome_bind_ok; [reflexivity | exact H].
  - erewrite outcome_bind_ok; [reflexivity | exact H].
Qed.

(** The uploads and conversions of an attempt are those of lines 232-292,
    which run only after a download and an unpacking that succeeded. *)
Lemma process_item_filter p cfg W o c message f :
  silent p (fetch cfg W f) ->
  silent p (unpack cfg W (local_file_of f)) ->
  silent p (cleanup_workspaces cfg W c) ->
  (forall pf, silent p (acknowledge pf (local_file_of f) message)) ->
  filter p (trace (process_item cfg W o c message f)) =
  match outcome (fetch cfg W f), outcome (unpack cfg W (local_file_of f)) with
  | Ok _, Ok false => filter p (trace (handle_metadata cfg W o))
  | _, _ => []
  end.
Proof.
  intros Hf Hu Hc Ha. unfold process_item.
  rewrite filter_bind, Hf. simpl.
  destruct (outcome (fetch cfg W f)); [| reflexivity].
  rewrite filter_bind, Hu. simpl.
  destruct (outcome (unpack cfg W (local_file_of f))) as [pf |]; [| reflexivity].
  rewrite filter_bind.
  assert (Hrest : forall pf',
             filter p (trace (cleanup_workspaces cfg W c ;;
                              acknowledge pf' (local_file_of f) message ;;
                              ret (Finished pf'))) = []).
  { intros pf'. rewrite filter_bind, Hc. simpl.
    destruct (outcome (cleanup_workspaces cfg W c)); [| reflexivity].
    rewrite filter_bind, Ha. simpl.
    destruct (outcome (acknowledge pf' (local_file_of f) message)); reflexivity. }
  destruct pf; simpl.
  - apply Hrest.
  - destruct (outcome (handle_metadata cfg W o)).
    + rewrite Hrest. apply app_nil_r.
    + apply app_nil_r.
Qed.

Lemma process_item_uploads cfg W o c message f :
  uploads (trace (process_item cfg W o c message f)) =
  match outcome (fetch cfg W f), outcome (unpack cfg W (local_file_of f)) with
  | Ok _, Ok false => uploads (trace (handle_metadata cfg W o))
  | _, _ => []
  end.
Proof.
  apply process_item_filter;
    [apply fetch_no_put | apply unpack_no_put | apply cleanup_no_put
    | intros; apply acknowledge_no_put].
Qed.

Lemma process_item_transforms cfg W o c message f :
  transforms (trace (process_item cfg W o c message f)) =
  match outcome (fetch cfg W f), outcome (unpack cfg W (local_file_of f)) with
  | Ok _, Ok false => transforms (trace (handle_metadata cfg W o))
  | _, _ => []
  end.
Proof.
  apply process_item_filter;
    [apply fetch_no_cog | apply unpack_no_cog | apply cleanup_no_cog
    | intros; apply acknowledge_no_cog].
Qed.

(** The outcome of an attempt whose stages all return. *)
Lemma process_item_outcome cfg W o c m f pf pf' :
  outcome (fetch cfg W f) = Ok tt ->
  outcome (unpack cfg W (local_file_of f)) = Ok pf ->
  outcome (if negb pf then handle_metadata cfg W o else ret pf) = Ok pf' ->
  outcome (cleanup_workspaces cfg W c) = Ok tt ->
  outcome (process_item cfg W o c (Some m) f) = Ok (Finished pf').
Proof.
  intros Hf Hu Hh Hc. unfold process_item.
  rewrite (outcome_bind_ok _ _ _ Hf), (outcome_bind_ok _ _ _ Hu),
    (outcome_bind_ok _ _ _ Hh), (outcome_bind_ok _ _ _ Hc).
  erewrite outcome_bind_ok; [reflexivity |].
  unfold acknowledge. erewrite outcome_bind_ok; [reflexivity |].
  destruct (negb pf'); reflexivity.
Qed.

(** ** Acknowledgement and unpack failure (lines 224-228 and 301-307) *)

(** C4.  For a leased message and [test=False]: every attempt that
    reaches the end of [process_one], with [process_failed] set or not,
    has deleted the message as its last call; and when [tar] fails (the
    download and the cleanup succeeding), the attempt ends normally with
    [process_failed] set, makes no upload and no conversion, logs the
    failure and deletes the message. *)
Theorem unpack_failure_still_acknowledged :
  forall (cfg : Config) (W : World) (overwrite cleanup : bool)
         (message : Message) (rest : list Message),
    receive_messages W = message :: rest ->
    let run := process_one cfg W overwrite cleanup false in
    let local_file := local_file_of (body message) in
    (forall r, outcome run = Ok r ->
       exists pre pf,
         r = Finished pf /\ trace run = pre ++ [DeleteMessage message])
    /\
    (forall msg,
       outcome (fetch cfg W (body message)) = Ok tt ->
       outcome (run_command W ["tar"; "-xzvf"; local_file] (WORKDIR cfg))
       = Raise (RuntimeError msg) ->
       outcome (cleanup_workspaces cfg W cleanup) = Ok tt ->
       outcome run = Ok (Finished true)
       /\ uploads (trace run) = []
       /\ transforms (trace run) = []
       /\ exists pre,
           trace run =
           pre ++ [Log WARNING ("The process to download " +++ local_file
                                +++ " FAILED!");
                   DeleteMessage message]).
Proof.
  intros cfg W overwrite cleanup message rest Hq run local_file.
  assert (Hend : forall r, outcome run = Ok r ->
            exists pre pf,
              r = Finished pf /\
              trace run =
              pre ++ [if pf
                      then Log WARNING ("The process to download "
                                        +++ local_file +++ " FAILED!")
                      else Log INFO "Finished processing and now deleting the message.";
                      DeleteMessage message]).
  { intros r Hr. unfold run in *.
    rewrite (leased_outcome cfg W overwrite cleanup _ _ Hq) in Hr.
    destruct (process_item_ends_with_ack _ _ _ _ _ _ _ Hr) as (pre & pf & -> & Ht).
    rewrite (leased_trace cfg W overwrite cleanup _ _ Hq), Ht.
    eexists; exists pf. split; [reflexivity |]. apply app_assoc. }
  split.
  - intros r Hr. destruct (Hend r Hr) as (pre & pf & -> & Ht).
    exists (pre ++ [if pf
                    then Log WARNING ("The process to download "
                                      +++ local_file +++ " FAILED!")
                    else Log INFO "Finished processing and now deleting the message."]),
      pf.
    split; [reflexivity |]. rewrite Ht, <- app_assoc. reflexivity.
  - intros msg Hf Htar Hc.
    pose proof (unpack_failed cfg W local_file msg Htar) as Hu.
    assert (Hout : outcome run = Ok (Finished true)).
    { unfold run. rewrite (leased_outcome cfg W overwrite cleanup _ _ Hq).
      apply (process_item_outcome cfg W overwrite cleanup message
               (body message) true true Hf Hu); [reflexivity | exact Hc]. }
    split; [exact Hout |]. split; [| split].
    + unfold run, uploads.
      rewrite (leased_filter is_put cfg W overwrite cleanup _ _ Hq);
        [| reflexivity | reflexivity].
      fold (uploads (trace (process_item cfg W overwrite cleanup
                              (Some message) (body message)))).
      rewrite process_item_uploads, Hf.
      fold local_file. rewrite Hu. reflexivity.
    + unfold run, transforms.
      rewrite (leased_filter is_cog cfg W overwrite cleanup _ _ Hq);
        [| reflexivity | reflexivity].
      fold (transforms (trace (process_item cfg W overwrite cleanup
                                 (Some message) (body message)))).
      rewrite process_item_transforms, Hf.
      fold local_file. rewrite Hu. reflexivity.
    + destruct (Hend _ Hout) as (pre & pf & Hpf & Ht).
      injection Hpf as <-. exists pre. exact Ht.
Qed.

(** C4 at a world whose [tar] exits with code 2. *)
Lemma unpack_failure_still_acknowledged_witness :
  outcome (process_one Examples.cfg Examples.corrupt_archive_world
             false true false) = Ok (Finished true)
  /\ uploads (trace (process_one Examples.cfg Examples.corrupt_archive_world
                       false true false)) = []
  /\ exists pre,
      trace (process_one Examples.cfg Examples.corrupt_archive_world
               false true false) = pre ++ [DeleteMessage Examples.message].
Proof.
  destruct (unpack_failure_still_acknowledged Examples.cfg
              Examples.corrupt_archive_world false true
              Examples.message [] eq_refl) as [Hany Hfail].
  edestruct Hfail as (Hout & Hup & _ & _);
    [reflexivity | reflexivity | reflexivity |].
  split; [exact Hout |]. split; [exact Hup |].
  destruct (Hany _ Hout) as (pre & pf & _ & Ht).
  exists pre. exact Ht.
Defined.

(** ** Lines 232-292 *)

(** The calls of lines 232-292 that satisfy [p], when neither the reading
    of the descriptor nor the existence check makes such a call: those
    of lines 250-290, reached with a descriptor, its metadata and a
    passed gate of line 249. *)
Lemma handle_metadata_filter p cfg W o :
  (forall lvl msg, p (Log lvl msg) = false) ->
  (forall f, silent p (get_metadata W f)) ->
  (forall k, silent p (check_processed cfg W k)) ->
  filter p (trace (handle_metadata cfg W o)) =
  match get_xmlfile W (WORKDIR cfg) with
  | None => []
  | Some f =>
      match outcome (get_metadata W (xml_file_of cfg f)) with
      | Raise _ => []
      | Ok md =>
          match outcome (check_processed cfg W (xml_key_of cfg md f)) with
          | Raise _ => []
          | Ok b =>
              if o || negb b then
                filter p (trace (out_files <- transform_all cfg W ;;
                                 publish cfg W (out_file_path cfg md)
                                         (xml_file_of cfg f)
                                         (xml_key_of cfg md f) out_files))
              else []
          end
      end
  end.
Proof.
  intros Hlog Hmeta Hcheck. unfold handle_metadata, xml_key_of, xml_file_of.
  destruct (get_xmlfile W (WORKDIR cfg)) as [f |]; [| reflexivity].
  rewrite filter_bind, Hmeta. cbn [app].
  destruct (outcome (get_metadata W (join2 (WORKDIR cfg) f))) as [md |];
    [| reflexivity].
  rewrite filter_bind, Hcheck. cbn [app].
  match goal with
  | |- context [outcome (check_processed cfg W ?k)] =>
      destruct (outcome (check_processed cfg W k)) as [b |]; [| reflexivity]
  end.
  rewrite filter_bind.
  assert (Hwarn : filter p (trace (if b
            then log WARNING "This file has been processed already."
            else ret tt)) = []).
  { destruct b; simpl; [rewrite Hlog |]; reflexivity. }
  rewrite Hwarn. cbn [app].
  assert (Hok : outcome (if b
            then log WARNING "This file has been processed already."
            else ret tt) = Ok tt) by (destruct b; reflexivity).
  rewrite Hok.
  destruct (o || negb b); [reflexivity |].
  rewrite filter_bind. simpl. rewrite Hlog. reflexivity.
Qed.

Lemma check_processed_exists cfg W k :
  load_object W (OUT_BUCKET cfg) k = None ->
  outcome (check_processed cfg W k) = Ok true.
Proof. intros H. unfold check_processed. rewrite H. reflexivity. Qed.

Lemma check_processed_missing cfg W k :
  load_object W (OUT_BUCKET cfg) k = Some (ClientError "404") ->
  outcome (check_processed cfg W k) = Ok false.
Proof. intros H. unfold check_processed. rewrite H. reflexivity. Qed.

Lemma handle_metadata_outcome cfg W o f md b :
  described cfg W f md ->
  outcome (check_processed cfg W (xml_key_of cfg md f)) = Ok b ->
  outcome (handle_metadata cfg W o) =
  if o || negb b then
    outcome (out_files <- transform_all cfg W ;;
             publish cfg W (out_file_path cfg md) (xml_file_of cfg f)
                     (xml_key_of cfg md f) out_files)
  else Ok false.
Proof.
  intros [Hx Hm] Hc. unfold handle_metadata. rewrite Hx.
  rewrite (outcome_bind_ok _ _ _ Hm).
  unfold xml_key_of, xml_file_of in *.
  rewrite (outcome_bind_ok _ _ _ Hc).
  erewrite outcome_bind_ok; [| destruct b; reflexivity].
  destruct (o || negb b); reflexivity.
Qed.

(** ** The gate of line 249 *)

(** C3.  For a leased message with [overwrite=False] whose archive
    unpacks and whose descriptor reads: when the metadata key is already
    in the store, the attempt makes no conversion and no upload, ends
    normally with [process_failed] unset, and deletes the message as its
    last call. *)
Theorem already_processed_is_skipped :
  forall (cfg : Config) (W : World) (cleanup : bool)
         (message : Message) (rest : list Message)
         (f : string) (md : metadata),
    receive_messages W = message :: rest ->
    unpacked cfg W message ->
    described cfg W f md ->
    load_object W (OUT_BUCKET cfg) (xml_key_of cfg md f) = None ->
    outcome (cleanup_workspaces cfg W cleanup) = Ok tt ->
    let run := process_one cfg W false cleanup false in
    outcome run = Ok (Finished false)
    /\ transforms (trace run) = []
    /\ uploads (trace run) = []
    /\ exists pre,
        trace run =
        pre ++ [Log INFO "Finished processing and now deleting the message.";
                DeleteMessage message].
Proof.
  intros cfg W cleanup message rest f md Hq [Hf Htar] Hd Hload Hc run.
  pose proof (unpack_succeeded cfg W _ Htar) as Hu.
  pose proof (check_processed_exists cfg W _ Hload) as Hcheck.
  pose proof (handle_metadata_outcome cfg W false f md true Hd Hcheck) as Hh.
  simpl in Hh.
  assert (Hout : outcome run = Ok (Finished false)).
  { unfold run. rewrite (leased_outcome cfg W false cleanup _ _ Hq).
    apply (process_item_outcome cfg W false cleanup message (body message)
             false false Hf Hu Hh Hc). }
  destruct Hd as [Hx Hm].
  split; [exact Hout |]. split; [| split].
  - unfold run, transforms.
    rewrite (leased_filter is_cog cfg W false cleanup _ _ Hq);
      [| reflexivity | reflexivity].
    fold (transforms (trace (process_item cfg W false cleanup
                               (Some message) (body message)))).
    rewrite process_item_transforms, Hf, Hu. unfold transforms.
    rewrite handle_metadata_filter;
      [| reflexivity | apply get_metadata_no_cog
       | apply check_processed_no_cog].
    rewrite Hx, Hm, Hcheck. reflexivity.
  - unfold run, uploads.
    rewrite (leased_filter is_put cfg W false cleanup _ _ Hq);
      [| reflexivity | reflexivity].
    fold (uploads (trace (process_item cfg W false cleanup
                            (Some message) (body message)))).
    rewrite process_item_uploads, Hf, Hu. unfold uploads.
    rewrite handle_metadata_filter;
      [| reflexivity | apply get_metadata_no_put
       | apply check_processed_no_put].
    rewrite Hx, Hm, Hcheck. reflexivity.
  - unfold run in *.
    rewrite (leased_outcome cfg W false cleanup _ _ Hq) in Hout.
    destruct (process_item_ends_with_ack _ _ _ _ _ _ _ Hout)
      as (pre & pf & Hpf & Ht).
    injection Hpf as <-.
    rewrite (leased_trace cfg W false cleanup _ _ Hq), Ht.
    eexists. apply app_assoc.
Qed.

(** C3 at a world whose store already holds the metadata key. *)
Lemma already_processed_is_skipped_witness :
  outcome (process_one Examples.cfg Examples.processed_world
             false true false) = Ok (Finished false)
  /\ transforms (trace (process_one Examples.cfg Examples.processed_world
                          false true false)) = []
  /\ uploads (trace (process_one Examples.cfg Examples.processed_world
                       false true false)) = [].
Proof.
  edestruct (already_processed_is_skipped Examples.cfg
               Examples.processed_world true Examples.message [])
    as (Hout & Htr & Hup & _).
  - reflexivity.
  - split; reflexivity.
  - split; reflexivity.
  - reflexivity.
  - reflexivity.
  - split; [exact Hout |]. split; [exact Htr | exact Hup].
Defined.

Lemma firstn_app_short {A} n (l l' : list A) :
  n <= List.length l -> firstn n (l ++ l') = firstn n l.
Proof.
  intros H. rewrite firstn_app.
  replace (n - List.length l) with 0 by lia.
  apply app_nil_r.
Qed.

Lemma firstn_min {A} n (l : list A) :
  firstn (Nat.min n (List.length l)) l = firstn n l.
Proof.
  destruct (Nat.le_ge_cases n (List.length l)) as [H | H].
  - rewrite Nat.min_l by exact H. reflexivity.
  - rewrite Nat.min_r by exact H.
    rewrite firstn_all, firstn_all2 by exact H. reflexivity.
Qed.

(** ** Publication (lines 274-290) *)

Section Publish.

Variable cfg : Config.
Variable W : World.
Variables prefix xml_file xml_key : string.

(** Whatever the store answers, the loop uploads an initial segment of
    the output files, in their order, and returns only after the whole
    list. *)
Lemma upload_trace x : uploads (trace (upload_file cfg W prefix x)) = [data_put cfg prefix x].
Proof.
  unfold upload_file, call.
  destruct (put_object W (OUT_BUCKET cfg) (prefix +++ "/" +++ basename x) x);
    reflexivity.
Qed.

Lemma upload_outcome x :
  outcome (upload_file cfg W prefix x) =
  match put_object W (OUT_BUCKET cfg) (prefix +++ "/" +++ basename x) x with
  | None => Ok tt
  | Some e => Raise e
  end.
Proof.
  unfold upload_file, call.
  destruct (put_object W (OUT_BUCKET cfg) (prefix +++ "/" +++ basename x) x);
    reflexivity.
Qed.

Lemma upload_loop_prefix out_files :
  exists n,
    uploads (trace (upload_loop cfg W prefix out_files))
    = map (data_put cfg prefix) (firstn n out_files)
    /\ (outcome (upload_loop cfg W prefix out_files) = Ok tt ->
        firstn n out_files = out_files).
Proof.
  unfold upload_loop.
  induction out_files as [| x l (n & IHt & IHo)]; cbn [for_each].
  - exists 0. split; reflexivity.
  - unfold uploads in *. rewrite filter_bind, bind_unfold.
    pose proof (upload_trace x) as Hx. unfold uploads in Hx. rewrite Hx.
    destruct (outcome (upload_file cfg W prefix x)) as [[] | e].
    + exists (S n). rewrite IHt. split; [reflexivity |].
      intros H. cbn [firstn]. f_equal. apply IHo, H.
    + exists 1. split; [reflexivity | discriminate].
Qed.

Lemma upload_loop_all out_files :
  (forall out_file,
      In out_file out_files ->
      put_object W (OUT_BUCKET cfg) (prefix +++ "/" +++ basename out_file)
                 out_file = None) ->
  outcome (upload_loop cfg W prefix out_files) = Ok tt
  /\ uploads (trace (upload_loop cfg W prefix out_files))
     = map (data_put cfg prefix) out_files.
Proof.
  intros Hput.
  destruct (upload_loop_prefix out_files) as (n & Ht & Ho).
  assert (Hok : outcome (upload_loop cfg W prefix out_files) = Ok tt).
  { clear n Ht Ho. unfold upload_loop.
    induction out_files as [| x l IH]; cbn [for_each]; [reflexivity |].
    rewrite bind_unfold, upload_outcome.
    rewrite (Hput x (or_introl eq_refl)).
    apply IH. intros y Hy. apply Hput. right. exact Hy. }
  split; [exact Hok |]. rewrite Ht, (Ho Hok). reflexivity.
Qed.

(** Below seven output files nothing is uploaded and [process_failed]
    is set. *)
Lemma publish_short out_files :
  List.length out_files < 7 ->
  outcome (publish cfg W prefix xml_file xml_key out_files) = Ok true
  /\ uploads (trace (publish cfg W prefix xml_file xml_key out_files)) = [].
Proof.
  intros H. unfold publish.
  destruct (Nat.leb_spec 7 (List.length out_files)); [lia |].
  split; reflexivity.
Qed.

(** From seven output files on, and with a store that accepts them,
    every output file is uploaded and then the descriptor. *)
Lemma publish_enough out_files :
  7 <= List.length out_files ->
  (forall out_file,
      In out_file out_files ->
      put_object W (OUT_BUCKET cfg) (prefix +++ "/" +++ basename out_file)
                 out_file = None) ->
  put_object W (OUT_BUCKET cfg) xml_key xml_file = None ->
  outcome (publish cfg W prefix xml_file xml_key out_files) = Ok false
  /\ uploads (trace (publish cfg W prefix xml_file xml_key out_files))
     = map (data_put cfg prefix) out_files
       ++ [PutObject (OUT_BUCKET cfg) xml_key xml_file].
Proof.
  intros Hlen Hdata Hxml. unfold publish.
  destruct (Nat.leb_spec 7 (List.length out_files)); [| lia].
  destruct (upload_loop_all out_files Hdata) as [Ho Ht].
  split.
  - rewrite (outcome_bind_ok _ _ _ Ho). rewrite Hxml. reflexivity.
  - unfold uploads in *. rewrite filter_bind, Ho, Ht, Hxml. reflexivity.
Qed.

(** Whatever the store answers, the uploads of lines 274-290 are an
    initial segment of: every output file, then the descriptor. *)
Lemma publish_prefix out_files :
  exists n,
    uploads (trace (publish cfg W prefix xml_file xml_key out_files))
    = firstn n (map (data_put cfg prefix) out_files
                ++ [PutObject (OUT_BUCKET cfg) xml_key xml_file]).
Proof.
  unfold publish.
  destruct (7 <=? List.length out_files); [| exists 0; reflexivity].
  destruct (upload_loop_prefix out_files) as (n & Ht & Ho).
  unfold uploads in *. rewrite filter_bind, Ht.
  destruct (outcome (upload_loop cfg W prefix out_files)) as [[] | e].
  - exists (S (List.length out_files)).
    rewrite (Ho eq_refl).
    rewrite firstn_all2 by (rewrite length_app, length_map; simpl; lia).
    unfold call.
    destruct (put_object W (OUT_BUCKET cfg) xml_key xml_file); reflexivity.
  - exists (Nat.min n (List.length out_files)).
    rewrite app_nil_r, firstn_app_short, firstn_map, firstn_min;
      [reflexivity | rewrite length_map; lia].
Qed.

End Publish.

(** The uploads of lines 250-290 are those of the publication, which runs
    only after every conversion returned. *)
Lemma transform_then_publish_uploads cfg W prefix xml_file xml_key :
  uploads (trace (out_files <- transform_all cfg W ;;
                  publish cfg W prefix xml_file xml_key out_files)) =
  match outcome (transform_all cfg W) with
  | Ok out_files => uploads (trace (publish cfg W prefix xml_file xml_key out_files))
  | Raise _ => []
  end.
Proof.
  unfold uploads. rewrite filter_bind, transform_all_no_put. reflexivity.
Qed.

(** ** The completeness gate (lines 274-290) *)

(** C1.  For a leased message whose archive unpacks, whose descriptor
    reads and which passes the gate of line 249, let [out_files] be the
    list the conversion loop returns.  With seven or more entries, and a
    store that accepts the uploads, the uploads of the run are exactly
    every output file and then the descriptor, and [process_failed]
    stays unset.  With six or fewer, the run makes no upload at all and
    ends with [process_failed] set. *)
Theorem publication_gated_on_seven_outputs :
  forall (cfg : Config) (W : World) (overwrite cleanup : bool)
         (message : Message) (rest : list Message)
         (f : string) (md : metadata) (b : bool) (out_files : list string),
    receive_messages W = message :: rest ->
    unpacked cfg W message ->
    described cfg W f md ->
    outcome (check_processed cfg W (xml_key_of cfg md f)) = Ok b ->
    overwrite || negb b = true ->
    outcome (transform_all cfg W) = Ok out_files ->
    outcome (cleanup_workspaces cfg W cleanup) = Ok tt ->
    let run := process_one cfg W overwrite cleanup false in
    (7 <= List.length out_files ->
     (forall out_file,
         In out_file out_files ->
         put_object W (OUT_BUCKET cfg)
                    (out_file_path cfg md +++ "/" +++ basename out_file)
                    out_file = None) ->
     put_object W (OUT_BUCKET cfg) (xml_key_of cfg md f) (xml_file_of cfg f)
     = None ->
     uploads (trace run)
     = map (data_put cfg (out_file_path cfg md)) out_files
       ++ [metadata_put cfg (out_file_path cfg md) (xml_file_of cfg f)]
     /\ outcome run = Ok (Finished false))
    /\
    (List.length out_files <= 6 ->
     uploads (trace run) = [] /\ outcome run = Ok (Finished true)).
Proof.
  intros cfg W overwrite cleanup message rest f md b out_files
         Hq [Hf Htar] Hd Hcheck Hgate Hall Hc run.
  pose proof (unpack_succeeded cfg W _ Htar) as Hu.
  pose proof (handle_metadata_outcome cfg W overwrite f md b Hd Hcheck) as Hh.
  rewrite Hgate, (outcome_bind_ok _ _ _ Hall) in Hh.
  assert (Hup : uploads (trace run) =
                uploads (trace (publish cfg W (out_file_path cfg md)
                                  (xml_file_of cfg f) (xml_key_of cfg md f)
                                  out_files))).
  { unfold run, uploads.
    rewrite (leased_filter is_put cfg W overwrite cleanup _ _ Hq);
      [| reflexivity | reflexivity].
    fold (uploads (trace (process_item cfg W overwrite cleanup
                            (Some message) (body message)))).
    rewrite process_item_uploads, Hf, Hu. unfold uploads.
    rewrite handle_metadata_filter;
      [| reflexivity | apply get_metadata_no_put
       | apply check_processed_no_put].
    destruct Hd as [Hx Hm]. rewrite Hx, Hm, Hcheck, Hgate.
    fold (uploads (trace (out_files <- transform_all cfg W ;;
                          publish cfg W (out_file_path cfg md)
                                  (xml_file_of cfg f) (xml_key_of cfg md f)
                                  out_files))).
    rewrite transform_then_publish_uploads, Hall. reflexivity. }
  assert (Hout : forall pf,
             outcome (publish cfg W (out_file_path cfg md) (xml_file_of cfg f)
                        (xml_key_of cfg md f) out_files) = Ok pf ->
             outcome run = Ok (Finished pf)).
  { intros pf Hp. unfold run.
    rewrite (leased_outcome cfg W overwrite cleanup _ _ Hq).
    apply (process_item_outcome cfg W overwrite cleanup message
             (body message) false pf Hf Hu); [| exact Hc].
    simpl. rewrite Hh. exact Hp. }
  split.
  - intros Hlen Hdata Hxml.
    destruct (publish_enough cfg W (out_file_path cfg md) (xml_file_of cfg f)
                (xml_key_of cfg md f) out_files Hlen Hdata Hxml) as [Ho Ht].
    split; [rewrite Hup, Ht; reflexivity | apply Hout, Ho].
  - intros Hlen.
    destruct (publish_short cfg W (out_file_path cfg md) (xml_file_of cfg f)
                (xml_key_of cfg md f) out_files) as [Ho Ht]; [lia |].
    split; [rewrite Hup, Ht; reflexivity | apply Hout, Ho].
Qed.

(** C1 at an archive with seven qualifying files and at one with six. *)
Lemma publication_gated_on_seven_outputs_witness :
  (List.length (uploads (trace (process_one Examples.cfg Examples.fresh_world
                                  false true false))) = 8
   /\ outcome (process_one Examples.cfg Examples.fresh_world false true false)
      = Ok (Finished false))
  /\ (uploads (trace (process_one Examples.cfg Examples.incomplete_world
                        false true false)) = []
      /\ outcome (process_one Examples.cfg Examples.incomplete_world
                    false true false) = Ok (Finished true)).
Proof.
  split.
  - edestruct (publication_gated_on_seven_outputs Examples.cfg
                 Examples.fresh_world false true Examples.message [])
      as [Hseven _].
    + reflexivity.
    + split; reflexivity.
    + split; reflexivity.
    + reflexivity.
    + reflexivity.
    + reflexivity.
    + reflexivity.
    + destruct Hseven as [Hup Hout].
      * vm_compute. lia.
      * intros out_file _. reflexivity.
      * reflexivity.
      * split; [rewrite Hup; reflexivity | exact Hout].
  - edestruct (publication_gated_on_seven_outputs Examples.cfg
                 Examples.incomplete_world false true Examples.message [])
      as [_ Hsix].
    + reflexivity.
    + split; reflexivity.
    + split; reflexivity.
    + reflexivity.
    + reflexivity.
    + reflexivity.
    + reflexivity.
    + apply Hsix. vm_compute. lia.
Defined.

(** ** Metadata last (lines 276-285) *)

(** A publication that returns with [process_failed] unset has made
    every upload: one per output file, and then that of the
    descriptor. *)
Lemma publish_returned cfg W prefix xml_file xml_key out_files :
  outcome (publish cfg W prefix xml_file xml_key out_files) = Ok false ->
  uploads (trace (publish cfg W prefix xml_file xml_key out_files))
  = map (data_put cfg prefix) out_files
    ++ [PutObject (OUT_BUCKET cfg) xml_key xml_file].
Proof.
  unfold publish.
  destruct (7 <=? List.length out_files); [| discriminate].
  destruct (upload_loop_prefix cfg W prefix out_files) as (n & Ht & Ho).
  intros Hout. rewrite bind_unfold in Hout.
  unfold uploads in *. rewrite filter_bind, Ht.
  destruct (outcome (upload_loop cfg W prefix out_files)) as [[] | e];
    [| discriminate].
  rewrite (Ho eq_refl). f_equal.
  cbn [outcome snd] in Hout. unfold call in *.
  destruct (put_object W (OUT_BUCKET cfg) xml_key xml_file);
    [discriminate | reflexivity].
Qed.

(** An attempt that reaches its end with [process_failed] at [pf]: its
    stages returned, and [pf] is what lines 231-292 left. *)
Lemma process_item_finished cfg W o c m f pf :
  outcome (process_item cfg W o c m f) = Ok (Finished pf) ->
  exists pf0,
    outcome (fetch cfg W f) = Ok tt
    /\ outcome (unpack cfg W (local_file_of f)) = Ok pf0
    /\ outcome (if negb pf0 then handle_metadata cfg W o else ret pf0) = Ok pf.
Proof.
  unfold process_item. intros H.
  rewrite bind_unfold in H.
  destruct (outcome (fetch cfg W f)) as [[] |] eqn:Hf; [| discriminate].
  cbn [outcome snd] in H. rewrite bind_unfold in H.
  destruct (outcome (unpack cfg W (local_file_of f))) as [pf0 |] eqn:Hu;
    [| discriminate].
  cbn [outcome snd] in H. rewrite bind_unfold in H.
  destruct (outcome (if negb pf0 then handle_metadata cfg W o else ret pf0))
    as [pf' |] eqn:Hh; [| discriminate].
  cbn [outcome snd] in H. rewrite bind_unfold in H.
  destruct (outcome (cleanup_workspaces cfg W c)) as [[] |]; [| discriminate].
  cbn [outcome snd] in H. rewrite bind_unfold in H.
  destruct (outcome (acknowledge pf' (local_file_of f) m)) as [[] |];
    [| discriminate].
  cbn [outcome snd ret] in H. injection H as <-.
  exists pf0. repeat split; assumption.
Qed.

(** The uploads of any run are those of lines 232-292 of one attempt, if
    any, and a run that makes them and reaches its end leaves
    [process_failed] as these lines left it. *)
Lemma process_one_publishes cfg W o c t :
  uploads (trace (process_one cfg W o c t)) = [] \/
  (uploads (trace (process_one cfg W o c t))
   = uploads (trace (handle_metadata cfg W o))
   /\ forall pf,
       outcome (process_one cfg W o c t) = Ok (Finished pf) ->
       outcome (handle_metadata cfg W o) = Ok pf).
Proof.
  assert (Hitem : forall m f,
             uploads (trace (process_item cfg W o c m f)) = [] \/
             (uploads (trace (process_item cfg W o c m f))
              = uploads (trace (handle_metadata cfg W o))
              /\ forall pf,
                  outcome (process_item cfg W o c m f) = Ok (Finished pf) ->
                  outcome (handle_metadata cfg W o) = Ok pf)).
  { intros m f. rewrite process_item_uploads.
    destruct (outcome (fetch cfg W f)) eqn:Hf; [| left; reflexivity].
    destruct (outcome (unpack cfg W (local_file_of f))) as [[] |] eqn:Hu;
      [left; reflexivity | right | left; reflexivity].
    split; [reflexivity |]. intros pf H.
    destruct (process_item_finished _ _ _ _ _ _ _ H) as (pf0 & _ & Hu' & Hh).
    rewrite Hu in Hu'. injection Hu' as <-. exact Hh. }
  unfold process_one, uploads in *.
  do 2 (rewrite bind_unfold; cbn [log emit trace outcome fst snd]).
  destruct (receive_messages W) as [| message rest]; destruct t;
    rewrite bind_unfold;
    cbn [log emit trace outcome fst snd filter is_put app];
    try apply Hitem.
  left. reflexivity.
Qed.

(** C2.  Whatever the collaborators answer and whatever the flags, the
    upload calls of a run of [process_one] are those of the publication
    of lines 274-290, if it makes any.  They are an initial segment of
    the sequence: one upload per output file, in the order of
    [out_files], and then the upload of the descriptor.  When the
    publication returns with [process_failed] unset, and so whenever
    the run ends with [process_failed] unset, they are the whole
    sequence: every data upload was made, the upload of the descriptor
    was made once, after all of them, and it is the last upload of the
    run. *)
Theorem metadata_uploaded_last :
  forall (cfg : Config) (W : World) (overwrite cleanup test : bool),
    let run := process_one cfg W overwrite cleanup test in
    uploads (trace run) = [] \/
    exists (f : string) (md : metadata) (out_files : list string),
      let data := map (data_put cfg (out_file_path cfg md)) out_files in
      let descriptor :=
        metadata_put cfg (out_file_path cfg md) (xml_file_of cfg f) in
      let publication :=
        publish cfg W (out_file_path cfg md) (xml_file_of cfg f)
                (xml_key_of cfg md f) out_files in
      described cfg W f md
      /\ outcome (transform_all cfg W) = Ok out_files
      /\ uploads (trace run) = uploads (trace publication)
      /\ (exists n : nat,
             uploads (trace run) = firstn n (data ++ [descriptor]))
      /\ (outcome publication = Ok false ->
          uploads (trace run) = data ++ [descriptor])
      /\ (outcome run = Ok (Finished false) ->
          uploads (trace run) = data ++ [descriptor]).
Proof.
  intros cfg W overwrite cleanup test run.
  destruct (process_one_publishes cfg W overwrite cleanup test) as [H | [H Hrun]];
    [left; exact H |].
  fold run in H, Hrun. rewrite H. unfold uploads.
  rewrite handle_metadata_filter;
    [| reflexivity | apply get_metadata_no_put | apply check_processed_no_put].
  destruct (get_xmlfile W (WORKDIR cfg)) as [f |] eqn:Hx; [| left; reflexivity].
  destruct (outcome (get_metadata W (xml_file_of cfg f))) as [md |] eqn:Hm;
    [| left; reflexivity].
  destruct (outcome (check_processed cfg W (xml_key_of cfg md f))) as [b |] eqn:Hc;
    [| left; reflexivity].
  destruct (overwrite || negb b) eqn:Hgate; [| left; reflexivity].
  fold (uploads (trace (out_files <- transform_all cfg W ;;
                        publish cfg W (out_file_path cfg md)
                                (xml_file_of cfg f) (xml_key_of cfg md f)
                                out_files))).
  rewrite transform_then_publish_uploads.
  destruct (outcome (transform_all cfg W)) as [out_files |] eqn:Hall;
    [| left; reflexivity].
  right. exists f, md, out_files. cbv zeta.
  assert (Hd : described cfg W f md) by (split; assumption).
  assert (Hfull :
            outcome (publish cfg W (out_file_path cfg md) (xml_file_of cfg f)
                       (xml_key_of cfg md f) out_files) = Ok false ->
            uploads (trace (publish cfg W (out_file_path cfg md)
                              (xml_file_of cfg f) (xml_key_of cfg md f)
                              out_files))
            = map (data_put cfg (out_file_path cfg md)) out_files
              ++ [metadata_put cfg (out_file_path cfg md) (xml_file_of cfg f)]).
  { apply publish_returned. }
  split; [exact Hd |]. split; [reflexivity |]. split; [reflexivity |].
  split; [| split].
  - destruct (publish_prefix cfg W (out_file_path cfg md) (xml_file_of cfg f)
                (xml_key_of cfg md f) out_files) as (n & Hn).
    exists n. exact Hn.
  - exact Hfull.
  - intros Hfin. apply Hfull.
    pose proof (Hrun false Hfin) as Hh.
    rewrite (handle_metadata_outcome cfg W overwrite f md b Hd Hc), Hgate in Hh.
    rewrite (outcome_bind_ok _ _ _ Hall) in Hh. exact Hh.
Qed.

(** C2 at a complete archive that was not processed before. *)
Lemma metadata_uploaded_last_witness :
  uploads (trace (process_one Examples.cfg Examples.fresh_world
                    false true false))
  = map (data_put Examples.cfg "test/LE07/021/048/2001/05/11")
        ["/app/data/out/download/LE07_sr_band1.tif";
         "/app/data/out/download/LE07_sr_band2.tif";
         "/app/data/out/download/LE07_sr_band3.tif";
         "/app/data/out/download/LE07_sr_band4.tif";
         "/app/data/out/download/LE07_sr_band5.tif";
         "/app/data/out/download/LE07_sr_band7.tif";
         "/app/data/out/download/LE07_pixel_qa.tif"]
    ++ [metadata_put Examples.cfg "test/LE07/021/048/2001/05/11"
                     "data/download/LE07.xml"].
Proof.
  destruct (metadata_uploaded_last Examples.cfg Examples.fresh_world
              false true false)
    as [Hnone | (f & md & out_files & [Hx Hm] & Hall & _ & _ & _ & Hfin)].
  - discriminate Hnone.
  - injection Hx as <-. injection Hm as <-. injection Hall as <-.
    exact (Hfin eq_refl).
Defined.

(** ** A missing or unreadable descriptor (lines 132-140 and 231-233) *)

(** An exception of lines 232-292 leaves [process_item] at once: nothing
    is cleaned up and no message is deleted. *)
Lemma process_item_propagates cfg W o c message f e :
  outcome (fetch cfg W f) = Ok tt ->
  outcome (unpack cfg W (local_file_of f)) = Ok false ->
  outcome (handle_metadata cfg W o) = Raise e ->
  outcome (process_item cfg W o c message f) = Raise e
  /\ acks (trace (process_item cfg W o c message f)) = [].
Proof.
  intros Hf Hu Hh. unfold process_item. split.
  - rewrite (outcome_bind_ok _ _ _ Hf), (outcome_bind_ok _ _ _ Hu).
    simpl negb. cbv iota. rewrite (bind_raise _ _ _ Hh). reflexivity.
  - unfold acks. rewrite filter_bind, fetch_no_ack, Hf.
    rewrite filter_bind, unpack_no_ack, Hu.
    simpl negb. cbv iota. rewrite (bind_raise _ _ _ Hh).
    apply handle_metadata_no_ack.
Qed.

Lemma get_xmlfile_none W directory :
  (forall name, In name (listdir W directory) -> contains ".xml" name = false) ->
  get_xmlfile W directory = None.
Proof.
  intros H. unfold get_xmlfile.
  destruct (find _ _) as [name |] eqn:Hfind; [| reflexivity].
  apply find_some in Hfind. destruct Hfind as [Hin Hxml].
  rewrite (H name Hin) in Hxml. discriminate.
Qed.

(** C5, as the script has it.  For a leased message whose archive
    unpacks: when no name in the download workspace contains [.xml], the
    lookup returns [None] without an error and [process_one] raises
    [TypeError] to its caller; when the descriptor is found but
    [get_metadata] raises, [process_one] raises the same exception.  In
    both cases the run makes no conversion, no upload, and does not
    delete the message. *)
Theorem descriptor_errors_propagate :
  forall (cfg : Config) (W : World) (overwrite cleanup : bool)
         (message : Message) (rest : list Message),
    receive_messages W = message :: rest ->
    unpacked cfg W message ->
    let run := process_one cfg W overwrite cleanup false in
    ((forall name, In name (listdir W (WORKDIR cfg)) ->
                   contains ".xml" name = false) ->
     get_xmlfile W (WORKDIR cfg) = None
     /\ outcome run = Raise TypeError
     /\ transforms (trace run) = []
     /\ uploads (trace run) = []
     /\ acks (trace run) = [])
    /\
    (forall f e,
        get_xmlfile W (WORKDIR cfg) = Some f ->
        outcome (get_metadata W (xml_file_of cfg f)) = Raise e ->
        outcome run = Raise e
        /\ transforms (trace run) = []
        /\ uploads (trace run) = []
        /\ acks (trace run) = []).
Proof.
  intros cfg W overwrite cleanup message rest Hq [Hf Htar] run.
  pose proof (unpack_succeeded cfg W _ Htar) as Hu.
  assert (Hcommon : forall e,
             outcome (handle_metadata cfg W overwrite) = Raise e ->
             transforms (trace (handle_metadata cfg W overwrite)) = [] ->
             uploads (trace (handle_metadata cfg W overwrite)) = [] ->
             outcome run = Raise e
             /\ transforms (trace run) = []
             /\ uploads (trace run) = []
             /\ acks (trace run) = []).
  { intros e He Htr Hup.
    destruct (process_item_propagates cfg W overwrite cleanup (Some message)
                (body message) e Hf Hu He) as [Hout Hack].
    split; [| split; [| split]].
    - unfold run. rewrite (leased_outcome cfg W overwrite cleanup _ _ Hq).
      exact Hout.
    - unfold run, transforms.
      rewrite (leased_filter is_cog cfg W overwrite cleanup _ _ Hq);
        [| reflexivity | reflexivity].
      fold (transforms (trace (process_item cfg W overwrite cleanup
                                 (Some message) (body message)))).
      rewrite process_item_transforms, Hf, Hu. exact Htr.
    - unfold run, uploads.
      rewrite (leased_filter is_put cfg W overwrite cleanup _ _ Hq);
        [| reflexivity | reflexivity].
      fold (uploads (trace (process_item cfg W overwrite cleanup
                              (Some message) (body message)))).
      rewrite process_item_uploads, Hf, Hu. exact Hup.
    - unfold run, acks.
      rewrite (leased_filter is_ack cfg W overwrite cleanup _ _ Hq);
        [| reflexivity | reflexivity].
      exact Hack. }
  split.
  - intros Hnone. pose proof (get_xmlfile_none W _ Hnone) as Hx.
    split; [exact Hx |].
    apply Hcommon.
    + unfold handle_metadata. rewrite Hx. reflexivity.
    + unfold handle_metadata. rewrite Hx. reflexivity.
    + unfold handle_metadata. rewrite Hx. reflexivity.
  - intros f e Hx Hm. apply Hcommon.
    + unfold handle_metadata. rewrite Hx.
      unfold xml_file_of in Hm. rewrite (bind_raise _ _ _ Hm). reflexivity.
    + unfold transforms. rewrite handle_metadata_filter;
        [| reflexivity | apply get_metadata_no_cog
         | apply check_processed_no_cog].
      rewrite Hx, Hm. reflexivity.
    + unfold uploads. rewrite handle_metadata_filter;
        [| reflexivity | apply get_metadata_no_put
         | apply check_processed_no_put].
      rewrite Hx, Hm. reflexivity.
Qed.

(** C5 at a workspace that holds two rasters and no descriptor. *)
Lemma descriptor_errors_propagate_witness :
  get_xmlfile Examples.no_descriptor_world (WORKDIR Examples.cfg) = None
  /\ outcome (process_one Examples.cfg Examples.no_descriptor_world
                false true false) = Raise TypeError
  /\ acks (trace (process_one Examples.cfg Examples.no_descriptor_world
                    false true false)) = [].
Proof.
  destruct (descriptor_errors_propagate Examples.cfg
              Examples.no_descriptor_world false true Examples.message []
              eq_refl (conj eq_refl eq_refl)) as [Hmissing _].
  destruct Hmissing as (Hx & Hout & _ & _ & Hack).
  - intros name [<- | [<- | []]]; reflexivity.
  - split; [exact Hx |]. split; [exact Hout | exact Hack].
Defined.

(** The wording of the specification fails at that workspace: the run
    raises instead of ending softly. *)
Lemma missing_descriptor_is_soft_counterexample :
  ~ missing_descriptor_is_soft Examples.cfg Examples.no_descriptor_world
      false true.
Proof.
  intros H.
  destruct (H Examples.message [] eq_refl (conj eq_refl eq_refl) eq_refl)
    as [[pf Hpf] _].
  vm_compute in Hpf. discriminate.
Qed.

(** ** The queue refill (lines 310-321) *)

Lemma endswith_empty s : endswith s "" = true.
Proof. induction s as [| a s IH]; simpl; [reflexivity | exact IH]. Qed.

Section Refill.

Variable cfg : Config.
Variable W : World.
Variable LIMIT : Z.
Variable f : string.
Hypothesis f_not_empty : f <> "".

Lemma filter_truthy item :
  negb (String.eqb f "") && contains f item = contains f item.
Proof.
  destruct (String.eqb_spec f ""); [contradiction | reflexivity].
Qed.

(** One page: the loop sends the first [room LIMIT count] matching keys and
    breaks at the next one. *)
Lemma yield_keys_sends keys : forall count,
  sent (trace (yield_keys keys "" (enqueue_item LIMIT (Some f)) count))
  = map SendMessage (firstn (room LIMIT count) (matching f keys))
  /\ outcome (yield_keys keys "" (enqueue_item LIMIT (Some f)) count)
     = Ok (if List.length (matching f keys) <=? room LIMIT count
           then Continue (count + Z.of_nat (List.length (matching f keys)))%Z
           else Break (count + Z.of_nat (room LIMIT count) + 1)%Z).
Proof.
  induction keys as [| key keys IH]; intros count; cbn [yield_keys].
  - simpl. rewrite firstn_nil, Z.add_0_r. split; reflexivity.
  - rewrite endswith_empty. unfold matching in *. cbn [filter].
    unfold enqueue_item at 1 3. rewrite filter_truthy.
    destruct (contains f key) eqn:Hkey.
    + destruct (Z.geb_spec (count + 1) LIMIT) as [Hge | Hlt].
      * assert (Hroom : room LIMIT count = 0) by (unfold room; lia).
        rewrite Hroom. simpl. split; [reflexivity |].
        do 2 f_equal. lia.
      * assert (Hroom : room LIMIT count = S (room LIMIT (count + 1)))
          by (unfold room; lia).
        destruct (IH (count + 1)%Z) as [IHt IHo].
        rewrite Hroom. unfold sent in *. split.
        -- rewrite filter_bind. simpl. rewrite IHt. reflexivity.
        -- erewrite outcome_bind_ok by reflexivity. cbv beta iota.
           rewrite IHo. cbn [List.length Nat.leb].
           destruct (_ <=? room LIMIT (count + 1)); do 2 f_equal; lia.
    + destruct (IH count) as [IHt IHo]. unfold sent in *. split.
      * rewrite filter_bind. simpl. exact IHt.
      * erewrite outcome_bind_ok by reflexivity. exact IHo.
Qed.

(** All pages: the loop sends the first [room LIMIT count] matching keys of
    the whole listing. *)
Lemma get_matching_s3_keys_sends bucket prefix l : forall token count,
  complete l = true ->
  sent (trace (get_matching_s3_keys_from bucket prefix "" token l
                 (enqueue_item LIMIT (Some f)) count))
  = map SendMessage (firstn (room LIMIT count) (matching f (all_keys l))).
Proof.
  induction l as [contents | contents token' next IH];
    intros token count Hc; cbn [get_matching_s3_keys_from];
    destruct contents as [keys |]; try discriminate;
    destruct (yield_keys_sends keys count) as [Ht Ho];
    unfold sent in *; rewrite filter_bind; cbn [emit trace outcome fst snd];
    cbn [filter is_send app contents_of all_keys].
  - rewrite filter_bind. cbn [ret trace outcome fst snd filter app].
    rewrite filter_bind, Ht, Ho. simpl. apply app_nil_r.
  - rewrite filter_bind. cbn [ret trace outcome fst snd filter app].
    rewrite filter_bind, Ht, Ho. cbv beta iota.
    unfold matching in *. rewrite filter_app.
    simpl in Hc.
    destruct (Nat.leb_spec (List.length (filter (fun item => contains f item) keys))
                           (room LIMIT count)) as [Hle | Hgt].
    + rewrite (IH _ _ Hc), firstn_app, <- map_app. f_equal. f_equal.
      f_equal. unfold room. lia.
    + simpl. rewrite app_nil_r, firstn_app_short by lia. reflexivity.
Qed.

(** The messages [get_items] sends: the first [LIMIT - 1] matching keys
    of the listing. *)
Lemma get_items_sends :
  complete (list_objects_v2 W (BUCKET cfg) (PATH cfg)) = true ->
  sent (trace (get_items cfg W LIMIT (Some f)))
  = map SendMessage
        (firstn (Z.to_nat (LIMIT - 1))
                (matching f (all_keys (list_objects_v2 W (BUCKET cfg) (PATH cfg))))).
Proof.
  intros Hc. unfold get_items, get_matching_s3_keys, sent.
  rewrite filter_bind. cbn [log emit trace outcome fst snd filter is_send app].
  pose proof (get_matching_s3_keys_sends (BUCKET cfg) (PATH cfg) _ None 0%Z Hc)
    as H.
  unfold sent, room in H. rewrite H. do 2 f_equal. lia.
Qed.

End Refill.

(** With [LIMIT] or more matching keys the loop sends [LIMIT - 1]
    messages, one fewer than the log line of line 312 announces. *)
Lemma get_items_one_short cfg W LIMIT f :
  f <> "" ->
  (1 <= LIMIT)%Z ->
  complete (list_objects_v2 W (BUCKET cfg) (PATH cfg)) = true ->
  (LIMIT <= Z.of_nat (List.length
                        (matching f (all_keys (list_objects_v2 W (BUCKET cfg)
                                                               (PATH cfg))))))%Z ->
  Z.of_nat (List.length (sent (trace (get_items cfg W LIMIT (Some f)))))
  = (LIMIT - 1)%Z.
Proof.
  intros Hf Hl Hc Hm. rewrite (get_items_sends cfg W LIMIT f Hf Hc).
  rewrite length_map, length_firstn. lia.
Qed.

(** With fewer matching keys than [LIMIT] every one of them is sent. *)
Lemma get_items_sends_all cfg W LIMIT f :
  f <> "" ->
  complete (list_objects_v2 W (BUCKET cfg) (PATH cfg)) = true ->
  (Z.of_nat (List.length
               (matching f (all_keys (list_objects_v2 W (BUCKET cfg)
                                                      (PATH cfg))))) < LIMIT)%Z ->
  sent (trace (get_items cfg W LIMIT (Some f)))
  = map SendMessage
        (matching f (all_keys (list_objects_v2 W (BUCKET cfg) (PATH cfg)))).
Proof.
  intros Hf Hc Hm. rewrite (get_items_sends cfg W LIMIT f Hf Hc).
  rewrite firstn_all2 by lia. reflexivity.
Qed.

(** C6.  At a listing with three matching keys and [LIMIT = 2] the loop
    of lines 314-321 sends one message, not two: the counter is compared
    with [LIMIT] before the message of the current key is sent. *)
Theorem get_items_sends_one_fewer_than_limit :
  List.length (matching "tar.gz" (all_keys Examples.three_archives)) = 3
  /\ sent (trace (get_items Examples.cfg
                    (Examples.listing_world Examples.three_archives)
                    2 (Some "tar.gz")))
     = [SendMessage Examples.key1].
Proof. split; reflexivity. Qed.

(** ** The output key prefix (lines 234-241) *)

Lemma zfill_writes_below w bound :
  forallb (fun n => writes w (zfill w (dec n)) n) (seq 0 bound) = true ->
  forall n, n < bound -> writes w (zfill w (dec n)) n = true.
Proof.
  intros H n Hn. rewrite forallb_forall in H. apply H.
  apply in_seq. lia.
Qed.

Lemma append_assoc_str (a b c : string) : (a +++ b) +++ c = a +++ (b +++ c).
Proof. induction a as [| x a IH]; simpl; [| rewrite IH]; reflexivity. Qed.

Lemma length_append_str (a b : string) :
  String.length (a +++ b) = String.length a + String.length b.
Proof. induction a as [| x a IH]; simpl; [| rewrite IH]; reflexivity. Qed.

Lemma forall_chars_append p (a b : string) :
  XmlFragment.forall_chars p (a +++ b)
  = XmlFragment.forall_chars p a && XmlFragment.forall_chars p b.
Proof.
  induction a as [| x a IH]; simpl; [reflexivity |].
  rewrite IH, andb_assoc. reflexivity.
Qed.

Lemma decimal_value_append (a b : string) : forall acc,
  decimal_value (a +++ b) acc = decimal_value b (decimal_value a acc).
Proof. induction a as [| x a IH]; intros acc; simpl; [| rewrite IH]; reflexivity. Qed.

Lemma digit_spec n :
  Datetime.is_digit (digit n) = true /\ Datetime.digit_val (digit n) = n mod 10.
Proof.
  unfold Datetime.is_digit, Datetime.digit_val, digit.
  pose proof (Nat.mod_upper_bound n 10 ltac:(discriminate)) as Hlt.
  rewrite nat_ascii_embedding by lia.
  split; [| lia].
  apply andb_true_iff. split; apply Nat.leb_le; lia.
Qed.

(** [dec_aux] writes the digits of [n] in front of [acc]: they are
    digits, they read as [n], and there are no more of them than [n]
    needs. *)
Lemma dec_aux_spec : forall fuel n acc,
  n < fuel ->
  exists s,
    dec_aux fuel n acc = s +++ acc
    /\ XmlFragment.forall_chars Datetime.is_digit s = true
    /\ (forall a, decimal_value s a = a * 10 ^ String.length s + n)
    /\ 1 <= String.length s
    /\ n < 10 ^ String.length s
    /\ (2 <= String.length s -> 10 ^ (String.length s - 1) <= n).
Proof.
  induction fuel as [| fuel IH]; intros n acc Hn; [lia |].
  cbn [dec_aux]. destruct (digit_spec n) as [Hd Hv].
  destruct (Nat.ltb_spec n 10) as [Hsmall | Hbig].
  - exists (String (digit n) EmptyString).
    cbn [String.append XmlFragment.forall_chars String.length decimal_value].
    rewrite Hd, Hv, (Nat.mod_small n 10 Hsmall).
    repeat split; try reflexivity; try intros a; cbn [Nat.pow]; lia.
  - assert (Hdiv : n / 10 < fuel).
    { pose proof (Nat.div_lt n 10 ltac:(lia) ltac:(lia)). lia. }
    destruct (IH (n / 10) (String (digit n) acc) Hdiv)
      as (s' & Heq & Hdig & Hval & Hlen & Hup & Hlow).
    exists (s' +++ String (digit n) EmptyString).
    pose proof (Nat.div_mod_eq n 10) as Hdm.
    pose proof (Nat.mod_upper_bound n 10 ltac:(discriminate)) as Hmod.
    rewrite Heq, append_assoc_str, forall_chars_append, length_append_str, Hdig.
    cbn [String.append XmlFragment.forall_chars String.length].
    rewrite Hd. replace (String.length s' + 1) with (S (String.length s')) by lia.
    cbn [Nat.pow Nat.sub].
    repeat split; try reflexivity; try lia.
    + intros a. rewrite decimal_value_append, Hval.
      cbn [decimal_value]. rewrite Hv. lia.
    + intros _. rewrite Nat.sub_0_r.
      destruct (Nat.le_gt_cases 2 (String.length s')) as [H2 | H1].
      * specialize (Hlow H2).
        replace (String.length s') with (S (String.length s' - 1)) at 1 by lia.
        cbn [Nat.pow]. lia.
      * replace (String.length s') with 1 by lia. cbn [Nat.pow]. lia.
Qed.

Lemma zeros_spec k :
  String.length (zeros k) = k
  /\ XmlFragment.forall_chars Datetime.is_digit (zeros k) = true
  /\ decimal_value (zeros k) 0 = 0.
Proof.
  induction k as [| k (Hl & Hd & Hv)]; [repeat split |].
  cbn [zeros String.length XmlFragment.forall_chars decimal_value].
  rewrite Hl, Hd. repeat split. exact Hv.
Qed.

(** A number below [10 ^ w] is written by [zfill w] with exactly [w]
    digits. *)
Lemma zfill_writes w n :
  n < 10 ^ w -> 1 <= w -> writes w (zfill w (dec n)) n = true.
Proof.
  intros Hn Hw. unfold dec, zfill, writes.
  destruct (dec_aux_spec (S n) n EmptyString (Nat.lt_succ_diag_r n))
    as (s & Heq & Hdig & Hval & Hlen & Hup & Hlow).
  assert (Hs : dec_aux (S n) n EmptyString = s).
  { rewrite Heq. clear. induction s as [| x s IH]; simpl; [| rewrite IH]; reflexivity. }
  rewrite Hs.
  assert (Hle : String.length s <= w).
  { destruct (Nat.le_gt_cases (String.length s) w) as [H | H]; [exact H |].
    assert (H2 : 2 <= String.length s) by lia.
    specialize (Hlow H2).
    pose proof (Nat.pow_le_mono_r 10 w (String.length s - 1) ltac:(discriminate)
                  ltac:(lia)).
    lia. }
  destruct (zeros_spec (w - String.length s)) as (Hzl & Hzd & Hzv).
  rewrite length_append_str, forall_chars_append, decimal_value_append.
  rewrite Hzl, Hzd, Hzv, Hdig, Hval.
  apply andb_true_iff. split; [apply andb_true_iff; split |].
  - apply Nat.eqb_eq. lia.
  - reflexivity.
  - apply Nat.eqb_eq. lia.
Qed.

Lemma zfill4_writes n :
  n <= Datetime.MAXYEAR -> writes 4 (zfill 4 (dec n)) n = true.
Proof.
  intros Hn. apply zfill_writes; [| lia].
  assert (H : 10 ^ 4 = S Datetime.MAXYEAR) by reflexivity.
  rewrite H. lia.
Qed.

Lemma zfill2_writes n : n <= 31 -> writes 2 (zfill 2 (dec n)) n = true.
Proof.
  intros Hn. apply (zfill_writes_below 2 32); [| lia].
  vm_compute. reflexivity.
Qed.

Lemma valid_bounds d :
  Datetime.valid d = true ->
  Datetime.year d <= Datetime.MAXYEAR /\ Datetime.month d <= 12
  /\ Datetime.day d <= 31.
Proof.
  unfold Datetime.valid. rewrite !andb_true_iff, !Nat.leb_le.
  intros (((((_ & Hy) & _) & Hm) & _) & Hd).
  split; [exact Hy |]. split; [exact Hm |].
  unfold Datetime.days_in_month in Hd.
  destruct (Datetime.month d) as [| [| [| [| [| [| [| [| [| [| [| [| m]]]]]]]]]]]];
    try destruct (Datetime.is_leap _); lia.
Qed.

(** C7.  The prefix of line 234 is a function of the settings and the
    metadata alone.  For a satellite name and a date from the year 1000
    on that [datetime] accepts, it is [OUT_PATH], the satellite, the
    path, the row, the year in four digits, the month in two and the day
    in two, joined by slashes; and for LE07, path 021, row 048,
    2001-05-11 and [OUT_PATH=test] it is [test/LE07/021/048/2001/05/11]. *)
Theorem out_file_path_shape :
  forall (cfg : Config) (md : metadata) (sat : string),
    satellite md = Some sat ->
    1000 <= Datetime.year (datetime md) ->
    Datetime.valid (datetime md) = true ->
    (exists YYYY MM DD,
        out_file_path cfg md
        = OUT_PATH cfg +++ "/" +++ sat +++ "/" +++ path md +++ "/" +++ row md
          +++ "/" +++ YYYY +++ "/" +++ MM +++ "/" +++ DD
        /\ writes 4 YYYY (Datetime.year (datetime md)) = true
        /\ writes 2 MM (Datetime.month (datetime md)) = true
        /\ writes 2 DD (Datetime.day (datetime md)) = true)
    /\ out_file_path Examples.cfg
         (mkMetadata (Datetime.mk 2001 5 11) (Some "LE07") "021" "048")
       = "test/LE07/021/048/2001/05/11".
Proof.
  intros cfg md sat Hsat _ Hvalid. split; [| reflexivity].
  destruct (valid_bounds _ Hvalid) as (Hy & Hm & Hd).
  exists (zfill 4 (dec (Datetime.year (datetime md)))),
    (zfill 2 (dec (Datetime.month (datetime md)))),
    (zfill 2 (dec (Datetime.day (datetime md)))).
  split; [| split; [| split]].
  - unfold out_file_path, Datetime.strftime. rewrite Hsat. reflexivity.
  - apply zfill4_writes, Hy.
  - apply zfill2_writes. lia.
  - apply zfill2_writes, Hd.
Qed.

(** C7 at the metadata that [get_metadata] reads from the example
    descriptor. *)
Lemma out_file_path_shape_witness :
  outcome (get_metadata Examples.fresh_world "data/download/LE07.xml")
  = Ok (mkMetadata (Datetime.mk 2001 5 11) (Some "LE07") "021" "048")
  /\ out_file_path Examples.cfg
       (mkMetadata (Datetime.mk 2001 5 11) (Some "LE07") "021" "048")
     = "test/LE07/021/048/2001/05/11".
Proof.
  split; [reflexivity |].
  exact (proj2 (out_file_path_shape Examples.cfg
                  (mkMetadata (Datetime.mk 2001 5 11) (Some "LE07") "021" "048")
                  "LE07" eq_refl ltac:(vm_compute; lia) eq_refl)).
Defined.

(** ** The conversion loop (lines 153-168 and 254-271) *)

Lemma for_fold_filter {A S} p (body : S -> A -> M S) (g : A -> list event) l :
  (forall s x, In x l -> filter p (trace (body s x)) = g x) ->
  (forall s x, In x l -> exists s', outcome (body s x) = Ok s') ->
  forall s,
    filter p (trace (for_fold l body s)) = flat_map g l
    /\ exists s', outcome (for_fold l body s) = Ok s'.
Proof.
  induction l as [| x l IH]; intros Hg Hok s; cbn [for_fold flat_map].
  - split; [reflexivity | exists s; reflexivity].
  - destruct (Hok s x (or_introl eq_refl)) as [s1 Hs1].
    destruct (IH (fun s y Hy => Hg s y (or_intror Hy))
                 (fun s y Hy => Hok s y (or_intror Hy)) s1) as [IHt [s2 IHo]].
    split.
    + rewrite filter_bind, Hs1, (Hg s x (or_introl eq_refl)), IHt. reflexivity.
    + exists s2. rewrite (outcome_bind_ok _ _ _ Hs1). exact IHo.
Qed.

Lemma flat_map_if {A B} (q : A -> bool) (h : A -> B) l :
  flat_map (fun x => if q x then [h x] else []) l = map h (filter q l).
Proof.
  induction l as [| x l IH]; simpl; [reflexivity |].
  destruct (q x); simpl; rewrite IH; reflexivity.
Qed.

Lemma map_of_flat_map {A B C} (h : B -> C) (k : A -> list B) l :
  map h (flat_map k l) = flat_map (fun x => map h (k x)) l.
Proof.
  induction l as [| x l IH]; simpl; [reflexivity |].
  rewrite map_app, IH. reflexivity.
Qed.

Lemma dirs_ready_app W evs1 : forall made evs2,
  dirs_ready W made (evs1 ++ evs2)
  = dirs_ready W made evs1 && dirs_ready W (created evs1 made) evs2.
Proof.
  induction evs1 as [| e evs1 IH]; intros made evs2; cbn [app dirs_ready].
  - reflexivity.
  - rewrite IH, andb_assoc. reflexivity.
Qed.

Lemma created_app evs1 evs2 made :
  created (evs1 ++ evs2) made = created evs2 (created evs1 made).
Proof. apply fold_left_app. Qed.

(** Only the calls that touch the file system matter to [dirs_ready]. *)
Lemma dirs_ready_filter W evs : forall made,
  dirs_ready W made evs = dirs_ready W made (filter is_fs evs)
  /\ created evs made = created (filter is_fs evs) made.
Proof.
  induction evs as [| e evs IH]; intros made; [split; reflexivity |].
  destruct (IH (created_by e ++ made)) as [IHd IHc].
  destruct e; cbn [filter is_fs dirs_ready created fold_left created_by app] in *;
    try (split; [apply IH | apply IH]);
    split; [rewrite IHd; reflexivity | exact IHc].
Qed.

Section Conversion.

Variable cfg : Config.
Variable W : World.
Variable output_dir : string.

(** One file of the walk: one converter call if the name qualifies,
    none otherwise; the directory of the output is in place when the
    converter is called; and the state keeps the paths created. *)
Lemma transform_file_spec dir st fname :
  let m := transform_file W output_dir dir st fname in
  let src := join2 dir fname in
  filter is_cog (trace m)
  = (if qualifies fname
     then [CogTranslate src (out_filename_of output_dir src)] else [])
  /\ dirs_ready W (made_of st) (trace m) = true
  /\ (forall st', outcome m = Ok st' ->
                  made_of st' = created (trace m) (made_of st))
  /\ (qualifies fname = true ->
      cog_translate W src (out_filename_of output_dir src) = None ->
      exists st', outcome m = Ok st').
Proof.
  destruct st as [[out_files count] made].
  unfold transform_file, getfilename, out_filename_of, made_of, call.
  destruct (qualifies fname); cbn [snd].
  2: { repeat split; try reflexivity.
       - intros st' H. injection H as <-. reflexivity.
       - discriminate. }
  set (src := join2 dir fname).
  set (dst := join2 output_dir (check_dir src)).
  destruct (exists_now W made (dirname dst)) eqn:Hex;
    destruct (cog_translate W src dst) as [e |] eqn:Hcog;
    cbn -[dirname basename dec Nat.add];
    rewrite ?Hex, ?Hcog; cbn -[dirname basename dec Nat.add];
    repeat split; try reflexivity; try discriminate;
    try (intros st' H; injection H as <-; reflexivity);
    try (intros _ _; eexists; reflexivity);
    try (rewrite Hex; reflexivity);
    try (unfold exists_now; cbn [existsb]; rewrite String.eqb_refl;
         cbn; rewrite orb_true_r; reflexivity).
Qed.

(** The files of one directory. *)
Lemma transform_files_ready dir files : forall st,
  let m := for_fold files (transform_file W output_dir dir) st in
  dirs_ready W (made_of st) (trace m) = true
  /\ (forall st', outcome m = Ok st' ->
                  made_of st' = created (trace m) (made_of st)).
Proof.
  induction files as [| fname files IH]; intros st; cbn [for_fold].
  - split; [reflexivity |]. intros st' H. injection H as <-. reflexivity.
  - destruct (transform_file_spec dir st fname) as (_ & Hd & Hm & _).
    cbv zeta in *. rewrite bind_unfold.
    destruct (outcome (transform_file W output_dir dir st fname))
      as [st1 |] eqn:Ho.
    + destruct (IH st1) as [IHd IHm]. cbv zeta in *.
      cbn [trace outcome fst snd]. split.
      * rewrite dirs_ready_app, Hd, <- (Hm st1 eq_refl). exact IHd.
      * intros st' H. rewrite created_app, <- (Hm st1 eq_refl).
        apply IHm, H.
    + split; [exact Hd | discriminate].
Qed.

(** The directories of the walk. *)
Lemma transform_walk_ready entries : forall st,
  let m := for_fold entries
             (fun st (entry : string * list string * list string) =>
                let '(dir, subdirs, files) := entry in
                for_fold files (transform_file W output_dir dir) st) st in
  dirs_ready W (made_of st) (trace m) = true
  /\ (forall st', outcome m = Ok st' ->
                  made_of st' = created (trace m) (made_of st)).
Proof.
  induction entries as [| [[dir subdirs] files] entries IH]; intros st;
    cbn [for_fold].
  - split; [reflexivity |]. intros st' H. injection H as <-. reflexivity.
  - destruct (transform_files_ready dir files st) as [Hd Hm].
    cbv zeta in *. rewrite bind_unfold.
    destruct (outcome (for_fold files (transform_file W output_dir dir) st))
      as [st1 |] eqn:Ho.
    + destruct (IH st1) as [IHd IHm]. cbv zeta in *.
      cbn [trace outcome fst snd]. split.
      * rewrite dirs_ready_app, Hd, <- (Hm st1 eq_refl). exact IHd.
      * intros st' H. rewrite created_app, <- (Hm st1 eq_refl).
        apply IHm, H.
    + split; [exact Hd | discriminate].
Qed.

End Conversion.

(** Whatever the converter answers, it is never called before the
    directory of its output file exists. *)
Lemma transform_all_ready cfg W :
  dirs_ready W [] (trace (transform_all cfg W)) = true.
Proof.
  unfold transform_all.
  destruct (transform_walk_ready W (abspath W (OUTDIR cfg))
              (walk W (abspath W (WORKDIR cfg))) ([], 0, [])) as [Hd _].
  cbv zeta in Hd. rewrite bind_unfold.
  destruct (outcome _) as [[[out_files count] made] |];
    cbn [trace fst ret]; [rewrite app_nil_r |]; exact Hd.
Qed.

(** When every conversion succeeds, the converter is called once for each
    qualifying file of the walk, in the order of the walk. *)
Lemma transform_all_conversions cfg W :
  (forall src, In src (qualifying_inputs cfg W) ->
               cog_translate W src (out_filename_of (abspath W (OUTDIR cfg)) src)
               = None) ->
  transforms (trace (transform_all cfg W))
  = map (conversion cfg W) (qualifying_inputs cfg W)
  /\ exists out_files, outcome (transform_all cfg W) = Ok out_files.
Proof.
  intros Hcog. unfold transform_all, transforms, qualifying_inputs in *.
  set (od := abspath W (OUTDIR cfg)) in *.
  set (entries := walk W (abspath W (WORKDIR cfg))) in *.
  set (g := fun entry : string * list string * list string =>
              let '(dir, _, files) := entry in
              map (conversion cfg W) (map (join2 dir) (filter qualifies files))).
  destruct (for_fold_filter is_cog
              (fun st (entry : string * list string * list string) =>
                 let '(dir, subdirs, files) := entry in
                 for_fold files (transform_file W od dir) st)
              g entries) with (s := (@nil string, 0, @nil string))
    as [Ht [st Ho]].
  - intros s [[dir subdirs] files] Hin.
    destruct (for_fold_filter is_cog (transform_file W od dir)
                (fun fname => if qualifies fname
                              then [conversion cfg W (join2 dir fname)] else [])
                files) with (s := s) as [Ht _].
    + intros s' fname _. apply transform_file_spec.
    + intros s' fname Hf.
      destruct (qualifies fname) eqn:Hq.
      * apply transform_file_spec; [exact Hq |].
        apply Hcog. apply in_flat_map. exists (dir, subdirs, files).
        split; [exact Hin |]. apply in_map, filter_In. split; assumption.
      * unfold transform_file. destruct s' as [[a b] c]. rewrite Hq.
        eexists. reflexivity.
    + rewrite Ht. unfold g. rewrite flat_map_if, map_map. reflexivity.
  - intros s [[dir subdirs] files] Hin.
    destruct (for_fold_filter is_cog (transform_file W od dir)
                (fun fname => if qualifies fname
                              then [conversion cfg W (join2 dir fname)] else [])
                files) with (s := s) as [_ Ho]; [| | exact Ho].
    + intros s' fname _. apply transform_file_spec.
    + intros s' fname Hf.
      destruct (qualifies fname) eqn:Hq.
      * apply transform_file_spec; [exact Hq |].
        apply Hcog. apply in_flat_map. exists (dir, subdirs, files).
        split; [exact Hin |]. apply in_map, filter_In. split; assumption.
      * unfold transform_file. destruct s' as [[a b] c]. rewrite Hq.
        eexists. reflexivity.
  - split.
    + rewrite filter_bind, Ht, Ho. destruct st as [[a b] c]; simpl.
      rewrite app_nil_r, map_of_flat_map. unfold g.
      apply flat_map_ext. intros [[dir subdirs] files]. reflexivity.
    + destruct st as [[out_files b] c]. exists out_files.
      rewrite (outcome_bind_ok _ _ _ Ho). reflexivity.
Qed.

Section FileSystemCalls.

Variable cfg : Config.
Variable W : World.

Lemma fetch_no_fs f : silent is_fs (fetch cfg W f).
Proof. silent_script. Qed.

Lemma unpack_no_fs f : silent is_fs (unpack cfg W f).
Proof. silent_script. Qed.

Lemma cleanup_no_fs c : silent is_fs (cleanup_workspaces cfg W c).
Proof. silent_script. Qed.

Lemma acknowledge_no_fs pf f m : silent is_fs (acknowledge pf f m).
Proof. silent_script. Qed.

Lemma get_metadata_no_fs f : silent is_fs (get_metadata W f).
Proof. silent_script. Qed.

Lemma check_processed_no_fs k : silent is_fs (check_processed cfg W k).
Proof. silent_script. Qed.

Lemma publish_no_fs p x k outs : silent is_fs (publish cfg W p x k outs).
Proof. silent_script. Qed.

(** The file-system calls and the conversions of lines 250-290 are
    those of the conversion loop. *)
Lemma transform_then_publish_filter p prefix xml_file xml_key :
  (forall outs, silent p (publish cfg W prefix xml_file xml_key outs)) ->
  filter p (trace (out_files <- transform_all cfg W ;;
                   publish cfg W prefix xml_file xml_key out_files))
  = filter p (trace (transform_all cfg W)).
Proof.
  intros Hp. rewrite filter_bind.
  destruct (outcome (transform_all cfg W)) as [outs |];
    [rewrite Hp |]; apply app_nil_r.
Qed.

(** The file-system calls of any run are those of one conversion loop,
    if any. *)
Lemma process_one_fs o c t :
  filter is_fs (trace (process_one cfg W o c t)) = [] \/
  filter is_fs (trace (process_one cfg W o c t))
  = filter is_fs (trace (transform_all cfg W)).
Proof.
  assert (Hmeta : filter is_fs (trace (handle_metadata cfg W o)) = [] \/
                  filter is_fs (trace (handle_metadata cfg W o))
                  = filter is_fs (trace (transform_all cfg W))).
  { rewrite handle_metadata_filter;
      [| reflexivity | apply get_metadata_no_fs | apply check_processed_no_fs].
    destruct (get_xmlfile W (WORKDIR cfg)) as [f |]; [| left; reflexivity].
    destruct (outcome (get_metadata W (xml_file_of cfg f))) as [md |];
      [| left; reflexivity].
    destruct (outcome (check_processed cfg W (xml_key_of cfg md f))) as [b |];
      [| left; reflexivity].
    destruct (o || negb b); [| left; reflexivity].
    right. apply transform_then_publish_filter. intros outs.
    apply publish_no_fs. }
  assert (Hitem : forall m f,
             filter is_fs (trace (process_item cfg W o c m f)) = [] \/
             filter is_fs (trace (process_item cfg W o c m f))
             = filter is_fs (trace (transform_all cfg W))).
  { intros m f.
    rewrite process_item_filter;
      [| apply fetch_no_fs | apply unpack_no_fs | apply cleanup_no_fs
       | intros; apply acknowledge_no_fs].
    destruct (outcome (fetch cfg W f)); [| left; reflexivity].
    destruct (outcome (unpack cfg W (local_file_of f))) as [[] |];
      [left; reflexivity | exact Hmeta | left; reflexivity]. }
  unfold process_one.
  do 2 (rewrite filter_bind; cbn [log emit trace outcome fst snd filter is_fs app]).
  destruct (receive_messages W) as [| message rest]; destruct t;
    rewrite filter_bind; cbn [log emit trace outcome fst snd filter is_fs app];
    try apply Hitem.
  left. reflexivity.
Qed.

End FileSystemCalls.

(** C8, as the script has it.  For a leased message whose archive
    unpacks, whose descriptor reads and which passes the gate of line
    249, and with a converter that succeeds on each qualifying file: the
    converter calls of the run are, in the order of the walk, one call
    for each file whose name ends in [.tif] and contains [_sr_] or [_qa];
    the output path of a call is the transform workspace joined with the
    last two components of the input path (the directory that holds the
    file, and the file name); and no converter call is made before the
    directory of its output exists. *)
Theorem qualifying_files_converted_once :
  forall (cfg : Config) (W : World) (overwrite cleanup : bool)
         (message : Message) (rest : list Message)
         (f : string) (md : metadata) (b : bool),
    receive_messages W = message :: rest ->
    unpacked cfg W message ->
    described cfg W f md ->
    outcome (check_processed cfg W (xml_key_of cfg md f)) = Ok b ->
    overwrite || negb b = true ->
    (forall src,
        In src (qualifying_inputs cfg W) ->
        cog_translate W src (out_filename_of (abspath W (OUTDIR cfg)) src) = None) ->
    let run := process_one cfg W overwrite cleanup false in
    transforms (trace run)
    = map (fun src =>
             CogTranslate src (join2 (abspath W (OUTDIR cfg)) (check_dir src)))
          (qualifying_inputs cfg W)
    /\ dirs_ready W [] (trace run) = true.
Proof.
  intros cfg W overwrite cleanup message rest f md b
         Hq [Hf Htar] [Hx Hm] Hcheck Hgate Hcog run.
  pose proof (unpack_succeeded cfg W _ Htar) as Hu.
  split.
  - unfold run, transforms.
    rewrite (leased_filter is_cog cfg W overwrite cleanup _ _ Hq);
      [| reflexivity | reflexivity].
    fold (transforms (trace (process_item cfg W overwrite cleanup
                               (Some message) (body message)))).
    rewrite process_item_transforms, Hf, Hu. unfold transforms.
    rewrite handle_metadata_filter;
      [| reflexivity | apply get_metadata_no_cog | apply check_processed_no_cog].
    rewrite Hx, Hm, Hcheck, Hgate.
    rewrite transform_then_publish_filter
      by (intros outs; apply publish_no_cog).
    apply (transform_all_conversions cfg W Hcog).
  - destruct (dirs_ready_filter W (trace run) []) as [-> _].
    destruct (process_one_fs cfg W overwrite cleanup false) as [H | H];
      fold run in H; rewrite H; [reflexivity |].
    destruct (dirs_ready_filter W (trace (transform_all cfg W)) []) as [<- _].
    apply transform_all_ready.
Qed.

(** C8 at the archive with seven qualifying files. *)
Lemma qualifying_files_converted_once_witness :
  List.length (transforms (trace (process_one Examples.cfg Examples.fresh_world
                                    false true false))) = 7
  /\ dirs_ready Examples.fresh_world []
       (trace (process_one Examples.cfg Examples.fresh_world false true false))
     = true.
Proof.
  edestruct (qualifying_files_converted_once Examples.cfg Examples.fresh_world
               false true Examples.message []) as [Htr Hdirs].
  - reflexivity.
  - split; reflexivity.
  - split; reflexivity.
  - reflexivity.
  - reflexivity.
  - intros src _. reflexivity.
  - split; [rewrite Htr; reflexivity | exact Hdirs].
Defined.

(** The wording of the specification fails at that archive: the raster
    [data/download/LE07_sr_band1.tif] is written to
    [data/out/download/LE07_sr_band1.tif], and its mirrored relative path
    is [data/out/LE07_sr_band1.tif]. *)
Lemma outputs_mirrored_counterexample :
  ~ outputs_mirrored Examples.cfg Examples.fresh_world
      (trace (process_one Examples.cfg Examples.fresh_world false true false)).
Proof.
  intros H.
  specialize (H "/app/data/download/LE07_sr_band1.tif"
                "/app/data/out/download/LE07_sr_band1.tif").
  assert (Hin : In (CogTranslate "/app/data/download/LE07_sr_band1.tif"
                                 "/app/data/out/download/LE07_sr_band1.tif")
                   (trace (process_one Examples.cfg Examples.fresh_world
                             false true false))).
  { vm_compute. do 12 right. left. reflexivity. }
  specialize (H Hin).
  assert (E : String.eqb "/app/data/out/download/LE07_sr_band1.tif"
                (mirrored_path Examples.cfg Examples.fresh_world
                   "/app/data/download/LE07_sr_band1.tif") = false)
    by (vm_compute; reflexivity).
  rewrite <- H, String.eqb_refl in E. discriminate E.
Qed.

(** *** What [check_dir] keeps of a path *)

Lemma split_nonempty c s : split c s <> [].
Proof.
  destruct s as [| a r]; simpl; [discriminate |].
  destruct (Ascii.eqb a c); [discriminate |].
  destruct (split c r); discriminate.
Qed.

Lemma split_app_sep c a b :
  split c (a +++ String c b) = split c a ++ split c b.
Proof.
  induction a as [| x a IH]; simpl.
  - rewrite Ascii.eqb_refl. reflexivity.
  - rewrite IH. destruct (Ascii.eqb x c); [reflexivity |].
    pose proof (split_nonempty c a) as Hne.
    destruct (split c a); [contradiction | reflexivity].
Qed.

Lemma startswith_empty s : startswith s "" = true.
Proof. destruct s; reflexivity. Qed.

Lemma split_no_slash s :
  contains "/" s = false -> split slash s = [s].
Proof.
  unfold slash. induction s as [| a r IH]; [reflexivity |].
  cbn [contains startswith split]. rewrite startswith_empty, andb_true_r.
  intros H. apply orb_false_iff in H. destruct H as [Ha Hr].
  rewrite Ascii.eqb_sym, Ha, (IH Hr). reflexivity.
Qed.

Lemma last_two_snoc (l : list string) b :
  l <> [] -> last_two (l ++ [b]) = [last_item l; b].
Proof.
  unfold last_two, last_item. intros Hne.
  rewrite length_app. cbn [List.length].
  replace (List.length l + 1 - 2) with (List.length l - 1) by lia.
  rewrite skipn_app.
  replace (List.length l - 1 - List.length l) with 0 by lia.
  cbn [skipn]. f_equal.
  induction l as [| x l IH]; [contradiction |].
  destruct l as [| y l]; [reflexivity |].
  cbn [List.length Nat.sub] in *. rewrite Nat.sub_0_r in *.
  cbn [skipn last]. apply IH. discriminate.
Qed.

(** For a file [fname] of a directory [dir] of the walk, [check_dir]
    keeps the last component of [dir] and [fname]. *)
Lemma check_dir_of_join dir fname :
  contains "/" fname = false ->
  dir <> "" ->
  endswith dir "/" = false ->
  check_dir (join2 dir fname)
  = join2 (last_item (split slash dir)) fname.
Proof.
  intros Hf Hd He. unfold join2 at 1.
  assert (Hs : startswith fname "/" = false).
  { destruct fname as [| a r]; [reflexivity |].
    cbn [contains] in Hf. apply orb_false_iff in Hf. apply Hf. }
  rewrite Hs, He.
  destruct (String.eqb_spec dir ""); [contradiction |]. cbn [orb].
  unfold check_dir.
  change (dir +++ "/" +++ fname) with (dir +++ String slash fname).
  rewrite split_app_sep, (split_no_slash fname Hf).
  rewrite last_two_snoc by apply split_nonempty.
  reflexivity.
Qed.

(** ** The namespace declaration (lines 92-114) *)

Section Pattern.

Import Re.

Lemma drop_prefix_app p r : drop_prefix p (p +++ r) = Some r.
Proof.
  induction p as [| a p IH]; simpl; [reflexivity |].
  rewrite Ascii.eqb_refl. exact IH.
Qed.

Lemma drop_prefix_startswith p s r :
  drop_prefix p s = Some r -> startswith s p = true.
Proof.
  revert s. induction p as [| a p IH]; intros s H; [destruct s; reflexivity |].
  destruct s as [| b s]; [discriminate |]. simpl in *.
  destruct (Ascii.eqb a b); [| discriminate].
  apply (IH _ H).
Qed.

(** A text without white space that is a prefix of [b ++ ws :: x],
    [ws] being white space, is a prefix of [b]. *)
Lemma drop_prefix_before_space p : forall b ws x r,
  XmlFragment.forall_chars (fun c => negb (is_space c)) p = true ->
  is_space ws = true ->
  drop_prefix p (b +++ String ws x) = Some r ->
  startswith b p = true.
Proof.
  induction p as [| a p IH]; intros b ws x r Hp Hws H;
    [destruct b; reflexivity |].
  simpl in Hp. apply andb_true_iff in Hp. destruct Hp as [Ha Hp].
  destruct b as [| c b]; simpl in *.
  - destruct (Ascii.eqb_spec a ws) as [-> |]; [| discriminate].
    rewrite Hws in Ha. discriminate.
  - destruct (Ascii.eqb a c); [| discriminate].
    apply (IH b ws x r Hp Hws H).
Qed.

Lemma contains_head sub s : startswith s sub = true -> contains sub s = true.
Proof. destruct s; simpl; intros ->; reflexivity. Qed.

Lemma contains_tail sub a s :
  contains sub (String a s) = false -> contains sub s = false.
Proof. simpl. intros H. apply orb_false_iff in H. apply H. Qed.

Lemma startswith_app_l sub : forall s b,
  startswith s sub = true -> startswith (s +++ b) sub = true.
Proof.
  induction sub as [| d sub IH]; intros s b H; [destruct (s +++ b); reflexivity |].
  destruct s as [| c s]; [discriminate |]. simpl in *.
  apply andb_true_iff in H. destruct H as [-> H].
  apply (IH _ _ H).
Qed.

Lemma contains_app_l sub a b :
  contains sub (a +++ b) = false -> contains sub a = false.
Proof.
  induction a as [| x a IH]; intros H.
  - destruct sub as [| y sub]; [| reflexivity].
    destruct b; simpl in H; discriminate.
  - change (String x a +++ b) with (String x (a +++ b)) in H.
    cbn [contains] in *. apply orb_false_iff in H. destruct H as [Hs Hc].
    rewrite (IH Hc), orb_false_r.
    destruct (startswith (String x a) sub) eqn:Hsa; [| reflexivity].
    apply (startswith_app_l _ _ b) in Hsa.
    change (String x a +++ b) with (String x (a +++ b)) in Hsa.
    rewrite Hsa in Hs. discriminate.
Qed.

(** Where the text [xmlns=Q] does not occur, the pattern does not
    match and the substitution changes nothing. *)
Lemma sub_xmlns_unchanged s :
  contains xmlns_eq_quote s = false -> sub_xmlns s = s.
Proof.
  induction s as [| c s IH]; intros H; [reflexivity |].
  cbn [sub_xmlns match_here].
  assert (Hs : contains xmlns_eq_quote s = false) by apply (contains_tail _ _ _ H).
  destruct (is_space c).
  - destruct (drop_prefix xmlns_eq_quote s) as [v |] eqn:Hd.
    + apply drop_prefix_startswith, contains_head in Hd.
      rewrite Hd in Hs. discriminate.
    + rewrite (IH Hs). reflexivity.
  - rewrite (IH Hs). reflexivity.
Qed.

Lemma after_quote_value uri rest :
  XmlFragment.forall_chars (fun c => negb (Ascii.eqb c quote)) uri = true ->
  after_quote (uri +++ String quote rest) = Some rest.
Proof.
  induction uri as [| c uri IH]; intros H;
    cbn [String.append after_quote XmlFragment.forall_chars] in *.
  - rewrite Ascii.eqb_refl. reflexivity.
  - apply andb_true_iff in H. destruct H as [Hc H].
    apply negb_true_iff in Hc. rewrite Hc. exact (IH H).
Qed.

(** The first match is the declaration itself when [xmlns=Q] does not
    occur before it; the substitution removes it. *)
Lemma sub_xmlns_removes before ws uri rest :
  contains xmlns_eq_quote before = false ->
  is_space ws = true ->
  uri <> "" ->
  XmlFragment.forall_chars (fun c => negb (Ascii.eqb c quote)) uri = true ->
  sub_xmlns (before +++ String ws (xmlns_eq_quote +++ uri +++ String quote rest))
  = before +++ rest.
Proof.
  intros Hb Hws Hne Huri.
  induction before as [| c before IH].
  - cbn [String.append sub_xmlns match_here]. rewrite Hws, drop_prefix_app.
    destruct uri as [| u uri]; [contradiction |].
    cbn [String.append match_value]. simpl in Huri.
    apply andb_true_iff in Huri. destruct Huri as [Hu Huri].
    apply negb_true_iff in Hu. rewrite Hu.
    rewrite (after_quote_value uri rest Huri). reflexivity.
  - pose proof (contains_tail _ _ _ Hb) as Hb'.
    change (String c before +++ ?x) with (String c (before +++ x)).
    cbn [sub_xmlns match_here].
    destruct (is_space c).
    + destruct (drop_prefix xmlns_eq_quote _) as [v |] eqn:Hd.
      * apply drop_prefix_before_space in Hd; [| reflexivity | exact Hws].
        apply contains_head in Hd. rewrite Hd in Hb'. discriminate.
      * rewrite (IH Hb'). reflexivity.
    + rewrite (IH Hb'). reflexivity.
Qed.

End Pattern.

(** What [get_metadata] returns depends on the file through the text
    after the substitution only. *)
Lemma get_metadata_outcome_of_text W file1 file2 text1 text2 :
  read_text W file1 = Ok text1 ->
  read_text W file2 = Ok text2 ->
  Re.sub_xmlns text1 = Re.sub_xmlns text2 ->
  outcome (get_metadata W file1) = outcome (get_metadata W file2).
Proof.
  intros H1 H2 Hsub. unfold get_metadata.
  rewrite (outcome_bind_ok (emit (ReadText file1)) _ tt eq_refl).
  rewrite (outcome_bind_ok (emit (ReadText file2)) _ tt eq_refl).
  rewrite H1, H2.
  rewrite (outcome_bind_ok (lift (Ok text1)) _ text1 eq_refl).
  rewrite (outcome_bind_ok (lift (Ok text2)) _ text2 eq_refl).
  rewrite Hsub. reflexivity.
Qed.

(** C9, as the script has it.  Let a descriptor not contain the text
    [xmlns=Q], [Q] being the double quote.  Writing into it one white
    space character, [xmlns=Q], a non-empty text without double quote,
    and [Q] gives a descriptor that [get_metadata] reads as it reads the
    first: both return the same metadata or raise the same exception,
    whatever the parser. *)
Theorem namespace_in_double_quotes_is_stripped :
  forall (W : World) (file1 file2 before rest : string) (ws : ascii)
         (uri : string),
    Re.is_space ws = true ->
    uri <> "" ->
    XmlFragment.forall_chars (fun c => negb (Ascii.eqb c Re.quote)) uri = true ->
    contains Re.xmlns_eq_quote (before +++ rest) = false ->
    read_text W file1 = Ok (before +++ rest) ->
    read_text W file2
    = Ok (before +++ String ws (Re.xmlns_eq_quote +++ uri
                                +++ String Re.quote rest)) ->
    outcome (get_metadata W file1) = outcome (get_metadata W file2).
Proof.
  intros W file1 file2 before rest ws uri Hws Hne Huri Hplain H1 H2.
  apply (get_metadata_outcome_of_text W file1 file2 _ _ H1 H2).
  rewrite (sub_xmlns_unchanged _ Hplain).
  rewrite (sub_xmlns_removes before ws uri rest
             (contains_app_l _ _ _ Hplain) Hws Hne Huri).
  reflexivity.
Qed.

(** C9 at the example descriptor and its copy with the namespace declared
    in double quotes. *)
Lemma namespace_in_double_quotes_is_stripped_witness :
  outcome (get_metadata Examples.two_descriptors_world "plain.xml")
  = outcome (get_metadata Examples.two_descriptors_world "double.xml")
  /\ outcome (get_metadata Examples.two_descriptors_world "double.xml")
     = Ok (mkMetadata (Datetime.mk 2001 5 11) (Some "LE07") "021" "048").
Proof.
  split; [| reflexivity].
  apply (namespace_in_double_quotes_is_stripped Examples.two_descriptors_world
           "plain.xml" "double.xml" "<espa_metadata"
           (" version='2.0'>" +++ Examples.descriptor_body) " "%char
           Examples.namespace_uri);
    try reflexivity.
  discriminate.
Defined.

(** The wording of the specification fails for a declaration in single
    quotes: the pattern does not match it, the parser puts every element
    in the namespace, [doc.find('.//satellite')] is [None] and
    [get_metadata] raises [AttributeError]. *)
Lemma namespace_tolerant_counterexample :
  ~ namespace_tolerant Examples.two_descriptors_world.
Proof.
  intros H.
  specialize (H Examples.descriptor_plain Examples.descriptor_ns_single
                "plain.xml" "single.xml").
  assert (Hadds : adds_default_namespace Examples.descriptor_plain
                    Examples.descriptor_ns_single).
  { exists "espa_metadata", (" version='2.0'>" +++ Examples.descriptor_body),
      "'"%char, Examples.namespace_uri.
    split; [discriminate |]. split; [reflexivity |].
    split; [right; reflexivity |]. split; [discriminate |].
    split; [reflexivity |]. split; reflexivity. }
  specialize (H Hadds eq_refl eq_refl).
  vm_compute in H. discriminate.
Qed.

(** ** The example archive, end to end *)

(** The seven rasters of the example archive are uploaded in the order of
    the walk, the descriptor after them, and the message is deleted. *)
Lemma fresh_archive_uploads :
  map (fun e => match e with PutObject _ key _ => key | _ => "" end)
      (uploads (trace (process_one Examples.cfg Examples.fresh_world
                         false true false)))
  = ["test/LE07/021/048/2001/05/11/LE07_sr_band1.tif";
     "test/LE07/021/048/2001/05/11/LE07_sr_band2.tif";
     "test/LE07/021/048/2001/05/11/LE07_sr_band3.tif";
     "test/LE07/021/048/2001/05/11/LE07_sr_band4.tif";
     "test/LE07/021/048/2001/05/11/LE07_sr_band5.tif";
     "test/LE07/021/048/2001/05/11/LE07_sr_band7.tif";
     "test/LE07/021/048/2001/05/11/LE07_pixel_qa.tif";
     "test/LE07/021/048/2001/05/11/LE07.xml"]
  /\ acks (trace (process_one Examples.cfg Examples.fresh_world
                    false true false))
     = [DeleteMessage Examples.message].
Proof. split; vm_compute; reflexivity. Qed.

(** * Further properties of the script *)

(** ** The queue refill, continued (lines 72-90 and 310-321) *)

(** The generator makes no call but the listing calls; what else is
    called is called by the body of the loop. *)
Lemma generator_silent {S} p bucket prefix suffix
      (body : S -> string -> M (loop S)) l :
  (forall token, p (ListObjectsV2 bucket prefix token) = false) ->
  (forall s key, silent p (body s key)) ->
  forall token s,
    silent p (get_matching_s3_keys_from bucket prefix suffix token l body s).
Proof.
  intros Hlist Hbody.
  assert (Hyield : forall keys s, silent p (yield_keys keys suffix body s)).
  { induction keys as [| key keys IH]; intros s; cbn [yield_keys].
    - apply silent_ret.
    - destruct (endswith key suffix); [| apply IH].
      apply silent_bind; [apply Hbody |].
      intros [s' | s']; [apply IH | apply silent_ret]. }
  induction l as [contents | contents token' next IH]; intros token s;
    cbn [get_matching_s3_keys_from];
    (apply silent_bind; [apply silent_emit, Hlist | intros _]);
    (apply silent_bind;
     [destruct contents; [apply silent_ret | apply silent_raise] | intros keys]);
    (apply silent_bind; [apply Hyield |]).
  - intros r. apply silent_ret.
  - intros [s' | s']; [apply IH | apply silent_ret].
Qed.

(** X1.  With a non-empty filter text and a listing whose pages all have
    their [Contents], [get_items] sends one message for each of the
    first [LIMIT - 1] keys that contain the text, in the order of the
    listing, and no other message; for [LIMIT <= 1] it sends none. *)
Theorem get_items_enqueues_first_matches :
  forall (cfg : Config) (W : World) (LIMIT : Z) (f : string),
    f <> "" ->
    complete (list_objects_v2 W (BUCKET cfg) (PATH cfg)) = true ->
    sent (trace (get_items cfg W LIMIT (Some f)))
    = map SendMessage
          (firstn (Z.to_nat (LIMIT - 1))
                  (matching f (all_keys (list_objects_v2 W (BUCKET cfg)
                                                         (PATH cfg))))).
Proof. intros cfg W LIMIT f Hf Hc. apply (get_items_sends cfg W LIMIT f Hf Hc). Qed.

Lemma get_items_enqueues_first_matches_witness :
  sent (trace (get_items Examples.cfg
                 (Examples.listing_world Examples.three_archives)
                 3 (Some "tar.gz")))
  = [SendMessage Examples.key1; SendMessage Examples.key2].
Proof.
  rewrite (get_items_enqueues_first_matches Examples.cfg
             (Examples.listing_world Examples.three_archives) 3 "tar.gz");
    [reflexivity | discriminate | reflexivity].
Defined.

(** X2.  Without a filter, as in the default call [get_items()], or with
    the empty text as filter, [get_items] sends no message, whatever the
    listing and whatever [LIMIT]. *)
Theorem get_items_without_filter_sends_nothing :
  forall (cfg : Config) (W : World) (LIMIT : Z),
    sent (trace (get_items cfg W LIMIT None)) = []
    /\ sent (trace (get_items cfg W LIMIT (Some ""))) = [].
Proof.
  intros cfg W LIMIT.
  assert (H : forall filter,
             (forall count item,
                 silent is_send (enqueue_item LIMIT filter count item)) ->
             sent (trace (get_items cfg W LIMIT filter)) = []).
  { intros filter Hbody. unfold get_items, get_matching_s3_keys.
    change (silent is_send
              (log INFO ("Adding " +++ dec_Z LIMIT +++ " items from: "
                         +++ BUCKET cfg +++ "/" +++ PATH cfg
                         +++ " to the queue " +++ QUEUE cfg) ;;
               get_matching_s3_keys_from (BUCKET cfg) (PATH cfg) "" None
                 (list_objects_v2 W (BUCKET cfg) (PATH cfg))
                 (enqueue_item LIMIT filter) 0%Z)).
    apply silent_bind; [apply silent_log; reflexivity | intros _].
    apply generator_silent; [reflexivity | exact Hbody]. }
  split; apply H; intros count item; unfold enqueue_item; cbn;
    apply silent_ret.
Qed.

(** One page, whatever the filter: the loop goes on to the next page
    when the hits of the page number [room LIMIT count] at most, and
    breaks otherwise. *)
Lemma yield_keys_outcome LIMIT flt keys : forall count,
  outcome (yield_keys keys "" (enqueue_item LIMIT flt) count)
  = Ok (if List.length (hits flt keys) <=? room LIMIT count
        then Continue (count + Z.of_nat (List.length (hits flt keys)))%Z
        else Break (count + Z.of_nat (room LIMIT count) + 1)%Z).
Proof.
  assert (Hnone : forall flt',
             (forall count item,
                 enqueue_item LIMIT flt' count item = ret (Continue count)) ->
             forall count,
               outcome (yield_keys keys "" (enqueue_item LIMIT flt') count)
               = Ok (Continue count)).
  { intros flt' Hbody. induction keys as [| key keys IH]; intros count;
      cbn [yield_keys]; [reflexivity |].
    rewrite endswith_empty, Hbody, bind_unfold.
    cbn [ret outcome snd]. apply IH. }
  destruct flt as [f |]; cbn [hits].
  - destruct (String.eqb_spec f "") as [-> | Hf].
    + intros count. cbn [List.length Nat.leb]. rewrite Z.add_0_r.
      apply Hnone. reflexivity.
    + intros count. apply (yield_keys_sends LIMIT f Hf keys count).
  - intros count. cbn [List.length Nat.leb]. rewrite Z.add_0_r.
    apply Hnone. reflexivity.
Qed.

Lemma enqueue_item_no_list LIMIT flt count item :
  silent is_list (enqueue_item LIMIT flt count item).
Proof.
  unfold enqueue_item.
  destruct flt as [f |]; [| apply silent_ret].
  destruct (negb (String.eqb f "") && contains f item); [| apply silent_ret].
  destruct (count + 1 >=? LIMIT)%Z; [apply silent_ret |].
  apply silent_bind; [apply silent_emit; reflexivity | intros _].
  apply silent_ret.
Qed.

Lemma yield_keys_no_list LIMIT flt keys : forall count,
  silent is_list (yield_keys keys "" (enqueue_item LIMIT flt) count).
Proof.
  induction keys as [| key keys IH]; intros count; cbn [yield_keys].
  - apply silent_ret.
  - destruct (endswith key ""); [| apply IH].
    apply silent_bind; [apply enqueue_item_no_list |].
    intros [s' | s']; [apply IH | apply silent_ret].
Qed.

(** The listing calls of the generator under the loop of [get_items]. *)
Lemma generator_list_calls bucket prefix LIMIT flt l : forall token count,
  list_calls (trace (get_matching_s3_keys_from bucket prefix "" token l
                       (enqueue_item LIMIT flt) count))
  = ListObjectsV2 bucket prefix token
    :: firstn (pages_after flt (room LIMIT count) l)
              (map (fun t => ListObjectsV2 bucket prefix (Some t)) (tokens l)).
Proof.
  unfold list_calls.
  induction l as [contents | contents token' next IH]; intros token count;
    cbn [get_matching_s3_keys_from tokens map pages_after];
    rewrite filter_bind;
    cbn [emit trace outcome fst snd List.filter is_list app].
  - cbn [firstn]. f_equal.
    change (silent is_list
              (keys <- contents_of contents ;;
               r <- yield_keys keys "" (enqueue_item LIMIT flt) count ;;
               ret (loop_state r))).
    apply silent_bind;
      [destruct contents; [apply silent_ret | apply silent_raise] |].
    intros keys.
    apply silent_bind; [apply yield_keys_no_list | intros r; apply silent_ret].
  - destruct contents as [keys |]; [| reflexivity].
    rewrite filter_bind.
    cbn [contents_of ret trace outcome fst snd List.filter app].
    rewrite filter_bind, yield_keys_no_list, yield_keys_outcome. cbn [app].
    destruct (Nat.leb_spec (List.length (hits flt keys)) (room LIMIT count))
      as [Hle | Hgt].
    + rewrite IH. cbn [firstn].
      replace (room LIMIT (count + Z.of_nat (List.length (hits flt keys))))
        with (room LIMIT count - List.length (hits flt keys))
        by (unfold room in *; lia).
      reflexivity.
    + reflexivity.
Qed.

(** X3.  The listing calls of [get_items] follow the continuation
    tokens: the first call passes no token, and each later call passes
    the [NextContinuationToken] of the page before.  A further page is
    requested exactly when the page just read has a token and its
    [Contents] and the loop did not break on its keys, that is, when the
    keys that contain the filter text, over the pages read so far,
    number [LIMIT - 1] at most; after a [break] no further page is
    requested. *)
Theorem get_items_follows_continuation_tokens :
  forall (cfg : Config) (W : World) (LIMIT : Z) (flt : option string),
    let l := list_objects_v2 W (BUCKET cfg) (PATH cfg) in
    list_calls (trace (get_items cfg W LIMIT flt))
    = firstn (S (pages_after flt (Z.to_nat (LIMIT - 1)) l))
             (paging (BUCKET cfg) (PATH cfg) l).
Proof.
  intros cfg W LIMIT flt l.
  pose proof (generator_list_calls (BUCKET cfg) (PATH cfg) LIMIT flt l None 0%Z)
    as H.
  unfold get_items, get_matching_s3_keys, list_calls, paging in *.
  rewrite filter_bind. cbn [log emit trace outcome fst snd List.filter is_list app].
  fold l. rewrite H. cbn [firstn].
  replace (room LIMIT 0) with (Z.to_nat (LIMIT - 1)) by (unfold room; lia).
  reflexivity.
Qed.

(** X3 at three archives on two pages, the first with two hits: with
    [LIMIT = 2] the loop breaks on the first page and the second is not
    requested; with [LIMIT = 3] it is. *)
Lemma get_items_follows_continuation_tokens_witness :
  list_calls (trace (get_items Examples.cfg
                       (Examples.listing_world Examples.three_archives)
                       2 (Some "tar.gz")))
  = [ListObjectsV2 "frontiersi-odc-test" "from-tony/alex1129" None]
  /\ list_calls (trace (get_items Examples.cfg
                          (Examples.listing_world Examples.three_archives)
                          3 (Some "tar.gz")))
     = [ListObjectsV2 "frontiersi-odc-test" "from-tony/alex1129" None;
        ListObjectsV2 "frontiersi-odc-test" "from-tony/alex1129"
                      (Some "token-1")].
Proof.
  split.
  - rewrite (get_items_follows_continuation_tokens Examples.cfg
               (Examples.listing_world Examples.three_archives) 2
               (Some "tar.gz")).
    reflexivity.
  - rewrite (get_items_follows_continuation_tokens Examples.cfg
               (Examples.listing_world Examples.three_archives) 3
               (Some "tar.gz")).
    reflexivity.
Defined.

(** X4.  When the first page of the listing has no [Contents], as for an
    empty bucket or prefix, [get_items] raises [KeyError('Contents')]
    after that one listing call and sends no message. *)
Theorem get_items_on_empty_listing_raises :
  forall (cfg : Config) (W : World) (LIMIT : Z) (filter : option string),
    first_contents (list_objects_v2 W (BUCKET cfg) (PATH cfg)) = None ->
    outcome (get_items cfg W LIMIT filter) = Raise (KeyError "Contents")
    /\ list_calls (trace (get_items cfg W LIMIT filter))
       = [ListObjectsV2 (BUCKET cfg) (PATH cfg) None]
    /\ sent (trace (get_items cfg W LIMIT filter)) = [].
Proof.
  intros cfg W LIMIT filter H.
  unfold get_items, get_matching_s3_keys.
  destruct (list_objects_v2 W (BUCKET cfg) (PATH cfg))
    as [contents | contents token next];
    cbn [first_contents] in H; subst contents; repeat split.
Qed.

Lemma get_items_on_empty_listing_raises_witness :
  outcome (get_items Examples.cfg (Examples.listing_world (LastPage None))
             10 (Some "tar.gz"))
  = Raise (KeyError "Contents").
Proof.
  exact (proj1 (get_items_on_empty_listing_raises Examples.cfg
                  (Examples.listing_world (LastPage None)) 10 (Some "tar.gz")
                  eq_refl)).
Defined.

(** ** One run, whatever the world (lines 187-307) *)

(** A kind of call that no stage makes is not made by [process_one]. *)
Lemma process_one_silent p cfg W o c t :
  (forall lvl msg, p (Log lvl msg) = false) ->
  p ReceiveMessages = false ->
  (forall f, silent p (fetch cfg W f)) ->
  (forall f, silent p (unpack cfg W f)) ->
  silent p (handle_metadata cfg W o) ->
  silent p (cleanup_workspaces cfg W c) ->
  (forall pf f m, silent p (acknowledge pf f m)) ->
  silent p (process_one cfg W o c t).
Proof.
  intros Hlog Hrecv Hf Hu Hh Hc Ha.
  assert (Hitem : forall m f, silent p (process_item cfg W o c m f)).
  { intros m f. unfold process_item.
    apply silent_bind; [apply Hf | intros _].
    apply silent_bind; [apply Hu | intros pf].
    apply silent_bind; [destruct (negb pf); [apply Hh | apply silent_ret] |].
    intros pf'. apply silent_bind; [apply Hc | intros _].
    apply silent_bind; [apply Ha | intros _; apply silent_ret]. }
  unfold process_one.
  apply silent_bind; [apply silent_log, Hlog | intros _].
  apply silent_bind; [apply silent_emit, Hrecv | intros _].
  destruct (receive_messages W) as [| message rest]; destruct t;
    (apply silent_bind; [apply silent_log, Hlog | intros _]);
    try apply Hitem.
  apply silent_bind; [apply silent_log, Hlog | intros _; apply silent_ret].
Qed.

(** X5.  In every run of [process_one], whatever the collaborators
    answer, no converter call is made before the directory of its output
    file exists, in the world or through an earlier [os.makedirs] of the
    run. *)
Theorem converter_finds_its_directory :
  forall (cfg : Config) (W : World) (overwrite cleanup test : bool),
    dirs_ready W [] (trace (process_one cfg W overwrite cleanup test)) = true.
Proof.
  intros cfg W overwrite cleanup test.
  destruct (dirs_ready_filter W
              (trace (process_one cfg W overwrite cleanup test)) []) as [-> _].
  destruct (process_one_fs cfg W overwrite cleanup test) as [H | H];
    rewrite H; [reflexivity |].
  destruct (dirs_ready_filter W (trace (transform_all cfg W)) []) as [<- _].
  apply transform_all_ready.
Qed.

(** X6.  With [cleanup=False] a run removes nothing: no [os.unlink] and
    no [shutil.rmtree] is called, whatever happens in the run. *)
Theorem no_cleanup_removes_nothing :
  forall (cfg : Config) (W : World) (overwrite test : bool),
    removals (trace (process_one cfg W overwrite false test)) = [].
Proof.
  intros cfg W overwrite test.
  apply process_one_silent; try reflexivity; intros; silent_script.
Qed.

Lemma process_item_never_bails cfg W o c m f r :
  outcome (process_item cfg W o c m f) = Ok r -> exists pf, r = Finished pf.
Proof.
  unfold process_item.
  rewrite bind_unfold.
  destruct (outcome (fetch cfg W f)); simpl; [| discriminate].
  rewrite bind_unfold.
  destruct (outcome (unpack cfg W (local_file_of f))) as [pf |]; simpl;
    [| discriminate].
  rewrite bind_unfold.
  destruct (outcome (if negb pf then handle_metadata cfg W o else ret pf))
    as [pf' |]; simpl; [| discriminate].
  rewrite bind_unfold.
  destruct (outcome (cleanup_workspaces cfg W c)); simpl; [| discriminate].
  rewrite bind_unfold.
  destruct (outcome (acknowledge pf' (local_file_of f) m)); simpl;
    [| discriminate].
  intros H. injection H as <-. exists pf'. reflexivity.
Qed.

(** X7.  [process_one] takes the early [return] of line 209 exactly when
    the queue returned no message and [test] is false; the run then made
    no call but [receive_messages] and wrote three log lines. *)
Theorem bails_exactly_on_empty_queue :
  forall (cfg : Config) (W : World) (overwrite cleanup test : bool),
    let run := process_one cfg W overwrite cleanup test in
    (outcome run = Ok Bailed <-> receive_messages W = [] /\ test = false)
    /\ (receive_messages W = [] -> test = false ->
        trace run
        = [Log INFO "Starting up a run"; ReceiveMessages;
           Log WARNING "No messages!";
           Log WARNING "Bailing because there's no messages and we're not testing."]).
Proof.
  intros cfg W overwrite cleanup test run. unfold run, process_one.
  split.
  - split.
    + do 2 (erewrite outcome_bind_ok; [| reflexivity]).
      destruct (receive_messages W) as [| message rest]; destruct test;
        (erewrite outcome_bind_ok; [| reflexivity]); intros H;
        try (apply process_item_never_bails in H; destruct H; discriminate).
      split; reflexivity.
    + intros [-> ->]. reflexivity.
  - intros -> ->. reflexivity.
Qed.

Lemma bails_exactly_on_empty_queue_witness :
  outcome (process_one Examples.cfg
             (Examples.listing_world Examples.three_archives)
             false true false) = Ok Bailed.
Proof.
  apply (proj1 (bails_exactly_on_empty_queue Examples.cfg
                  (Examples.listing_world Examples.three_archives)
                  false true false)).
  split; reflexivity.
Defined.

(** ** The archive on disk (lines 211-220) *)

Lemma split_components_no_slash s :
  Forall (fun x => contains "/" x = false) (split slash s).
Proof.
  unfold slash. induction s as [| a r IH]; cbn [split].
  - constructor; [reflexivity | constructor].
  - destruct (Ascii.eqb a "/") eqn:Ha.
    + constructor; [reflexivity | exact IH].
    + assert (Hhead : forall h, contains "/" h = false ->
                                contains "/" (String a h) = false).
      { intros h Hh. cbn [contains startswith].
        rewrite startswith_empty, andb_true_r, Ascii.eqb_sym, Ha. exact Hh. }
      destruct (split "/" r) as [| h t].
      * constructor; [apply Hhead; reflexivity | constructor].
      * inversion IH as [| ? ? Hh Ht]; subst.
        constructor; [apply Hhead, Hh | exact Ht].
Qed.

Lemma split_single c r : forall h, split c r = [h] -> h = r.
Proof.
  induction r as [| a r IH]; intros h H; cbn [split] in H.
  - injection H as <-. reflexivity.
  - destruct (Ascii.eqb a c).
    + injection H as _ H. exfalso. exact (split_nonempty c r H).
    + pose proof (split_nonempty c r) as Hne.
      destruct (split c r) as [| h0 t]; [contradiction |].
      injection H as <- ->. rewrite (IH h0 eq_refl). reflexivity.
Qed.

Lemma split_last_is_suffix s :
  endswith s (last_item (split slash s)) = true.
Proof.
  unfold slash, last_item. induction s as [| a r IH]; [reflexivity |].
  cbn [split endswith].
  pose proof (split_nonempty "/" r) as Hne.
  pose proof (split_single "/" r) as Hsingle.
  destruct (split "/" r) as [| h t]; [contradiction |].
  destruct (Ascii.eqb a "/").
  - change (last ("" :: h :: t) "") with (last (h :: t) "").
    rewrite IH. apply orb_true_r.
  - destruct t as [| h' t].
    + rewrite (Hsingle h eq_refl). cbn [last]. rewrite String.eqb_refl.
      reflexivity.
    + change (last (String a h :: h' :: t) "") with (last (h :: h' :: t) "").
      rewrite IH. apply orb_true_r.
Qed.

(** X8.  The local name of the archive, the text after the last slash of
    the key, contains no slash and is the end of the key: whatever the
    key, the archive is looked for and stored directly in [WORKDIR]. *)
Theorem local_file_is_last_component :
  forall (file_to_process : string),
    contains "/" (local_file_of file_to_process) = false
    /\ endswith file_to_process (local_file_of file_to_process) = true.
Proof.
  intros key. split; [| apply split_last_is_suffix].
  unfold local_file_of, last_item.
  pose proof (split_components_no_slash key) as H.
  pose proof (split_nonempty slash key) as Hne.
  induction (split slash key) as [| x l IH]; [contradiction |].
  inversion H as [| ? ? Hx Hl]; subst.
  destruct l as [| y l]; [exact Hx |].
  apply IH; [exact Hl | discriminate].
Qed.

(** The calls of an attempt that only [fetch] makes. *)
Lemma process_item_filter_fetch p cfg W o c message f :
  (forall f', silent p (unpack cfg W f')) ->
  silent p (handle_metadata cfg W o) ->
  silent p (cleanup_workspaces cfg W c) ->
  (forall pf f' m, silent p (acknowledge pf f' m)) ->
  filter p (trace (process_item cfg W o c message f))
  = filter p (trace (fetch cfg W f)).
Proof.
  intros Hu Hh Hc Ha. unfold process_item. rewrite filter_bind.
  assert (Hrest : silent p
            (process_failed <- unpack cfg W (local_file_of f) ;;
             process_failed0 <-
               (if negb process_failed then handle_metadata cfg W o
                else ret process_failed) ;;
             cleanup_workspaces cfg W c ;;
             acknowledge process_failed0 (local_file_of f) message ;;
             ret (Finished process_failed0))).
  { apply silent_bind; [apply Hu | intros pf].
    apply silent_bind; [destruct (negb pf); [apply Hh | apply silent_ret] |].
    intros pf'. apply silent_bind; [apply Hc | intros _].
    apply silent_bind; [apply Ha | intros _; apply silent_ret]. }
  destruct (outcome (fetch cfg W f)); [rewrite Hrest |]; apply app_nil_r.
Qed.

(** X9.  A run on a leased message downloads at most once: nothing when
    the archive is already a file of [WORKDIR], and otherwise the key of
    the message body, from [BUCKET], to [WORKDIR] joined with the last
    component of the key. *)
Theorem downloads_the_leased_archive_once :
  forall (cfg : Config) (W : World) (overwrite cleanup : bool)
         (message : Message) (rest : list Message),
    receive_messages W = message :: rest ->
    let local_file_full := join2 (WORKDIR cfg) (local_file_of (body message)) in
    downloads (trace (process_one cfg W overwrite cleanup false))
    = if isfile W local_file_full then []
      else [DownloadFile (BUCKET cfg) (body message) local_file_full].
Proof.
  intros cfg W overwrite cleanup message rest Hq local_file_full.
  unfold downloads.
  rewrite (leased_filter is_download cfg W overwrite cleanup _ _ Hq);
    [| reflexivity | reflexivity].
  rewrite process_item_filter_fetch; try (intros; silent_script).
  unfold fetch. fold local_file_full.
  destruct (isfile W local_file_full); cbn [negb]; [reflexivity |].
  unfold call.
  destruct (download_file W (BUCKET cfg) (body message) local_file_full);
    reflexivity.
Qed.

Lemma downloads_the_leased_archive_once_witness :
  downloads (trace (process_one Examples.cfg Examples.fresh_world
                      false true false))
  = [DownloadFile "frontiersi-odc-test" Examples.archive_key
       "data/download/LE072110481999070901T1-SC20181129142650.tar.gz"].
Proof.
  rewrite (downloads_the_leased_archive_once Examples.cfg Examples.fresh_world
             false true Examples.message [] eq_refl).
  reflexivity.
Defined.

(** ** Errors that leave [process_one] (lines 222-292) *)

(** An exception of [tar] that line 226 does not catch ends the attempt
    after the calls of the download and of [tar]. *)
Lemma process_item_when_unpack_raises cfg W o c message f e :
  outcome (fetch cfg W f) = Ok tt ->
  outcome (unpack cfg W (local_file_of f)) = Raise e ->
  outcome (process_item cfg W o c message f) = Raise e
  /\ trace (process_item cfg W o c message f)
     = trace (fetch cfg W f) ++ trace (unpack cfg W (local_file_of f)).
Proof.
  intros Hf Hu. unfold process_item.
  rewrite (bind_ok _ _ _ Hf), (bind_raise _ _ _ Hu). split; reflexivity.
Qed.

(** An exception of lines 232-292 ends the attempt after the calls of
    the download, of [tar] and of those lines. *)
Lemma process_item_when_metadata_raises cfg W o c message f e :
  outcome (fetch cfg W f) = Ok tt ->
  outcome (unpack cfg W (local_file_of f)) = Ok false ->
  outcome (handle_metadata cfg W o) = Raise e ->
  outcome (process_item cfg W o c message f) = Raise e
  /\ trace (process_item cfg W o c message f)
     = trace (fetch cfg W f) ++ trace (unpack cfg W (local_file_of f))
       ++ trace (handle_metadata cfg W o).
Proof.
  intros Hf Hu Hh. unfold process_item.
  rewrite (bind_ok _ _ _ Hf), (bind_ok _ _ _ Hu). cbn [negb trace outcome fst snd].
  rewrite (bind_raise _ _ _ Hh). split; reflexivity.
Qed.

Lemma handle_metadata_no_remove cfg W o : silent is_remove (handle_metadata cfg W o).
Proof. silent_script. Qed.

(** What a run on a leased message leaves behind when lines 232-292
    raise: the exception reaches the caller, the message is not deleted,
    the workspaces are not cleaned, and the uploads and conversions are
    those made before the exception. *)
Lemma leased_run_when_metadata_raises cfg W o c message rest e :
  receive_messages W = message :: rest ->
  unpacked cfg W message ->
  outcome (handle_metadata cfg W o) = Raise e ->
  let run := process_one cfg W o c false in
  outcome run = Raise e
  /\ acks (trace run) = []
  /\ removals (trace run) = []
  /\ uploads (trace run) = uploads (trace (handle_metadata cfg W o))
  /\ transforms (trace run) = transforms (trace (handle_metadata cfg W o)).
Proof.
  intros Hq [Hf Htar] Hh run.
  pose proof (unpack_succeeded cfg W _ Htar) as Hu.
  destruct (process_item_when_metadata_raises cfg W o c (Some message)
              (body message) e Hf Hu Hh) as [Hout Htrace].
  unfold run. split; [| split; [| split; [| split]]].
  - rewrite (leased_outcome cfg W o c _ _ Hq). exact Hout.
  - unfold acks.
    rewrite (leased_filter is_ack cfg W o c _ _ Hq), Htrace, !filter_app;
      [| reflexivity | reflexivity].
    rewrite fetch_no_ack, unpack_no_ack, handle_metadata_no_ack. reflexivity.
  - unfold removals.
    rewrite (leased_filter is_remove cfg W o c _ _ Hq), Htrace, !filter_app;
      [| reflexivity | reflexivity].
    rewrite handle_metadata_no_remove.
    assert (H1 : silent is_remove (fetch cfg W (body message))) by silent_script.
    assert (H2 : silent is_remove (unpack cfg W (local_file_of (body message))))
      by silent_script.
    rewrite H1, H2. reflexivity.
  - unfold uploads.
    rewrite (leased_filter is_put cfg W o c _ _ Hq), Htrace, !filter_app;
      [| reflexivity | reflexivity].
    rewrite fetch_no_put, unpack_no_put. reflexivity.
  - unfold transforms.
    rewrite (leased_filter is_cog cfg W o c _ _ Hq), Htrace, !filter_app;
      [| reflexivity | reflexivity].
    rewrite fetch_no_cog, unpack_no_cog. reflexivity.
Qed.

(** X10.  When [tar] cannot be run at all, that is [check_call] raises
    something else than [CalledProcessError] (or [RuntimeError]), the
    guard of lines 224-228 does not apply: the exception leaves
    [process_one], nothing is converted or uploaded, the workspaces are
    not cleaned and the message is not deleted. *)
Theorem tar_errors_other_than_exit_status_propagate :
  forall (cfg : Config) (W : World) (overwrite cleanup : bool)
         (message : Message) (rest : list Message) (e : exn),
    receive_messages W = message :: rest ->
    outcome (fetch cfg W (body message)) = Ok tt ->
    check_call W ["tar"; "-xzvf"; local_file_of (body message)] (WORKDIR cfg)
    = Some e ->
    escapes_unpack e ->
    let run := process_one cfg W overwrite cleanup false in
    outcome run = Raise e
    /\ transforms (trace run) = []
    /\ uploads (trace run) = []
    /\ removals (trace run) = []
    /\ acks (trace run) = [].
Proof.
  intros cfg W overwrite cleanup message rest e Hq Hf Htar Hesc run.
  assert (Hu : outcome (unpack cfg W (local_file_of (body message))) = Raise e).
  { unfold unpack, run_command. rewrite Htar.
    destruct e; try contradiction; reflexivity. }
  destruct (process_item_when_unpack_raises cfg W overwrite cleanup
              (Some message) (body message) e Hf Hu) as [Hout Htrace].
  assert (Hsilent : forall p,
             (forall lvl msg, p (Log lvl msg) = false) ->
             p ReceiveMessages = false ->
             silent p (fetch cfg W (body message)) ->
             silent p (unpack cfg W (local_file_of (body message))) ->
             filter p (trace run) = []).
  { intros p Hlog Hrecv H1 H2. unfold run.
    rewrite (leased_filter p cfg W overwrite cleanup _ _ Hq Hlog Hrecv).
    rewrite Htrace, filter_app, H1, H2. reflexivity. }
  split; [unfold run; rewrite (leased_outcome cfg W overwrite cleanup _ _ Hq);
          exact Hout |].
  repeat split; apply Hsilent; try reflexivity; silent_script.
Qed.

Lemma tar_errors_other_than_exit_status_propagate_witness :
  outcome (process_one Examples.cfg
             (Examples.world [Examples.message] Examples.seven_files
                Examples.descriptor_ns (Some OSError) Examples.not_found)
             false true false) = Raise OSError.
Proof.
  apply (tar_errors_other_than_exit_status_propagate Examples.cfg
           (Examples.world [Examples.message] Examples.seven_files
              Examples.descriptor_ns (Some OSError) Examples.not_found)
           false true Examples.message [] OSError);
    try reflexivity; try exact I.
Defined.

Lemma check_processed_raises cfg W k e :
  load_object W (OUT_BUCKET cfg) k = Some e ->
  e <> ClientError "404" ->
  outcome (check_processed cfg W k) = Raise e.
Proof.
  intros H Hne. unfold check_processed. rewrite H.
  destruct e; try reflexivity.
  destruct (String.eqb_spec code "404"); [subst; contradiction | reflexivity].
Qed.

(** X11.  When the existence check of line 244 fails with anything but
    a 404 answer of the store, the exception leaves [process_one]:
    nothing is converted or uploaded, the workspaces are not cleaned and
    the message is not deleted. *)
Theorem store_errors_at_existence_check_propagate :
  forall (cfg : Config) (W : World) (overwrite cleanup : bool)
         (message : Message) (rest : list Message)
         (f : string) (md : metadata) (e : exn),
    receive_messages W = message :: rest ->
    unpacked cfg W message ->
    described cfg W f md ->
    load_object W (OUT_BUCKET cfg) (xml_key_of cfg md f) = Some e ->
    e <> ClientError "404" ->
    let run := process_one cfg W overwrite cleanup false in
    outcome run = Raise e
    /\ transforms (trace run) = []
    /\ uploads (trace run) = []
    /\ removals (trace run) = []
    /\ acks (trace run) = [].
Proof.
  intros cfg W overwrite cleanup message rest f md e Hq Hun [Hx Hm] Hload Hne run.
  pose proof (check_processed_raises cfg W _ e Hload Hne) as Hcheck.
  assert (Hh : outcome (handle_metadata cfg W overwrite) = Raise e).
  { unfold handle_metadata. rewrite Hx.
    unfold xml_file_of, xml_key_of in *.
    rewrite (outcome_bind_ok _ _ _ Hm), (bind_raise _ _ _ Hcheck). reflexivity. }
  destruct (leased_run_when_metadata_raises cfg W overwrite cleanup message rest e
              Hq Hun Hh) as (Hout & Hack & Hrm & Hup & Htr).
  fold run in Hout, Hack, Hrm, Hup, Htr.
  split; [exact Hout |]. split; [| split; [| split; assumption]].
  - rewrite Htr. unfold transforms.
    rewrite handle_metadata_filter;
      [| reflexivity | apply get_metadata_no_cog | apply check_processed_no_cog].
    rewrite Hx, Hm, Hcheck. reflexivity.
  - rewrite Hup. unfold uploads.
    rewrite handle_metadata_filter;
      [| reflexivity | apply get_metadata_no_put | apply check_processed_no_put].
    rewrite Hx, Hm, Hcheck. reflexivity.
Qed.

Lemma store_errors_at_existence_check_propagate_witness :
  outcome (process_one Examples.cfg
             (Examples.world [Examples.message] Examples.seven_files
                Examples.descriptor_ns None (Some (ClientError "403")))
             false true false) = Raise (ClientError "403").
Proof.
  eapply (store_errors_at_existence_check_propagate Examples.cfg
            (Examples.world [Examples.message] Examples.seven_files
               Examples.descriptor_ns None (Some (ClientError "403")))
            false true Examples.message []).
  - reflexivity.
  - split; reflexivity.
  - split; reflexivity.
  - reflexivity.
  - discriminate.
Defined.

(** ** What the conversion loop returns (lines 250-271) *)

Section ConversionResult.

Variable cfg : Config.
Variable W : World.
Variable output_dir : string.

(** One file: when the body of the loop returns, a file that qualifies
    was converted without error, its output path was appended and the
    counter moved by one; a file that does not qualify changes nothing. *)
Lemma transform_file_returns dir out_files count made fname out_files' count' made' :
  outcome (transform_file W output_dir dir (out_files, count, made) fname)
  = Ok (out_files', count', made') ->
  let src := join2 dir fname in
  if qualifies fname then
    cog_translate W src (out_filename_of output_dir src) = None
    /\ out_files' = out_files ++ [out_filename_of output_dir src]
    /\ count' = count + 1
  else out_files' = out_files /\ count' = count.
Proof.
  unfold transform_file, getfilename, out_filename_of, call.
  destruct (qualifies fname); cbv zeta.
  2: { intros H. injection H as <- <- _. split; reflexivity. }
  set (src := join2 dir fname).
  set (dst := join2 output_dir (check_dir src)).
  destruct (exists_now W made (dirname dst)) eqn:Hex;
    destruct (cog_translate W src dst) as [e |] eqn:Hcog;
    cbn -[dirname basename dec Nat.add];
    rewrite ?Hex, ?Hcog; cbn -[dirname basename dec Nat.add];
    intros H; try discriminate;
    injection H as <- <- _; repeat split.
Qed.

Lemma transform_files_return dir files : forall out_files count made st',
  outcome (for_fold files (transform_file W output_dir dir)
                    (out_files, count, made)) = Ok st' ->
  let srcs := map (join2 dir) (filter qualifies files) in
  fst (fst st') = out_files ++ map (out_filename_of output_dir) srcs
  /\ snd (fst st') = count + List.length srcs
  /\ (forall src, In src srcs ->
                  cog_translate W src (out_filename_of output_dir src) = None).
Proof.
  induction files as [| fname files IH]; intros out_files count made st';
    cbn [for_fold filter].
  - intros H. injection H as <-. cbn. rewrite app_nil_r, Nat.add_0_r.
    repeat split. intros src [].
  - rewrite bind_unfold.
    destruct (outcome (transform_file W output_dir dir (out_files, count, made)
                         fname)) as [[[outs1 c1] made1] |] eqn:Hone;
      [| discriminate].
    cbn [outcome snd]. intros Hrest.
    pose proof (transform_file_returns _ _ _ _ _ _ _ _ Hone) as Hfile.
    destruct (IH _ _ _ _ Hrest) as (Houts & Hcount & Hcog).
    cbv zeta in *. destruct (qualifies fname).
    + destruct Hfile as (Hc & -> & ->). cbn [map List.length].
      rewrite Houts, Hcount, <- app_assoc. repeat split; [lia |].
      intros src [<- | Hin]; [exact Hc | apply Hcog, Hin].
    + destruct Hfile as (-> & ->). repeat split; assumption.
Qed.

Lemma transform_walk_returns entries : forall out_files count made st',
  outcome (for_fold entries
             (fun st (entry : string * list string * list string) =>
                let '(dir, subdirs, files) := entry in
                for_fold files (transform_file W output_dir dir) st)
             (out_files, count, made)) = Ok st' ->
  let srcs := flat_map (fun entry : string * list string * list string =>
                          let '(dir, _, files) := entry in
                          map (join2 dir) (filter qualifies files)) entries in
  fst (fst st') = out_files ++ map (out_filename_of output_dir) srcs
  /\ snd (fst st') = count + List.length srcs
  /\ (forall src, In src srcs ->
                  cog_translate W src (out_filename_of output_dir src) = None).
Proof.
  induction entries as [| [[dir subdirs] files] entries IH];
    intros out_files count made st'; cbn [for_fold flat_map].
  - intros H. injection H as <-. cbn. rewrite app_nil_r, Nat.add_0_r.
    repeat split. intros src [].
  - rewrite bind_unfold.
    destruct (outcome (for_fold files (transform_file W output_dir dir)
                                (out_files, count, made)))
      as [[[outs1 c1] made1] |] eqn:Hone; [| discriminate].
    cbn [outcome snd]. intros Hrest.
    destruct (transform_files_return _ _ _ _ _ _ Hone) as (H1 & H2 & H3).
    destruct (IH _ _ _ _ Hrest) as (Houts & Hcount & Hcog).
    cbv zeta in *. cbn [fst snd] in H1, H2. subst outs1 c1.
    rewrite Houts, Hcount, map_app, length_app, <- app_assoc.
    repeat split; [lia |].
    intros src Hin. apply in_app_or in Hin.
    destruct Hin as [Hin | Hin]; [apply H3, Hin | apply Hcog, Hin].
Qed.

End ConversionResult.

(** The list the conversion loop returns, and what its return says of
    the converter. *)
Lemma transform_all_returns cfg W out_files :
  outcome (transform_all cfg W) = Ok out_files ->
  out_files
  = map (out_filename_of (abspath W (OUTDIR cfg))) (qualifying_inputs cfg W)
  /\ List.length out_files = List.length (qualifying_inputs cfg W)
  /\ (forall src,
         In src (qualifying_inputs cfg W) ->
         cog_translate W src (out_filename_of (abspath W (OUTDIR cfg)) src)
         = None).
Proof.
  unfold transform_all, qualifying_inputs.
  rewrite bind_unfold.
  destruct (outcome (for_fold _ _ _)) as [[[outs count] made] |] eqn:Hloop;
    [| discriminate].
  cbn [ret outcome snd]. intros H. injection H as <-.
  destruct (transform_walk_returns W (abspath W (OUTDIR cfg)) _ _ _ _ _ Hloop)
    as (Houts & _ & Hcog).
  cbv zeta in *. cbn [fst snd app] in Houts.
  split; [exact Houts |]. split; [| exact Hcog].
  rewrite Houts, length_map. reflexivity.
Qed.

(** X12.  When the conversion loop returns, every qualifying file of the
    walk was converted without error and [out_files] holds one output
    path per qualifying file, in the order of the walk: the count that
    line 274 tests is the number of qualifying input files, a path that
    two of them share being counted twice. *)
Theorem out_files_are_the_qualifying_inputs :
  forall (cfg : Config) (W : World) (out_files : list string),
    outcome (transform_all cfg W) = Ok out_files ->
    out_files
    = map (out_filename_of (abspath W (OUTDIR cfg))) (qualifying_inputs cfg W)
    /\ List.length out_files = List.length (qualifying_inputs cfg W)
    /\ (forall src,
           In src (qualifying_inputs cfg W) ->
           cog_translate W src (out_filename_of (abspath W (OUTDIR cfg)) src)
           = None).
Proof. intros cfg W out_files. apply transform_all_returns. Qed.

Lemma out_files_are_the_qualifying_inputs_witness :
  List.length (qualifying_inputs Examples.cfg Examples.fresh_world) = 7
  /\ exists out_files,
      outcome (transform_all Examples.cfg Examples.fresh_world) = Ok out_files
      /\ List.length out_files = 7.
Proof.
  split; [reflexivity |]. eexists. split; [reflexivity |].
  destruct (out_files_are_the_qualifying_inputs Examples.cfg Examples.fresh_world
              _ eq_refl) as (_ & Hlen & _).
  rewrite Hlen. reflexivity.
Defined.

(** ** A failed conversion (lines 254-271) *)

Lemma attempted_app W od l1 l2 :
  attempted W od (l1 ++ l2)
  = match first_failure W od l1 with
    | None => l1 ++ attempted W od l2
    | Some _ => attempted W od l1
    end.
Proof.
  induction l1 as [| s l1 IH]; cbn [app attempted first_failure]; [reflexivity |].
  destruct (cog_translate W s (out_filename_of od s)); [reflexivity |].
  rewrite IH. destruct (first_failure W od l1); reflexivity.
Qed.

Lemma first_failure_app W od l1 l2 :
  first_failure W od (l1 ++ l2)
  = match first_failure W od l1 with
    | None => first_failure W od l2
    | Some e => Some e
    end.
Proof.
  induction l1 as [| s l1 IH]; cbn [app first_failure]; [reflexivity |].
  destruct (cog_translate W s (out_filename_of od s)); [reflexivity | exact IH].
Qed.

Lemma first_failure_none W od l :
  (forall s, In s l -> cog_translate W s (out_filename_of od s) = None) ->
  first_failure W od l = None.
Proof.
  induction l as [| s l IH]; intros H; cbn [first_failure]; [reflexivity |].
  rewrite (H s (or_introl eq_refl)). apply IH.
  intros s' Hs'. apply H. right. exact Hs'.
Qed.

Lemma attempted_none W od l :
  first_failure W od l = None -> attempted W od l = l.
Proof.
  induction l as [| s l IH]; cbn [attempted first_failure]; [reflexivity |].
  destruct (cog_translate W s (out_filename_of od s)); [discriminate |].
  intros H. rewrite (IH H). reflexivity.
Qed.

(** The loop stops at the first input on which the converter fails. *)
Lemma attempted_stops W od before src after e :
  (forall s, In s before -> cog_translate W s (out_filename_of od s) = None) ->
  cog_translate W src (out_filename_of od src) = Some e ->
  attempted W od (before ++ src :: after) = before ++ [src]
  /\ first_failure W od (before ++ src :: after) = Some e.
Proof.
  intros Hb Hs.
  rewrite attempted_app, first_failure_app, (first_failure_none W od before Hb).
  cbn [attempted first_failure]. rewrite Hs. split; reflexivity.
Qed.

Section ConversionFailure.

Variable cfg : Config.
Variable W : World.
Variable output_dir : string.

(** One file: the body of the loop raises what the converter raises,
    and returns otherwise. *)
Lemma transform_file_outcome dir st fname :
  let src := join2 dir fname in
  if qualifies fname then
    match cog_translate W src (out_filename_of output_dir src) with
    | Some e => outcome (transform_file W output_dir dir st fname) = Raise e
    | None => exists st', outcome (transform_file W output_dir dir st fname) = Ok st'
    end
  else outcome (transform_file W output_dir dir st fname) = Ok st.
Proof.
  destruct st as [[out_files count] made].
  unfold transform_file, getfilename, out_filename_of, call. cbv zeta.
  destruct (qualifies fname); [| reflexivity].
  set (src := join2 dir fname).
  set (dst := join2 output_dir (check_dir src)).
  destruct (exists_now W made (dirname dst)) eqn:Hex;
    destruct (cog_translate W src dst) as [e |] eqn:Hcog;
    cbn -[dirname basename dec Nat.add];
    rewrite ?Hex, ?Hcog; cbn -[dirname basename dec Nat.add];
    try reflexivity; eexists; reflexivity.
Qed.

Lemma transform_files_attempted dir files : forall st,
  let srcs := map (join2 dir) (filter qualifies files) in
  let m := for_fold files (transform_file W output_dir dir) st in
  filter is_cog (trace m)
  = map (fun src => CogTranslate src (out_filename_of output_dir src))
        (attempted W output_dir srcs)
  /\ match first_failure W output_dir srcs with
     | Some e => outcome m = Raise e
     | None => exists st', outcome m = Ok st'
     end.
Proof.
  induction files as [| fname files IH]; intros st; cbv zeta;
    cbn [for_fold filter].
  - split; [reflexivity | exists st; reflexivity].
  - destruct (transform_file_spec W output_dir dir st fname) as (Ht & _).
    pose proof (transform_file_outcome dir st fname) as Ho.
    cbv zeta in Ht, Ho, IH.
    rewrite filter_bind, Ht, bind_unfold.
    destruct (qualifies fname); cbn [map attempted first_failure].
    + destruct (cog_translate W (join2 dir fname)
                  (out_filename_of output_dir (join2 dir fname))) as [e |].
      * rewrite Ho. split; reflexivity.
      * destruct Ho as [st1 Ho]. rewrite Ho. cbn [outcome snd].
        destruct (IH st1) as [IHt IHo]. rewrite IHt.
        split; [reflexivity | exact IHo].
    + rewrite Ho. cbn [outcome snd app]. apply IH.
Qed.

Lemma transform_walk_attempted entries : forall st,
  let srcs := flat_map (fun entry : string * list string * list string =>
                          let '(dir, _, files) := entry in
                          map (join2 dir) (filter qualifies files)) entries in
  let m := for_fold entries
             (fun st (entry : string * list string * list string) =>
                let '(dir, subdirs, files) := entry in
                for_fold files (transform_file W output_dir dir) st) st in
  filter is_cog (trace m)
  = map (fun src => CogTranslate src (out_filename_of output_dir src))
        (attempted W output_dir srcs)
  /\ match first_failure W output_dir srcs with
     | Some e => outcome m = Raise e
     | None => exists st', outcome m = Ok st'
     end.
Proof.
  induction entries as [| [[dir subdirs] files] entries IH]; intros st;
    cbv zeta; cbn [for_fold flat_map].
  - split; [reflexivity | exists st; reflexivity].
  - destruct (transform_files_attempted dir files st) as [Ht Ho].
    cbv zeta in Ht, Ho, IH.
    rewrite filter_bind, Ht, bind_unfold, attempted_app, first_failure_app.
    destruct (first_failure W output_dir (map (join2 dir) (filter qualifies files)))
      as [e |] eqn:Hff.
    + rewrite Ho. rewrite app_nil_r. split; reflexivity.
    + destruct Ho as [st1 Ho]. rewrite Ho. cbn [outcome snd].
      destruct (IH st1) as [IHt IHo].
      rewrite IHt, map_app, (attempted_none W output_dir _ Hff).
      split; [reflexivity | exact IHo].
Qed.

End ConversionFailure.

(** The conversion loop stops at the first qualifying input on which
    the converter fails, and raises what the converter raised. *)
Lemma transform_all_stops cfg W before src after e :
  qualifying_inputs cfg W = before ++ src :: after ->
  (forall s, In s before ->
             cog_translate W s (out_filename_of (abspath W (OUTDIR cfg)) s)
             = None) ->
  cog_translate W src (out_filename_of (abspath W (OUTDIR cfg)) src) = Some e ->
  outcome (transform_all cfg W) = Raise e
  /\ transforms (trace (transform_all cfg W))
     = map (conversion cfg W) (before ++ [src]).
Proof.
  intros Hq Hb Hs.
  destruct (attempted_stops W (abspath W (OUTDIR cfg)) before src after e Hb Hs)
    as [Hatt Hff].
  destruct (transform_walk_attempted W (abspath W (OUTDIR cfg))
              (walk W (abspath W (WORKDIR cfg))) ([], 0, [])) as [Ht Ho].
  cbv zeta in Ht, Ho. fold (qualifying_inputs cfg W) in Ht, Ho.
  rewrite Hq, Hatt in Ht. rewrite Hq, Hff in Ho.
  unfold transform_all, transforms.
  rewrite filter_bind, bind_unfold, Ho, Ht.
  split; [reflexivity | apply app_nil_r].
Qed.

(** X13.  When the converter fails on a qualifying file [src], with [e],
    after it succeeded on the qualifying files [before] it in the walk:
    the conversions of the run are those of [before] and then that of
    [src], no file after [src] is converted, and [e] itself leaves
    [process_one]; no file of the item is uploaded, the workspaces are
    not cleaned and the message is not deleted. *)
Theorem converter_failure_aborts_the_item :
  forall (cfg : Config) (W : World) (overwrite cleanup : bool)
         (message : Message) (rest : list Message)
         (f : string) (md : metadata) (b : bool)
         (before : list string) (src : string) (after : list string) (e : exn),
    receive_messages W = message :: rest ->
    unpacked cfg W message ->
    described cfg W f md ->
    outcome (check_processed cfg W (xml_key_of cfg md f)) = Ok b ->
    overwrite || negb b = true ->
    qualifying_inputs cfg W = before ++ src :: after ->
    (forall s, In s before ->
               cog_translate W s (out_filename_of (abspath W (OUTDIR cfg)) s)
               = None) ->
    cog_translate W src (out_filename_of (abspath W (OUTDIR cfg)) src) = Some e ->
    let run := process_one cfg W overwrite cleanup false in
    outcome run = Raise e
    /\ transforms (trace run) = map (conversion cfg W) (before ++ [src])
    /\ uploads (trace run) = []
    /\ removals (trace run) = []
    /\ acks (trace run) = [].
Proof.
  intros cfg W overwrite cleanup message rest f md b before src after e
         Hq Hun Hd Hcheck Hgate Hsplit Hbefore Hfail run.
  destruct (transform_all_stops cfg W before src after e Hsplit Hbefore Hfail)
    as [Hall Hconv].
  assert (Hh : outcome (handle_metadata cfg W overwrite) = Raise e).
  { rewrite (handle_metadata_outcome cfg W overwrite f md b Hd Hcheck), Hgate.
    rewrite (bind_raise _ _ _ Hall). reflexivity. }
  destruct (leased_run_when_metadata_raises cfg W overwrite cleanup message rest e
              Hq Hun Hh) as (Hout & Hack & Hrm & Hup & Htr).
  fold run in Hout, Hack, Hrm, Hup, Htr.
  destruct Hd as [Hx Hm].
  split; [exact Hout |]. split; [| split; [| split; assumption]].
  - rewrite Htr. unfold transforms.
    rewrite handle_metadata_filter;
      [| reflexivity | apply get_metadata_no_cog | apply check_processed_no_cog].
    rewrite Hx, Hm, Hcheck, Hgate.
    rewrite filter_bind, Hall, app_nil_r. exact Hconv.
  - rewrite Hup. unfold uploads.
    rewrite handle_metadata_filter;
      [| reflexivity | apply get_metadata_no_put | apply check_processed_no_put].
    rewrite Hx, Hm, Hcheck, Hgate.
    fold (uploads (trace (out_files <- transform_all cfg W ;;
                          publish cfg W (out_file_path cfg md)
                                  (xml_file_of cfg f) (xml_key_of cfg md f)
                                  out_files))).
    rewrite transform_then_publish_uploads, Hall. reflexivity.
Qed.

Lemma converter_failure_aborts_the_item_witness :
  outcome (process_one Examples.cfg Examples.failing_converter_world
             false true false) = Raise (ExternalError "rasterio")
  /\ transforms (trace (process_one Examples.cfg Examples.failing_converter_world
                          false true false))
     = map (conversion Examples.cfg Examples.failing_converter_world)
           ["/app/data/download/LE07_sr_band1.tif";
            "/app/data/download/LE07_sr_band2.tif";
            "/app/data/download/LE07_sr_band3.tif"]
  /\ uploads (trace (process_one Examples.cfg Examples.failing_converter_world
                       false true false)) = [].
Proof.
  edestruct (converter_failure_aborts_the_item Examples.cfg
               Examples.failing_converter_world false true Examples.message []
               "LE07.xml")
    with (b := false)
         (before := ["/app/data/download/LE07_sr_band1.tif";
                     "/app/data/download/LE07_sr_band2.tif"])
         (src := "/app/data/download/LE07_sr_band3.tif")
         (after := ["/app/data/download/LE07_sr_band4.tif";
                    "/app/data/download/LE07_sr_band5.tif";
                    "/app/data/download/LE07_sr_band7.tif";
                    "/app/data/download/LE07_pixel_qa.tif"])
    as (Hout & Htr & Hup & _).
  - reflexivity.
  - split; reflexivity.
  - split; reflexivity.
  - reflexivity.
  - reflexivity.
  - reflexivity.
  - intros s [<- | [<- | []]]; reflexivity.
  - reflexivity.
  - split; [exact Hout |]. split; [exact Htr | exact Hup].
Defined.

(** ** A failed upload (lines 274-285) *)

(** The loop of lines 276-280 stops at the first upload that the store
    refuses. *)
Lemma upload_loop_fails cfg W prefix pre x post e :
  (forall out_file,
      In out_file pre ->
      put_object W (OUT_BUCKET cfg) (prefix +++ "/" +++ basename out_file)
                 out_file = None) ->
  put_object W (OUT_BUCKET cfg) (prefix +++ "/" +++ basename x) x = Some e ->
  outcome (upload_loop cfg W prefix (pre ++ x :: post)) = Raise e
  /\ uploads (trace (upload_loop cfg W prefix (pre ++ x :: post)))
     = map (data_put cfg prefix) (pre ++ [x]).
Proof.
  intros Hpre Hx. unfold upload_loop.
  induction pre as [| y pre IH]; cbn [app for_each map].
  - rewrite bind_unfold, upload_outcome, Hx. cbn [trace outcome fst snd].
    split; [reflexivity | apply upload_trace].
  - destruct IH as [IHo IHt]; [intros z Hz; apply Hpre; right; exact Hz |].
    assert (Hy : outcome (upload_file cfg W prefix y) = Ok tt).
    { rewrite upload_outcome, (Hpre y (or_introl eq_refl)). reflexivity. }
    split.
    + rewrite (outcome_bind_ok _ _ _ Hy). exact IHo.
    + unfold uploads in *. rewrite filter_bind, Hy, IHt.
      pose proof (upload_trace cfg W prefix y) as Ht. unfold uploads in Ht.
      rewrite Ht. reflexivity.
Qed.

(** X14.  When the store refuses the upload of an output file, the
    exception leaves [process_one]: the uploads of the run are those of
    the files before it and the refused one, the descriptor is not
    uploaded, the workspaces are not cleaned and the message is not
    deleted. *)
Theorem failed_upload_leaves_no_metadata :
  forall (cfg : Config) (W : World) (overwrite cleanup : bool)
         (message : Message) (rest : list Message)
         (f : string) (md : metadata) (b : bool)
         (pre post : list string) (x : string) (e : exn),
    receive_messages W = message :: rest ->
    unpacked cfg W message ->
    described cfg W f md ->
    outcome (check_processed cfg W (xml_key_of cfg md f)) = Ok b ->
    overwrite || negb b = true ->
    outcome (transform_all cfg W) = Ok (pre ++ x :: post) ->
    7 <= List.length (pre ++ x :: post) ->
    (forall out_file,
        In out_file pre ->
        put_object W (OUT_BUCKET cfg)
                   (out_file_path cfg md +++ "/" +++ basename out_file)
                   out_file = None) ->
    put_object W (OUT_BUCKET cfg) (out_file_path cfg md +++ "/" +++ basename x) x
    = Some e ->
    let run := process_one cfg W overwrite cleanup false in
    outcome run = Raise e
    /\ uploads (trace run) = map (data_put cfg (out_file_path cfg md)) (pre ++ [x])
    /\ removals (trace run) = []
    /\ acks (trace run) = [].
Proof.
  intros cfg W overwrite cleanup message rest f md b pre post x e
         Hq Hun Hd Hcheck Hgate Hall Hlen Hpre Hx run.
  destruct (upload_loop_fails cfg W (out_file_path cfg md) pre x post e Hpre Hx)
    as [Hlo Hlt].
  assert (Hp : outcome (publish cfg W (out_file_path cfg md) (xml_file_of cfg f)
                          (xml_key_of cfg md f) (pre ++ x :: post)) = Raise e
               /\ uploads (trace (publish cfg W (out_file_path cfg md)
                                    (xml_file_of cfg f) (xml_key_of cfg md f)
                                    (pre ++ x :: post)))
                  = map (data_put cfg (out_file_path cfg md)) (pre ++ [x])).
  { unfold publish.
    destruct (Nat.leb_spec 7 (List.length (pre ++ x :: post))); [| lia].
    rewrite (bind_raise _ _ _ Hlo). split; [reflexivity | exact Hlt]. }
  destruct Hp as [Hpo Hpt].
  assert (Hh : outcome (handle_metadata cfg W overwrite) = Raise e).
  { rewrite (handle_metadata_outcome cfg W overwrite f md b Hd Hcheck), Hgate.
    rewrite (outcome_bind_ok _ _ _ Hall). exact Hpo. }
  destruct (leased_run_when_metadata_raises cfg W overwrite cleanup message rest e
              Hq Hun Hh) as (Hout & Hack & Hrm & Hup & _).
  fold run in Hout, Hack, Hrm, Hup.
  split; [exact Hout |]. split; [| split; assumption].
  rewrite Hup. unfold uploads.
  rewrite handle_metadata_filter;
    [| reflexivity | apply get_metadata_no_put | apply check_processed_no_put].
  destruct Hd as [Hx' Hm]. rewrite Hx', Hm, Hcheck, Hgate.
  fold (uploads (trace (out_files <- transform_all cfg W ;;
                        publish cfg W (out_file_path cfg md)
                                (xml_file_of cfg f) (xml_key_of cfg md f)
                                out_files))).
  rewrite transform_then_publish_uploads, Hall. exact Hpt.
Qed.

Lemma failed_upload_leaves_no_metadata_witness :
  outcome (process_one Examples.cfg Examples.failing_store_world
             false true false) = Raise (ClientError "500")
  /\ List.length (uploads (trace (process_one Examples.cfg
                                    Examples.failing_store_world
                                    false true false))) = 3.
Proof.
  edestruct (failed_upload_leaves_no_metadata Examples.cfg
               Examples.failing_store_world false true Examples.message []
               "LE07.xml")
    with (b := false)
         (pre := ["/app/data/out/download/LE07_sr_band1.tif";
                  "/app/data/out/download/LE07_sr_band2.tif"])
         (post := ["/app/data/out/download/LE07_sr_band4.tif";
                   "/app/data/out/download/LE07_sr_band5.tif";
                   "/app/data/out/download/LE07_sr_band7.tif";
                   "/app/data/out/download/LE07_pixel_qa.tif"])
         (x := "/app/data/out/download/LE07_sr_band3.tif")
    as (Hout & Hup & _).
  - reflexivity.
  - split; reflexivity.
  - split; reflexivity.
  - reflexivity.
  - reflexivity.
  - reflexivity.
  - vm_compute. lia.
  - intros out_file [<- | [<- | []]]; reflexivity.
  - reflexivity.
  - split; [exact Hout | rewrite Hup; reflexivity].
Defined.

(** ** [delete_files] (lines 117-129) *)

(** A loop all of whose rounds return makes the calls of every round,
    and a loop makes the calls of its rounds up to the first that
    raises, and raises what that round raises. *)
Lemma for_each_returns {A} p (body : A -> M unit) (l : list A) :
  (forall x, In x l -> outcome (body x) = Ok tt) ->
  outcome (for_each l body) = Ok tt
  /\ filter p (trace (for_each l body))
     = flat_map (fun x => filter p (trace (body x))) l.
Proof.
  induction l as [| x l IH]; intros H; cbn [for_each flat_map].
  - split; reflexivity.
  - destruct IH as [IHo IHt]; [intros y Hy; apply H; right; exact Hy |].
    rewrite (bind_ok _ _ tt (H x (or_introl eq_refl))).
    cbn [trace outcome fst snd]. rewrite filter_app, IHt.
    split; [exact IHo | reflexivity].
Qed.

Lemma for_each_stops {A} p (body : A -> M unit) (before : list A) (x : A)
      (after : list A) (e : exn) :
  (forall y, In y before -> outcome (body y) = Ok tt) ->
  outcome (body x) = Raise e ->
  outcome (for_each (before ++ x :: after) body) = Raise e
  /\ filter p (trace (for_each (before ++ x :: after) body))
     = flat_map (fun x => filter p (trace (body x))) (before ++ [x]).
Proof.
  intros Hb Hx. induction before as [| y before IH];
    cbn [app for_each flat_map].
  - rewrite (bind_raise _ _ _ Hx). cbn [trace outcome fst snd].
    rewrite app_nil_r. split; reflexivity.
  - destruct IH as [IHo IHt]; [intros z Hz; apply Hb; right; exact Hz |].
    rewrite (bind_ok _ _ tt (Hb y (or_introl eq_refl))).
    cbn [trace outcome fst snd]. rewrite filter_app, IHt.
    split; [exact IHo | reflexivity].
Qed.

Lemma for_each_returned {A} (body : A -> M unit) (l : list A) :
  outcome (for_each l body) = Ok tt ->
  forall x, In x l -> outcome (body x) = Ok tt.
Proof.
  induction l as [| y l IH]; cbn [for_each]; intros H x Hx; [destruct Hx |].
  rewrite bind_unfold in H.
  destruct (outcome (body y)) as [[] |] eqn:Hy; [| discriminate].
  cbn [outcome snd] in H.
  destruct Hx as [<- | Hx]; [exact Hy | exact (IH H x Hx)].
Qed.

Lemma delete_entry_removals W file_path name :
  removals (trace (delete_entry W file_path name)) = removal_of W file_path name.
Proof.
  unfold delete_entry, removal_of, removals, call. cbv zeta.
  destruct (isfile_at_cleanup W (join2 file_path name));
    [destruct (remove W (join2 file_path name)); reflexivity |].
  destruct (isdir_at_cleanup W (join2 file_path name));
    [destruct (remove W (join2 file_path name)); reflexivity | reflexivity].
Qed.

Lemma delete_entry_outcome W file_path name :
  outcome (delete_entry W file_path name)
  = if skipped W file_path name then Ok tt
    else match remove W (join2 file_path name) with
         | None => Ok tt
         | Some e => Raise e
         end.
Proof.
  unfold delete_entry, skipped, call. cbv zeta.
  destruct (isfile_at_cleanup W (join2 file_path name));
    [destruct (remove W (join2 file_path name)); reflexivity |].
  destruct (isdir_at_cleanup W (join2 file_path name));
    [destruct (remove W (join2 file_path name)); reflexivity | reflexivity].
Qed.

Lemma delete_entry_returns W file_path name :
  outcome (delete_entry W file_path name) = Ok tt <-> removed W file_path name.
Proof.
  rewrite delete_entry_outcome. unfold removed.
  destruct (skipped W file_path name).
  - split; [intros _ H; discriminate | reflexivity].
  - destruct (remove W (join2 file_path name)).
    + split; [discriminate | intros H; discriminate (H eq_refl)].
    + split; reflexivity.
Qed.

Lemma delete_files_unfold W file_path files :
  listdir_at_cleanup W file_path = Ok files ->
  outcome (delete_files W file_path)
  = outcome (for_each files (delete_entry W file_path))
  /\ removals (trace (delete_files W file_path))
     = removals (trace (for_each files (delete_entry W file_path))).
Proof.
  intros Hl. unfold delete_files, removals. rewrite Hl.
  rewrite (bind_ok (log INFO ("Deleting files from " +++ file_path)) _ tt eq_refl).
  rewrite (bind_ok (lift (Ok files)) _ files eq_refl).
  split; reflexivity.
Qed.

Lemma flat_map_removals W file_path files :
  flat_map (fun x => filter is_remove (trace (delete_entry W file_path x))) files
  = flat_map (removal_of W file_path) files.
Proof.
  apply flat_map_ext. intros name. apply delete_entry_removals.
Qed.

(** Every removal goes through: [delete_files] returns, after the
    removals of all entries. *)
Lemma delete_files_returns W file_path files :
  listdir_at_cleanup W file_path = Ok files ->
  (forall name, In name files -> removed W file_path name) ->
  outcome (delete_files W file_path) = Ok tt
  /\ removals (trace (delete_files W file_path))
     = flat_map (removal_of W file_path) files.
Proof.
  intros Hl Hall.
  destruct (delete_files_unfold W file_path files Hl) as [-> ->].
  unfold removals. rewrite <- flat_map_removals.
  apply for_each_returns. intros name Hin.
  apply delete_entry_returns, Hall, Hin.
Qed.

(** A removal fails: [delete_files] raises its exception, and no entry
    after it is touched. *)
Lemma delete_files_stops W file_path before name after e :
  listdir_at_cleanup W file_path = Ok (before ++ name :: after) ->
  (forall n, In n before -> removed W file_path n) ->
  skipped W file_path name = false ->
  remove W (join2 file_path name) = Some e ->
  outcome (delete_files W file_path) = Raise e
  /\ removals (trace (delete_files W file_path))
     = flat_map (removal_of W file_path) (before ++ [name]).
Proof.
  intros Hl Hb Hs Hr.
  destruct (delete_files_unfold W file_path _ Hl) as [-> ->].
  unfold removals. rewrite <- flat_map_removals.
  apply for_each_stops.
  - intros n Hin. apply delete_entry_returns, Hb, Hin.
  - rewrite delete_entry_outcome, Hs, Hr. reflexivity.
Qed.

(** [delete_files] returned: the directory was listed, and every
    removal went through. *)
Lemma delete_files_returned W file_path :
  outcome (delete_files W file_path) = Ok tt ->
  exists files,
    listdir_at_cleanup W file_path = Ok files
    /\ (forall name, In name files -> removed W file_path name)
    /\ removals (trace (delete_files W file_path))
       = flat_map (removal_of W file_path) files.
Proof.
  intros Hout.
  destruct (listdir_at_cleanup W file_path) as [files | e] eqn:Hl.
  - exists files.
    destruct (delete_files_unfold W file_path files Hl) as [Ho Ht].
    rewrite Ho in Hout.
    assert (Hall : forall name, In name files -> removed W file_path name).
    { intros name Hin. apply delete_entry_returns.
      exact (for_each_returned _ _ Hout name Hin). }
    split; [reflexivity |]. split; [exact Hall |].
    apply (delete_files_returns W file_path files Hl Hall).
  - unfold delete_files in Hout. rewrite Hl in Hout. discriminate.
Qed.

(** X15.  [delete_files] goes through the listing of the directory in
    order and removes each entry that is a file by [os.unlink] and each
    that is a directory by [shutil.rmtree]; an entry that is neither is
    left in place, and so is the directory itself.  When every removal
    goes through it returns, after the removals of all entries.  When
    the removal of [name] is the first that fails, with [e], it raises
    [e]: the entries before [name] were removed, the removal of [name]
    was the last call, and no entry after [name] was touched. *)
Theorem delete_files_removes_files_and_directories :
  forall (W : World) (file_path : string) (files : list string),
    listdir_at_cleanup W file_path = Ok files ->
    ((forall name, In name files -> removed W file_path name) ->
     outcome (delete_files W file_path) = Ok tt
     /\ removals (trace (delete_files W file_path))
        = flat_map (removal_of W file_path) files)
    /\ (forall (before : list string) (name : string) (after : list string)
               (e : exn),
          files = before ++ name :: after ->
          (forall n, In n before -> removed W file_path n) ->
          skipped W file_path name = false ->
          remove W (join2 file_path name) = Some e ->
          outcome (delete_files W file_path) = Raise e
          /\ removals (trace (delete_files W file_path))
             = flat_map (removal_of W file_path) (before ++ [name])).
Proof.
  intros W file_path files Hl. split.
  - apply delete_files_returns, Hl.
  - intros before name after e -> Hb Hs Hr.
    apply (delete_files_stops W file_path before name after e Hl Hb Hs Hr).
Qed.

Lemma delete_files_removes_files_and_directories_witness :
  (outcome (delete_files Examples.cluttered_world "data/download") = Ok tt
   /\ removals (trace (delete_files Examples.cluttered_world "data/download"))
      = [Unlink "data/download/LE07.xml"; Rmtree "data/download/gap_mask";
         Unlink "data/download/LE07_sr_band1.tif"])
  /\ (outcome (delete_files Examples.protected_world "data/download")
      = Raise OSError
      /\ removals (trace (delete_files Examples.protected_world "data/download"))
         = [Unlink "data/download/LE07.xml"; Rmtree "data/download/gap_mask"]).
Proof.
  split.
  - apply (proj1 (delete_files_removes_files_and_directories
                    Examples.cluttered_world "data/download"
                    ["LE07.xml"; "gap_mask"; "stale-link"; Examples.band "1"]
                    eq_refl)).
    intros name _ _. reflexivity.
  - apply (proj2 (delete_files_removes_files_and_directories
                    Examples.protected_world "data/download"
                    ["LE07.xml"; "gap_mask"; "stale-link"; Examples.band "1"]
                    eq_refl)
             ["LE07.xml"] "gap_mask" ["stale-link"; Examples.band "1"] OSError
             eq_refl).
    + intros n [<- | []] _. reflexivity.
    + reflexivity.
    + reflexivity.
Defined.

(** ** The acquisition date (lines 107 and 239) *)

Lemma parse_Y_of_four_digits s rest y :
  writes 4 s y = true ->
  Datetime.parse_Y (s +++ rest) = Some (y, rest).
Proof.
  unfold writes. rewrite !andb_true_iff, !Nat.eqb_eq.
  intros [[Hlen Hdig] Hval].
  destruct s as [| a [| b [| c [| d [| x s]]]]]; try discriminate.
  cbn [XmlFragment.forall_chars] in Hdig.
  rewrite !andb_true_iff in Hdig. destruct Hdig as (Ha & Hb & Hc & Hd & _).
  cbn [String.append Datetime.parse_Y]. rewrite Ha, Hb, Hc, Hd.
  cbn [andb]. cbn [decimal_value] in Hval. do 2 f_equal. lia.
Qed.

Lemma parse_m_dash_of_two_digits m rest :
  1 <= m <= 12 ->
  Datetime.parse_m_dash (zfill 2 (dec m) +++ "-" +++ rest) = Some (m, rest).
Proof.
  intros [Hlo Hhi].
  do 13 (destruct m as [| m]; [try lia; reflexivity |]). lia.
Qed.

Lemma parse_d_of_two_digits d :
  1 <= d <= 31 ->
  Datetime.parse_d (zfill 2 (dec d)) = Some (d, EmptyString).
Proof.
  intros [Hlo Hhi].
  do 32 (destruct d as [| d]; [try lia; reflexivity |]). lia.
Qed.

Lemma slashed_append a b : slashed (a +++ b) = slashed a +++ slashed b.
Proof. induction a as [| c a IH]; simpl; [| rewrite IH]; reflexivity. Qed.

Lemma slashed_digits s :
  XmlFragment.forall_chars Datetime.is_digit s = true -> slashed s = s.
Proof.
  induction s as [| c s IH]; [reflexivity |].
  cbn [XmlFragment.forall_chars slashed]. intros H.
  apply andb_true_iff in H. destruct H as [Hc Hs]. rewrite (IH Hs).
  destruct (Ascii.eqb_spec c "-") as [-> |]; [discriminate | reflexivity].
Qed.

(** X16.  For every date from the year 1000 on that [datetime] accepts,
    [strptime] with the format of line 107 reads the text [YYYY-MM-DD]
    of the date back as that date, and [strftime] with the format of
    line 239 writes the same digits with slashes: the date of the key
    prefix is the text of the descriptor with its dashes replaced. *)
Theorem acquisition_date_round_trip :
  forall (dt : Datetime.t),
    1000 <= Datetime.year dt ->
    Datetime.valid dt = true ->
    Datetime.strptime (isoformat dt) = Ok dt
    /\ Datetime.strftime dt = slashed (isoformat dt).
Proof.
  intros [y m d] _ Hvalid.
  pose proof Hvalid as Hbounds. apply valid_bounds in Hbounds.
  cbn [Datetime.year Datetime.month Datetime.day] in Hbounds.
  destruct Hbounds as (Hy & Hm & Hd).
  assert (Hlow : 1 <= m /\ 1 <= d).
  { unfold Datetime.valid in Hvalid. rewrite !andb_true_iff, !Nat.leb_le in Hvalid.
    cbn [Datetime.year Datetime.month Datetime.day] in Hvalid. lia. }
  pose proof (zfill4_writes y Hy) as Hwy.
  pose proof (zfill2_writes m ltac:(lia)) as Hwm.
  pose proof (zfill2_writes d Hd) as Hwd.
  unfold isoformat. cbn [Datetime.year Datetime.month Datetime.day].
  split.
  - unfold Datetime.strptime.
    rewrite (parse_Y_of_four_digits _ _ _ Hwy).
    change ("-" +++ ?x) with (String Datetime.dash x).
    cbn [Datetime.parse_dash]. rewrite Ascii.eqb_refl.
    rewrite parse_m_dash_of_two_digits by lia.
    rewrite parse_d_of_two_digits by lia.
    rewrite Hvalid. reflexivity.
  - unfold Datetime.strftime. cbn [Datetime.year Datetime.month Datetime.day].
    unfold writes in Hwy, Hwm, Hwd.
    rewrite !andb_true_iff in Hwy, Hwm, Hwd.
    rewrite !slashed_append.
    rewrite (slashed_digits _ (proj2 (proj1 Hwy))),
      (slashed_digits _ (proj2 (proj1 Hwm))),
      (slashed_digits _ (proj2 (proj1 Hwd))).
    reflexivity.
Qed.

Lemma acquisition_date_round_trip_witness :
  Datetime.strptime "2001-05-11" = Ok (Datetime.mk 2001 5 11)
  /\ Datetime.strftime (Datetime.mk 2001 5 11) = "2001/05/11".
Proof.
  exact (acquisition_date_round_trip (Datetime.mk 2001 5 11)
           ltac:(vm_compute; lia) eq_refl).
Defined.

(** ** The output path (lines 153-168) *)

(** X17.  For a file [fname] of a directory [dir] of the walk ([fname]
    without slash, [dir] not empty and not ending in a slash),
    [getfilename] places the output at [outdir] joined with the last
    component of [dir] and [fname]: of the input path only the name of
    the directory that holds the file and the file name are kept. *)
Theorem output_path_keeps_two_components :
  forall (W : World) (made : list string) (outdir dir fname : string),
    contains "/" fname = false ->
    dir <> "" ->
    endswith dir "/" = false ->
    outcome (getfilename W made (join2 dir fname) outdir)
    = Ok (join2 outdir (join2 (last_item (split slash dir)) fname),
          if exists_now W made
               (dirname (join2 outdir
                               (join2 (last_item (split slash dir)) fname)))
          then made
          else dirname (join2 outdir (join2 (last_item (split slash dir)) fname))
               :: made).
Proof.
  intros W made outdir dir fname Hf Hd He. unfold getfilename.
  rewrite (check_dir_of_join dir fname Hf Hd He).
  destruct (exists_now W made _); reflexivity.
Qed.

Lemma output_path_keeps_two_components_witness :
  outcome (getfilename Examples.fresh_world []
             (join2 "/app/data/download/scene/gap_mask" "LE07_sr_band1_qa.tif")
             "/app/data/out")
  = Ok ("/app/data/out/gap_mask/LE07_sr_band1_qa.tif",
        ["/app/data/out/gap_mask"]).
Proof.
  rewrite (output_path_keeps_two_components Examples.fresh_world []
             "/app/data/out" "/app/data/download/scene/gap_mask"
             "LE07_sr_band1_qa.tif" eq_refl ltac:(discriminate) eq_refl).
  reflexivity.
Defined.

(** ** Cleaning up (lines 294-298) *)

Lemma cleanup_removals cfg W :
  outcome (cleanup_workspaces cfg W true) = Ok tt ->
  outcome (delete_files W (WORKDIR cfg)) = Ok tt
  /\ outcome (delete_files W (OUTDIR cfg)) = Ok tt
  /\ removals (trace (cleanup_workspaces cfg W true))
     = removals (trace (delete_files W (WORKDIR cfg)))
       ++ removals (trace (delete_files W (OUTDIR cfg))).
Proof.
  unfold cleanup_workspaces. intros Hout.
  rewrite (outcome_bind_ok (log INFO "Cleaning up workdir and outdir") _ tt eq_refl)
    in Hout.
  rewrite bind_unfold in Hout.
  destruct (outcome (delete_files W (WORKDIR cfg))) as [[] |] eqn:Hw;
    [| discriminate].
  cbn [outcome snd] in Hout.
  split; [reflexivity |]. split; [exact Hout |].
  unfold removals. rewrite filter_bind.
  cbn [log emit trace outcome fst snd filter is_remove app].
  rewrite filter_bind, Hw. reflexivity.
Qed.

(** The stages of an attempt that reaches its end all returned. *)
Lemma process_item_returns cfg W o c m f r :
  outcome (process_item cfg W o c m f) = Ok r ->
  exists pf pf',
    outcome (fetch cfg W f) = Ok tt
    /\ outcome (unpack cfg W (local_file_of f)) = Ok pf
    /\ outcome (if negb pf then handle_metadata cfg W o else ret pf) = Ok pf'
    /\ outcome (cleanup_workspaces cfg W c) = Ok tt.
Proof.
  unfold process_item. intros H.
  rewrite bind_unfold in H.
  destruct (outcome (fetch cfg W f)) as [[] |] eqn:Hf; [| discriminate].
  cbn [outcome snd] in H. rewrite bind_unfold in H.
  destruct (outcome (unpack cfg W (local_file_of f))) as [pf |] eqn:Hu;
    [| discriminate].
  cbn [outcome snd] in H. rewrite bind_unfold in H.
  destruct (outcome (if negb pf then handle_metadata cfg W o else ret pf))
    as [pf' |] eqn:Hh; [| discriminate].
  cbn [outcome snd] in H. rewrite bind_unfold in H.
  destruct (outcome (cleanup_workspaces cfg W c)) as [[] |] eqn:Hc;
    [| discriminate].
  exists pf, pf'. repeat split; assumption.
Qed.

(** The calls of an attempt that only the cleanup makes. *)
Lemma process_item_filter_cleanup p cfg W o c m f pf pf' :
  silent p (fetch cfg W f) ->
  silent p (unpack cfg W (local_file_of f)) ->
  silent p (handle_metadata cfg W o) ->
  (forall b, silent p (acknowledge b (local_file_of f) m)) ->
  outcome (fetch cfg W f) = Ok tt ->
  outcome (unpack cfg W (local_file_of f)) = Ok pf ->
  outcome (if negb pf then handle_metadata cfg W o else ret pf) = Ok pf' ->
  filter p (trace (process_item cfg W o c m f))
  = filter p (trace (cleanup_workspaces cfg W c)).
Proof.
  intros H1 H2 H3 H4 Hf Hu Hh. unfold process_item.
  rewrite filter_bind, H1, Hf. cbn [app].
  rewrite filter_bind, H2, Hu. cbn [app].
  rewrite filter_bind, Hh.
  assert (H3' : filter p (trace (if negb pf then handle_metadata cfg W o
                                 else ret pf)) = []).
  { destruct (negb pf); [exact H3 | reflexivity]. }
  rewrite H3'. cbn [app].
  rewrite filter_bind.
  destruct (outcome (cleanup_workspaces cfg W c)); [| apply app_nil_r].
  rewrite filter_bind, H4.
  destruct (outcome (acknowledge pf' (local_file_of f) m)); cbn;
    rewrite ?app_nil_r; reflexivity.
Qed.

(** X18.  With [cleanup=True] and two different workspaces, every
    attempt on a leased message that reaches the end of [process_one],
    with [process_failed] set or not, has cleared both workspaces as it
    found them after its work: both directories were listed, first
    [WORKDIR] and then [OUTDIR], the removals of the attempt are those
    of the entries of [WORKDIR] followed by those of the entries of
    [OUTDIR], each a file or a directory at that time, and every one of
    them went through. *)
Theorem finished_attempt_clears_both_workspaces :
  forall (cfg : Config) (W : World) (overwrite : bool)
         (message : Message) (rest : list Message) (r : completion),
    WORKDIR cfg <> OUTDIR cfg ->
    receive_messages W = message :: rest ->
    outcome (process_one cfg W overwrite true false) = Ok r ->
    exists (work_files out_files : list string),
      listdir_at_cleanup W (WORKDIR cfg) = Ok work_files
      /\ listdir_at_cleanup W (OUTDIR cfg) = Ok out_files
      /\ removals (trace (process_one cfg W overwrite true false))
         = flat_map (removal_of W (WORKDIR cfg)) work_files
           ++ flat_map (removal_of W (OUTDIR cfg)) out_files
      /\ (forall name, In name work_files -> removed W (WORKDIR cfg) name)
      /\ (forall name, In name out_files -> removed W (OUTDIR cfg) name).
Proof.
  intros cfg W overwrite message rest r _ Hq Hout.
  rewrite (leased_outcome cfg W overwrite true _ _ Hq) in Hout.
  destruct (process_item_returns _ _ _ _ _ _ _ Hout)
    as (pf & pf' & Hf & Hu & Hh & Hc).
  destruct (cleanup_removals cfg W Hc) as (Hw & Ho & Hrm).
  destruct (delete_files_returned W (WORKDIR cfg) Hw) as (wf & Hlw & Haw & Hrw).
  destruct (delete_files_returned W (OUTDIR cfg) Ho) as (outf & Hlo & Hao & Hro).
  exists wf, outf.
  split; [exact Hlw |]. split; [exact Hlo |].
  split; [| split; assumption].
  unfold removals.
  rewrite (leased_filter is_remove cfg W overwrite true _ _ Hq);
    [| reflexivity | reflexivity].
  rewrite (process_item_filter_cleanup is_remove cfg W overwrite true
             (Some message) (body message) pf pf');
    [| try assumption; try (intros; silent_script) ..].
  unfold removals in Hrm, Hrw, Hro. rewrite Hrm, Hrw, Hro. reflexivity.
Qed.

Lemma finished_attempt_clears_both_workspaces_witness :
  removals (trace (process_one Examples.cfg Examples.fresh_world
                     false true false))
  = [Unlink "data/download/LE072110481999070901T1-SC20181129142650.tar.gz";
     Unlink "data/download/LE07_sr_band1.tif";
     Unlink "data/download/LE07_sr_band2.tif";
     Unlink "data/download/LE07_sr_band3.tif";
     Unlink "data/download/LE07_sr_band4.tif";
     Unlink "data/download/LE07_sr_band5.tif";
     Unlink "data/download/LE07_sr_band7.tif";
     Unlink "data/download/LE07_pixel_qa.tif";
     Unlink "data/download/LE07.xml";
     Unlink "data/download/LE07_toa_band1.tif";
     Rmtree "data/out/download"].
Proof.
  destruct (finished_attempt_clears_both_workspaces Examples.cfg
              Examples.fresh_world false Examples.message []
              (Finished false) ltac:(discriminate) eq_refl eq_refl)
    as (work_files & out_files & Hw & Ho & Hrm & _).
  rewrite Hrm.
  injection Hw as <-. injection Ho as <-. reflexivity.
Defined.

(** ** The descriptor lookup (lines 132-140) *)

Lemma find_first {A} (p : A -> bool) (l : list A) (x : A) :
  find p l = Some x <->
  exists l1 l2,
    l = l1 ++ x :: l2 /\ p x = true /\ (forall y, In y l1 -> p y = false).
Proof.
  induction l as [| a l IH]; cbn [find].
  - split; [discriminate |]. intros (l1 & l2 & H & _). destruct l1; discriminate.
  - destruct (p a) eqn:Ha.
    + split.
      * intros H. injection H as <-. exists [], l. repeat split; [exact Ha |].
        intros y [].
      * intros (l1 & l2 & H & Hx & Hl1). destruct l1 as [| b l1].
        -- injection H as -> _. reflexivity.
        -- injection H as -> _. rewrite (Hl1 b (or_introl eq_refl)) in Ha.
           discriminate.
    + rewrite IH. split.
      * intros (l1 & l2 & -> & Hx & Hl1). exists (a :: l1), l2.
        repeat split; [exact Hx |]. intros y [<- | Hy]; [exact Ha | apply Hl1, Hy].
      * intros (l1 & l2 & H & Hx & Hl1). destruct l1 as [| b l1].
        -- injection H as -> _. rewrite Hx in Ha. discriminate.
        -- injection H as _ ->. exists l1, l2. repeat split; [exact Hx |].
           intros y Hy. apply Hl1. right. exact Hy.
Qed.

(** X19.  [get_xmlfile] returns the first name of the listing that
    contains [.xml], wherever in the name and whatever the entry is: it
    returns [f] exactly when [f] is listed, contains [.xml], and no name
    listed before it does. *)
Theorem get_xmlfile_returns_first_match :
  forall (W : World) (directory f : string),
    get_xmlfile W directory = Some f <->
    exists before after,
      listdir W directory = before ++ f :: after
      /\ contains ".xml" f = true
      /\ (forall name, In name before -> contains ".xml" name = false).
Proof. intros W directory f. unfold get_xmlfile. apply find_first. Qed.

Lemma get_xmlfile_returns_first_match_witness :
  get_xmlfile Examples.cluttered_world "data/download" = Some "LE07.xml".
Proof.
  apply (proj2 (get_xmlfile_returns_first_match Examples.cluttered_world
                  "data/download" "LE07.xml")).
  exists [], ["gap_mask"; "stale-link"; Examples.band "1"].
  repeat split. intros name [].
Defined.
